(** * Test Case Generator: the command-line and Streamlit front-ends

    A shallow embedding of [script.py] and [streamlit_app.py].  Both files
    send a fixed system prompt and the user's description to a chat model
    and show the answer; the Streamlit front-end also decodes the answer as
    JSON and renders the test cases it contains.

    Python strings are Rocq strings holding the UTF-8 encoding of the text.
    Calls to Streamlit, to the terminal, to the logger and to the chat model
    are recorded, in program order, in an explicit [world]. *)

From Stdlib Require Import String Ascii List ZArith NArith Bool Arith Lia.
From Stdlib Require Import DecimalString.
Import ListNotations.
Local Open Scope list_scope.
Local Open Scope string_scope.
Local Open Scope nat_scope.
Set Warnings "-register-all".

(** ** Characters and text *)

Module Text.

Definition chr (n : nat) : string := String (ascii_of_nat n) EmptyString.

(** The double quote, the line feed and the backslash. *)
Definition dq : string := chr 34.
Definition nl : string := chr 10.
Definition bs : string := chr 92.

(** [q s] is [s] between double quotes. *)
Definition q (s : string) : string := dq ++ s ++ dq.

Definition lines (l : list string) : string := String.concat nl l.

Definition str_of_nat (n : nat) : string :=
  NilEmpty.string_of_uint (Nat.to_uint n).

Definition str_of_Z (z : Z) : string :=
  NilEmpty.string_of_int (Z.to_int z).

Definition code (a : ascii) : nat := nat_of_ascii a.

(** A byte of the form 10xxxxxx continues a UTF-8 sequence. *)
Definition is_continuation (a : ascii) : bool :=
  (128 <=? code a) && (code a <? 192).

(** The code points of a text, each as the string of its UTF-8 bytes. *)
Fixpoint chars (s : string) : list string :=
  match s with
  | EmptyString => []
  | String a rest =>
      match chars rest with
      | [] => [String a EmptyString]
      | c :: cs =>
          match c with
          | String b _ =>
              if is_continuation b
              then String a c :: cs
              else String a EmptyString :: c :: cs
          | EmptyString => String a EmptyString :: cs
          end
      end
  end.

(** [len(s)]: the number of code points. *)
Fixpoint py_len (s : string) : nat :=
  match s with
  | EmptyString => 0
  | String a rest => (if is_continuation a then 0 else 1) + py_len rest
  end.

(** [str.isspace] on one code point: the ASCII separators and the Unicode
    spaces U+0085, U+00A0, U+1680, U+2000..U+200A, U+2028, U+2029, U+202F,
    U+205F and U+3000. *)
Definition isspace (c : string) : bool :=
  match map code (list_ascii_of_string c) with
  | [n] => ((9 <=? n) && (n <=? 13)) || ((28 <=? n) && (n <=? 32))
  | [194; n] => (n =? 133) || (n =? 160)
  | [225; 154; 128] => true
  | [226; 128; n] =>
      ((128 <=? n) && (n <=? 138)) || (n =? 168) || (n =? 169) || (n =? 175)
  | [226; 129; 159] => true
  | [227; 128; 128] => true
  | _ => false
  end.

Fixpoint drop_while {A} (p : A -> bool) (l : list A) : list A :=
  match l with
  | [] => []
  | x :: t => if p x then drop_while p t else l
  end.

(** [s.strip()] *)
Definition strip (s : string) : string :=
  String.concat EmptyString
    (rev (drop_while isspace (rev (drop_while isspace (chars s))))).

Definition is_empty (s : string) : bool :=
  match s with EmptyString => true | _ => false end.

(** A surrogate (U+D800..U+DFFF) in a text shows in its UTF-8 form as the
    byte 237 followed by a byte from 160 to 191.  A text that holds one
    cannot be encoded. *)
Fixpoint has_surrogate (s : string) : bool :=
  match s with
  | EmptyString => false
  | String a rest =>
      ((code a =? 237)
       && match rest with
          | String b _ => (160 <=? code b) && (code b <=? 191)
          | EmptyString => false
          end)
      || has_surrogate rest
  end.

Definition is_ascii (a : ascii) : bool := code a <? 128.

Fixpoint all_ascii (s : string) : bool :=
  match s with
  | EmptyString => true
  | String a rest => is_ascii a && all_ascii rest
  end.

(** The ASCII characters of a text *)
Fixpoint ascii_only (s : string) : string :=
  match s with
  | EmptyString => EmptyString
  | String a rest =>
      if is_ascii a then String a (ascii_only rest) else ascii_only rest
  end.

Fixpoint starts_with (p s : string) : bool :=
  match p, s with
  | EmptyString, _ => true
  | String a p', String b s' => Ascii.eqb a b && starts_with p' s'
  | _, _ => false
  end.

End Text.
Import Text.

(** ** Python values, exceptions and built-ins *)

(** What [json.loads] can return.  A float keeps the text of its literal
    ([1.5], [2e3], [NaN], [-Infinity]); its value as a double is not
    modelled. *)
Inductive pyvalue : Type :=
| PyNone
| PyBool (b : bool)
| PyInt (z : Z)
| PyFloat (literal : string)
| PyStr (s : string)
| PyList (items : list pyvalue)
| PyDict (entries : list (string * pyvalue)).

(** The exception classes the two programs can meet.  All of them derive
    from [Exception]; [JSONDecodeError] derives from [ValueError].
    [UnicodeEncodeError] derives from [ValueError] too.  [ValueError] also
    stands for its other subclasses, which the programs do not tell apart
    from it, and [OtherError] for any further class below [Exception]
    that is not below [ValueError], such as the provider's connection and
    authentication errors. *)
Inductive exn_class : Type :=
| ValueError
| JSONDecodeError
| UnicodeEncodeError
| AttributeError
| TypeError
| RecursionError
| EOFError
| OtherError (name : string).

(** An exception object; [exn_msg] is what [str(e)] returns. *)
Record exn : Type := mkExn { exn_cls : exn_class; exn_msg : string }.

(** [isinstance(e, ValueError)] *)
Definition is_ValueError (e : exn) : bool :=
  match exn_cls e with
  | ValueError | JSONDecodeError | UnicodeEncodeError => true
  | _ => false
  end.

(** [isinstance(e, json.JSONDecodeError)] *)
Definition is_JSONDecodeError (e : exn) : bool :=
  match exn_cls e with
  | JSONDecodeError => true
  | _ => false
  end.

(** How a call ends: with a value, with an exception below [Exception], or
    by [st.stop()], whose signal is not below [Exception] and ends the
    script run. *)
Inductive outcome (A : Type) : Type :=
| Return (a : A)
| Raise (e : exn)
| Stop.
Arguments Return {A} a.
Arguments Raise {A} e.
Arguments Stop {A}.

Module Py.

Definition type_name (v : pyvalue) : string :=
  match v with
  | PyNone => "NoneType"
  | PyBool _ => "bool"
  | PyInt _ => "int"
  | PyFloat _ => "float"
  | PyStr _ => "str"
  | PyList _ => "list"
  | PyDict _ => "dict"
  end.

(** [d.get(key)] on the entries of a dict *)
Fixpoint lookup (key : string) (entries : list (string * pyvalue))
  : option pyvalue :=
  match entries with
  | [] => None
  | (k, v) :: rest => if String.eqb k key then Some v else lookup key rest
  end.

(** [d[key] = v]: a new key goes last, a known key keeps its place. *)
Fixpoint store (key : string) (v : pyvalue)
  (entries : list (string * pyvalue)) : list (string * pyvalue) :=
  match entries with
  | [] => [(key, v)]
  | (k, v') :: rest =>
      if String.eqb k key then (k, v) :: rest
      else (k, v') :: store key v rest
  end.

(** [obj.get(key, default)]; only a dict has the method. *)
Definition get (obj : pyvalue) (key : string) (default : pyvalue)
  : exn + pyvalue :=
  match obj with
  | PyDict entries =>
      inr (match lookup key entries with Some v => v | None => default end)
  | _ =>
      inl (mkExn AttributeError
             ("'" ++ type_name obj ++ "' object has no attribute 'get'"))
  end.

(** [len(obj)] *)
Definition len (obj : pyvalue) : exn + nat :=
  match obj with
  | PyStr s => inr (py_len s)
  | PyList items => inr (length items)
  | PyDict entries => inr (length entries)
  | _ =>
      inl (mkExn TypeError
             ("object of type '" ++ type_name obj ++ "' has no len()"))
  end.

(** What [for x in obj] visits: the items of a list, the characters of a
    string, the keys of a dict. *)
Definition iter (obj : pyvalue) : exn + list pyvalue :=
  match obj with
  | PyStr s => inr (map PyStr (chars s))
  | PyList items => inr items
  | PyDict entries => inr (map (fun kv => PyStr (fst kv)) entries)
  | _ =>
      inl (mkExn TypeError
             ("'" ++ type_name obj ++ "' object is not iterable"))
  end.

(** [enumerate(l, start)] *)
Fixpoint enumerate {A} (l : list A) (start : nat) : list (nat * A) :=
  match l with
  | [] => []
  | x :: t => (start, x) :: enumerate t (S start)
  end.

(** Built-ins of the interpreter that are taken as given: [repr] of a
    string, [repr] of the float a literal denotes, and whether that float
    is non-zero. *)
Section Builtins.

Variable str_repr : string -> string.
Variable float_repr : string -> string.
Variable float_bool : string -> bool.

(** [bool(v)] *)
Definition truthy (v : pyvalue) : bool :=
  match v with
  | PyNone => false
  | PyBool b => b
  | PyInt z => negb (Z.eqb z 0)
  | PyFloat literal => float_bool literal
  | PyStr s => negb (is_empty s)
  | PyList items => match items with [] => false | _ => true end
  | PyDict entries => match entries with [] => false | _ => true end
  end.

(** [repr(v)].  It takes a level of the interpreter's stack for a level
    of nesting, as decoding does: a value that [json.loads] has returned
    can be shown. *)
Fixpoint repr (v : pyvalue) : string :=
  match v with
  | PyNone => "None"
  | PyBool true => "True"
  | PyBool false => "False"
  | PyInt z => str_of_Z z
  | PyFloat literal => float_repr literal
  | PyStr s => str_repr s
  | PyList items => "[" ++ String.concat ", " (map repr items) ++ "]"
  | PyDict entries =>
      "{" ++ String.concat ", "
               (map (fun kv => str_repr (fst kv) ++ ": " ++ repr (snd kv))
                  entries) ++ "}"
  end.

(** [str(v)], which is also how an f-string shows [{v}] *)
Definition str (v : pyvalue) : string :=
  match v with
  | PyStr s => s
  | _ => repr v
  end.

End Builtins.

End Py.

(** ** [json.loads]

    A model of the decoder of CPython's [json] module as the programs use
    it (default arguments, a [str] argument): the grammar it accepts, with
    [NaN], [Infinity] and [-Infinity], the value it builds, and the
    message and position of the [JSONDecodeError] it raises, with the
    wording CPython has up to 3.12.  Positions count code points.

    The interpreter sets two limits to the decoder, past which it raises
    other exceptions: the nesting it has room for ([RecursionError]) and
    the digits of an integer ([ValueError], since 3.11).  They are the
    [limits] of [loads_within]; [loads] is the decoder where no limit is
    met.  The properties of the renderer below are proved for every
    decoder, whatever it raises. *)

Module Json.

Inductive scan_error : Type :=
| DecodeError (msg : string) (pos : nat)
| Failure (e : exn)
| OutOfFuel.

(** The levels of nesting the interpreter has room for, and the digits it
    allows an integer ([sys.get_int_max_str_digits()]); [None] for no
    limit. *)
Record limits : Type := {
  max_depth : option nat;
  max_digits : option nat
}.

Definition unlimited : limits := {| max_depth := None; max_digits := None |}.

Definition too_deep (what : string) : exn :=
  mkExn RecursionError
    ("maximum recursion depth exceeded while decoding a JSON " ++ what
       ++ " from a unicode string").

Definition too_many_digits (limit digits : nat) : exn :=
  mkExn ValueError
    ("Exceeds the limit (" ++ str_of_nat limit
       ++ " digits) for integer string conversion: value has "
       ++ str_of_nat digits
       ++ " digits; use sys.set_int_max_str_digits() to increase the limit").

(** The nesting left inside one more level, or [None] when there is no
    room for it. *)
Definition enter (depth : option nat) : option (option nat) :=
  match depth with
  | None => Some None
  | Some 0 => None
  | Some (S d) => Some (Some d)
  end.

(** A scanned value, the text left after it and the index of that text. *)
Definition scan (A : Type) : Type := (scan_error + (A * string * nat))%type.

Definition scan_bind {A B} (r : scan A) (k : A -> string -> nat -> scan B)
  : scan B :=
  match r with
  | inl e => inl e
  | inr (a, rest, idx) => k a rest idx
  end.

Definition is_ws (a : ascii) : bool :=
  match code a with
  | 32 | 9 | 10 | 13 => true
  | _ => false
  end.

Definition is_digit (a : ascii) : bool := (48 <=? code a) && (code a <=? 57).

Fixpoint skip_ws (s : string) (idx : nat) : string * nat :=
  match s with
  | String a rest => if is_ws a then skip_ws rest (S idx) else (s, idx)
  | EmptyString => (s, idx)
  end.

(** The longest prefix of digits, and the rest. *)
Fixpoint span_digits (s : string) : string * string :=
  match s with
  | String a rest =>
      if is_digit a
      then let (d, r) := span_digits rest in (String a d, r)
      else (EmptyString, s)
  | EmptyString => (EmptyString, s)
  end.

Fixpoint drop (n : nat) (s : string) : string :=
  match n, s with
  | S n', String _ rest => drop n' rest
  | _, _ => s
  end.

Definition digits_value (d : string) : Z :=
  fold_left (fun acc a => (acc * 10 + Z.of_nat (code a - 48))%Z)
    (list_ascii_of_string d) 0%Z.

Definition hex_value (a : ascii) : option N :=
  let n := code a in
  if (48 <=? n) && (n <=? 57) then Some (N.of_nat (n - 48))
  else if (65 <=? n) && (n <=? 70) then Some (N.of_nat (n - 55))
  else if (97 <=? n) && (n <=? 102) then Some (N.of_nat (n - 87))
  else None.

(** Four hexadecimal digits at the head of [s]. *)
Definition hex4 (s : string) : option (N * string) :=
  match s with
  | String a (String b (String c (String d rest))) =>
      match hex_value a, hex_value b, hex_value c, hex_value d with
      | Some x, Some y, Some z, Some w =>
          Some ((((x * 16 + y) * 16 + z) * 16 + w)%N, rest)
      | _, _, _, _ => None
      end
  | _ => None
  end.

Definition byte (n : N) : string := String (ascii_of_N n) EmptyString.

(** The UTF-8 bytes of a code point (a lone surrogate gets the three-byte
    form). *)
Definition utf8 (c : N) : string :=
  (if c <? 128 then byte c
   else if c <? 2048 then byte (192 + c / 64) ++ byte (128 + c mod 64)
   else if c <? 65536 then
     byte (224 + c / 4096) ++ byte (128 + (c / 64) mod 64)
       ++ byte (128 + c mod 64)
   else
     byte (240 + c / 262144) ++ byte (128 + (c / 4096) mod 64)
       ++ byte (128 + (c / 64) mod 64) ++ byte (128 + c mod 64))%N.

Definition is_high_surrogate (c : N) : bool := ((55296 <=? c) && (c <=? 56319))%N.
Definition is_low_surrogate (c : N) : bool := ((56320 <=? c) && (c <=? 57343))%N.
Definition join_surrogates (hi lo : N) : N :=
  (65536 + (hi - 55296) * 1024 + (lo - 56320))%N.

(** The character a one-letter escape stands for. *)
Definition unescape (a : ascii) : option string :=
  match code a with
  | 34 => Some dq
  | 92 => Some bs
  | 47 => Some "/"
  | 98 => Some (chr 8)
  | 102 => Some (chr 12)
  | 110 => Some (chr 10)
  | 114 => Some (chr 13)
  | 116 => Some (chr 9)
  | _ => None
  end.

Definition prepend (chunk : string) (r : scan string) : scan string :=
  match r with
  | inl e => inl e
  | inr (s, rest, idx) => inr (chunk ++ s, rest, idx)
  end.

(** [scanstring]: the text after an opening quote, up to the closing one.
    [idx] is the index of the head of [s], [begin] that of the opening
    quote. *)
Fixpoint scanstring (fuel : nat) (s : string) (idx begin : nat)
  : scan string :=
  match fuel with
  | 0 => inl OutOfFuel
  | S fuel' =>
      match s with
      | EmptyString =>
          inl (DecodeError "Unterminated string starting at" begin)
      | String a rest =>
          if code a =? 34 then inr (EmptyString, rest, S idx)
          else if code a =? 92 then
            match rest with
            | EmptyString =>
                inl (DecodeError "Unterminated string starting at" begin)
            | String e rest1 =>
                if code e =? 117 then
                  match hex4 rest1 with
                  | None => inl (DecodeError "Invalid \uXXXX escape" (S idx))
                  | Some (c, rest2) =>
                      if is_empty rest2 then
                        inl (DecodeError "Invalid \uXXXX escape" (S idx))
                      else if is_high_surrogate c && starts_with "\u" rest2
                      then
                        match hex4 (drop 2 rest2) with
                        | None =>
                            inl (DecodeError "Invalid \uXXXX escape" (idx + 7))
                        | Some (c2, rest3) =>
                            if is_empty rest3 then
                              inl (DecodeError "Invalid \uXXXX escape"
                                     (idx + 7))
                            else if is_low_surrogate c2
                            then prepend (utf8 (join_surrogates c c2))
                                   (scanstring fuel' rest3 (idx + 12) begin)
                            else prepend (utf8 c)
                                   (scanstring fuel' rest2 (idx + 6) begin)
                        end
                      else prepend (utf8 c)
                             (scanstring fuel' rest2 (idx + 6) begin)
                  end
                else
                  match unescape e with
                  | Some c =>
                      prepend c (scanstring fuel' rest1 (idx + 2) begin)
                  | None => inl (DecodeError "Invalid \escape" idx)
                  end
            end
          else if code a <=? 31 then
            inl (DecodeError "Invalid control character at" idx)
          else
            prepend (String a EmptyString)
              (scanstring fuel' rest
                 (if is_continuation a then idx else S idx) begin)
      end
  end.

(** The parts of a number: an optional minus sign; a zero, or a non-zero
    digit and further digits; optionally a point and digits; optionally
    [e] or [E], a sign and digits.  Each reader returns what it read and
    the text left; a point or an exponent without a digit after it is
    left unread. *)
Definition read_sign (s : string) : string * string :=
  match s with
  | String a rest => if code a =? 45 then ("-", rest) else (EmptyString, s)
  | EmptyString => (EmptyString, s)
  end.

Definition read_integer (s : string) : option (string * string) :=
  match s with
  | String a rest =>
      if code a =? 48 then Some ("0", rest)
      else if is_digit a then Some (span_digits s)
      else None
  | EmptyString => None
  end.

Definition read_fraction (s : string) : string * string :=
  match s with
  | String a rest =>
      if code a =? 46 then
        match span_digits rest with
        | (EmptyString, _) => (EmptyString, s)
        | (d, r) => (String a d, r)
        end
      else (EmptyString, s)
  | EmptyString => (EmptyString, s)
  end.

Definition read_exponent (s : string) : string * string :=
  match s with
  | String a rest =>
      if (code a =? 101) || (code a =? 69) then
        let (esign, rest') :=
          match rest with
          | String b r =>
              if (code b =? 45) || (code b =? 43)
              then (String b EmptyString, r)
              else (EmptyString, rest)
          | EmptyString => (EmptyString, rest)
          end in
        match span_digits rest' with
        | (EmptyString, _) => (EmptyString, s)
        | (d, r) => (String a (esign ++ d), r)
        end
      else (EmptyString, s)
  | EmptyString => (EmptyString, s)
  end.

(** The number at the head of [s]: an [int] when it has neither fraction
    nor exponent (unless it has more digits than allowed), a [float]
    otherwise. *)
Definition match_number (digits : option nat) (s : string) (idx : nat)
  : scan pyvalue :=
  let (sign, s1) := read_sign s in
  match read_integer s1 with
  | None => inl (DecodeError "Expecting value" idx)
  | Some (int_digits, s2) =>
      let (frac, s3) := read_fraction s2 in
      let (exp, s4) := read_exponent s3 in
      let text := sign ++ int_digits ++ frac ++ exp in
      if is_empty frac && is_empty exp then
        match digits with
        | Some limit =>
            if limit <? String.length int_digits
            then inl (Failure
                        (too_many_digits limit (String.length int_digits)))
            else
              inr (PyInt (if is_empty sign then digits_value int_digits
                          else (- digits_value int_digits)%Z),
                   s4, idx + String.length text)
        | None =>
            inr (PyInt (if is_empty sign then digits_value int_digits
                        else (- digits_value int_digits)%Z),
                 s4, idx + String.length text)
        end
      else inr (PyFloat text, s4, idx + String.length text)
  end.

Definition head_is (n : nat) (s : string) : bool :=
  match s with
  | String a _ => code a =? n
  | EmptyString => false
  end.

Definition constant (name : string) (v : pyvalue) (s : string) (idx : nat)
  : scan pyvalue :=
  inr (v, drop (String.length name) s, idx + String.length name).

(** [scan_once] reads one value at the head of [s]; [object_loop] and
    [array_loop] are the loops of the object and array readers, entered at
    a key and at an item.  [depth] is the nesting there is room for.  The
    recursion is on [fuel]; [loads_within] gives enough of it for every
    text. *)
Section Scanner.
Variable digits : option nat.

Fixpoint scan_once (fuel : nat) (depth : option nat) (s : string)
  (idx : nat) {struct fuel} : scan pyvalue :=
  match fuel with
  | 0 => inl OutOfFuel
  | S fuel' =>
      match s with
      | EmptyString => inl (DecodeError "Expecting value" idx)
      | String a rest =>
          if code a =? 34 then
            scan_bind (scanstring (S (String.length rest)) rest (S idx) idx)
              (fun str r i => inr (PyStr str, r, i))
          else if code a =? 123 then
            match enter depth with
            | None => inl (Failure (too_deep "object"))
            | Some inner =>
                let (s1, i1) := skip_ws rest (S idx) in
                if head_is 125 s1 then inr (PyDict [], drop 1 s1, S i1)
                else object_loop fuel' inner s1 i1 []
            end
          else if code a =? 91 then
            match enter depth with
            | None => inl (Failure (too_deep "array"))
            | Some inner =>
                let (s1, i1) := skip_ws rest (S idx) in
                if head_is 93 s1 then inr (PyList [], drop 1 s1, S i1)
                else array_loop fuel' inner s1 i1 []
            end
          else if starts_with "null" s then constant "null" PyNone s idx
          else if starts_with "true" s then
            constant "true" (PyBool true) s idx
          else if starts_with "false" s then
            constant "false" (PyBool false) s idx
          else if starts_with "NaN" s then
            constant "NaN" (PyFloat "NaN") s idx
          else if starts_with "Infinity" s then
            constant "Infinity" (PyFloat "Infinity") s idx
          else if starts_with "-Infinity" s then
            constant "-Infinity" (PyFloat "-Infinity") s idx
          else match_number digits s idx
      end
  end

with object_loop (fuel : nat) (depth : option nat) (s : string) (idx : nat)
       (entries : list (string * pyvalue)) {struct fuel} : scan pyvalue :=
  match fuel with
  | 0 => inl OutOfFuel
  | S fuel' =>
      if head_is 34 s then
        scan_bind
          (scanstring (S (String.length s)) (drop 1 s) (S idx) idx)
          (fun key s1 i1 =>
             let (s2, i2) := skip_ws s1 i1 in
             if head_is 58 s2 then
               let (s3, i3) := skip_ws (drop 1 s2) (S i2) in
               scan_bind (scan_once fuel' depth s3 i3)
                 (fun val s4 i4 =>
                    let entries' := Py.store key val entries in
                    let (s5, i5) := skip_ws s4 i4 in
                    if head_is 125 s5 then
                      inr (PyDict entries', drop 1 s5, S i5)
                    else if head_is 44 s5 then
                      let (s6, i6) := skip_ws (drop 1 s5) (S i5) in
                      object_loop fuel' depth s6 i6 entries'
                    else inl (DecodeError "Expecting ',' delimiter" i5))
             else inl (DecodeError "Expecting ':' delimiter" i2))
      else
        inl (DecodeError
               "Expecting property name enclosed in double quotes" idx)
  end

with array_loop (fuel : nat) (depth : option nat) (s : string) (idx : nat)
       (items : list pyvalue) {struct fuel} : scan pyvalue :=
  match fuel with
  | 0 => inl OutOfFuel
  | S fuel' =>
      scan_bind (scan_once fuel' depth s idx)
        (fun val s1 i1 =>
           let items' := (items ++ [val])%list in
           let (s2, i2) := skip_ws s1 i1 in
           if head_is 93 s2 then inr (PyList items', drop 1 s2, S i2)
           else if head_is 44 s2 then
             let (s3, i3) := skip_ws (drop 1 s2) (S i2) in
             array_loop fuel' depth s3 i3 items'
           else inl (DecodeError "Expecting ',' delimiter" i2))
  end.

End Scanner.

(** The line and column of code point [pos] of [doc], counted from
    [line] and [col] at its head. *)
Fixpoint line_col (doc : string) (pos line col : nat) : nat * nat :=
  match doc with
  | EmptyString => (line, col)
  | String a rest =>
      if is_continuation a then line_col rest pos line col
      else
        match pos with
        | 0 => (line, col)
        | S p =>
            if code a =? 10 then line_col rest p (S line) 1
            else line_col rest p line (S col)
        end
  end.

(** [JSONDecodeError(msg, doc, pos)] *)
Definition decode_error (msg doc : string) (pos : nat) : exn :=
  let (line, col) := line_col doc pos 1 1 in
  mkExn JSONDecodeError
    (msg ++ ": line " ++ str_of_nat line ++ " column " ++ str_of_nat col
       ++ " (char " ++ str_of_nat pos ++ ")").

(** U+FEFF in UTF-8 *)
Definition bom : string := chr 239 ++ chr 187 ++ chr 191.

(** [json.loads(s)] in an interpreter with the limits [l] *)
Definition loads_within (l : limits) (s : string) : exn + pyvalue :=
  if starts_with bom s then
    inl (decode_error "Unexpected UTF-8 BOM (decode using utf-8-sig)" s 0)
  else
    let (s0, i0) := skip_ws s 0 in
    match scan_once (max_digits l) (2 * String.length s + 2) (max_depth l)
            s0 i0 with
    | inl (DecodeError msg pos) => inl (decode_error msg s pos)
    | inl (Failure e) => inl e
    | inl OutOfFuel =>
        inl (mkExn RecursionError "maximum recursion depth exceeded")
    | inr (v, rest, i) =>
        let (rest', i') := skip_ws rest i in
        if is_empty rest' then inr v
        else inl (decode_error "Extra data" s i')
    end.

(** [json.loads(s)] where no limit of the interpreter is met *)
Definition loads (s : string) : exn + pyvalue := loads_within unlimited s.

(** [within limited n r]: the scan [r] had fuel enough, it left less than
    [n] characters if it read a value, and its diagnostic is in ASCII if
    it did not; it failed on a limit of the interpreter only where there
    is one ([limited]). *)
Definition within {A} (limited : bool) (n : nat) (r : scan A) : Prop :=
  match r with
  | inl OutOfFuel => False
  | inl (Failure e) => limited = true /\ all_ascii (exn_msg e) = true
  | inl (DecodeError msg _) => all_ascii msg = true
  | inr (_, rest, _) => String.length rest < n
  end.

End Json.

(** What the programs take from the interpreter: the JSON decoder, the
    three built-ins of [Py], and the wording of the [UnicodeEncodeError]
    raised for a text that cannot be encoded.  The programs are modelled
    for an arbitrary [interpreter]; [cpython_within l] fixes the decoder
    to [Json.loads_within l], and [cpython] to [Json.loads], the decoder
    where no limit is met. *)
Record interpreter : Type := {
  json_loads : string -> exn + pyvalue;
  str_repr : string -> string;
  float_repr : string -> string;
  float_bool : string -> bool;
  encode_error : string -> string
}.

Definition cpython (sr fr : string -> string) (fb : string -> bool)
  (ue : string -> string) : interpreter :=
  {| json_loads := Json.loads; str_repr := sr; float_repr := fr;
     float_bool := fb; encode_error := ue |}.

(** CPython with the limits [l] on its decoder *)
Definition cpython_within (l : Json.limits) (sr fr : string -> string)
  (fb : string -> bool) (ue : string -> string) : interpreter :=
  {| json_loads := Json.loads_within l; str_repr := sr; float_repr := fr;
     float_bool := fb; encode_error := ue |}.

(** The exception raised when [text] is to be encoded.  CPython words it
    in ASCII (the character is shown escaped), whatever the text. *)
Definition unicode_error (py : interpreter) (text : string) : exn :=
  mkExn UnicodeEncodeError (ascii_only (encode_error py text)).

(** ** The outside world *)

(** Chat messages ([langchain_core.messages]) *)
Inductive message : Type :=
| SystemMessage (content : string)
| HumanMessage (content : string).

(** The chat client, [ChatOpenAI(model=..., api_key=SecretStr(...))] *)
Record ChatOpenAI : Type := { model : string; api_key : string }.

(** One request sent to the provider *)
Record call : Type := { call_llm : ChatOpenAI; call_messages : list message }.

(** The calls made on Streamlit, in program order.  A [with] block keeps
    the calls made inside it. *)
Inductive element : Type :=
| PageConfig (page_title page_icon layout : string)
| Title (body : string)
| Header (body : string)
| Markdown (body : string)
| Text (body : string)
| Code (body language : string)
| Error (body : string)
| Warning (body : string)
| Success (body : string)
| TextArea (label placeholder : string) (height : nat)
| Button (label type : string)
| Expander (label : string) (inside : list element)
| Spinner (text : string) (inside : list element).

(** What happens on the terminal: the prompt of [input] and the lines of
    [print]. *)
Inductive terminal_event : Type :=
| Prompt (text : string)
| Printed (text : string).

(** Everything a run leaves behind. *)
Record world : Type := {
  ui : list element;
  terminal : list terminal_event;
  log : list string;
  calls : list call
}.

Definition empty_world : world :=
  {| ui := []; terminal := []; log := []; calls := [] |}.

(** What a run reads: the process environment, the line waiting on the
    standard input (if any), the state of the two widgets, the answer of
    the provider to each request, and the exception [print] raises for a
    text, if any (a text the encoding of the terminal cannot take). *)
Record environment : Type := {
  environ : string -> option string;
  stdin : option string;
  text_area_value : string;
  button_clicked : bool;
  remote : call -> exn + string;
  stdout_error : string -> option exn
}.

Definition set_ui (w : world) (u : list element) : world :=
  {| ui := u; terminal := terminal w; log := log w; calls := calls w |}.

(** [add_ui out w]: [w] after the Streamlit calls [out] *)
Definition add_ui (out : list element) (w : world) : world :=
  set_ui w (ui w ++ out).

(** [w] after one more event on the terminal, one more record in the log,
    one more request to the provider *)
Definition add_terminal (t : terminal_event) (w : world) : world :=
  {| ui := ui w; terminal := terminal w ++ [t]; log := log w;
     calls := calls w |}.

Definition add_log (s : string) (w : world) : world :=
  {| ui := ui w; terminal := terminal w; log := log w ++ [s];
     calls := calls w |}.

Definition add_call (c : call) (w : world) : world :=
  {| ui := ui w; terminal := terminal w; log := log w;
     calls := calls w ++ [c] |}.

(** ** Statements: a state and exception monad *)

Definition M (A : Type) : Type := world -> world * outcome A.

Definition ret {A} (a : A) : M A := fun w => (w, Return a).

Definition bind {A B} (c : M A) (k : A -> M B) : M B :=
  fun w =>
    match c w with
    | (w', Return a) => k a w'
    | (w', Raise e) => (w', Raise e)
    | (w', Stop) => (w', Stop)
    end.

Notation "x <- c ;; k" := (bind c (fun x => k))
  (at level 61, c at next level, right associativity).
Notation "c ;; k" := (bind c (fun _ => k))
  (at level 61, right associativity).

(** [raise e] *)
Definition raise {A} (e : exn) : M A := fun w => (w, Raise e).

(** A built-in that returns or raises *)
Definition lift {A} (r : exn + A) : M A :=
  match r with
  | inl e => raise e
  | inr a => ret a
  end.

(** [try: body except Exception as e: handler(e)] *)
Definition try_except {A} (body : M A) (handler : exn -> M A) : M A :=
  fun w =>
    match body w with
    | (w', Raise e) => handler e w'
    | r => r
    end.

(** [for x in l: body(x)] *)
Fixpoint for_each {A} (l : list A) (body : A -> M unit) : M unit :=
  match l with
  | [] => ret tt
  | x :: rest => body x ;; for_each rest body
  end.

(** [not v] for the result of [os.getenv] *)
Definition not_set (v : option string) : bool :=
  match v with
  | None => true
  | Some s => is_empty s
  end.

Definition SecretStr (v : option string) : string :=
  match v with
  | Some s => s
  | None => EmptyString
  end.

(** The texts a Streamlit call hands to the front end *)
Definition texts (e : element) : list string :=
  match e with
  | PageConfig page_title page_icon layout => [page_title; page_icon; layout]
  | Title body | Header body | Markdown body | Text body
  | Error body | Warning body | Success body => [body]
  | Code body language => [body; language]
  | TextArea label placeholder _ => [label; placeholder]
  | Button label type => [label; type]
  | Expander label _ => [label]
  | Spinner text _ => [text]
  end.

(** A call all of whose texts can be encoded *)
Definition showable (e : element) : bool :=
  forallb (fun text => negb (has_surrogate text)) (texts e).

Module St.

Section Calls.
Variable py : interpreter.

(** Streamlit encodes the texts of a call for the front end; the call
    raises [UnicodeEncodeError], and shows nothing, when one of them holds
    a surrogate. *)
Definition refusal (e : element) : option exn :=
  match find has_surrogate (texts e) with
  | Some text => Some (unicode_error py text)
  | None => None
  end.

Definition emit (e : element) : M unit :=
  fun w =>
    match refusal e with
    | Some x => (w, Raise x)
    | None => (add_ui [e] w, Return tt)
    end.

Definition set_page_config (page_title page_icon layout : string) : M unit :=
  emit (PageConfig page_title page_icon layout).
Definition title (body : string) : M unit := emit (Title body).
Definition header (body : string) : M unit := emit (Header body).
Definition markdown (body : string) : M unit := emit (Markdown body).
Definition text (body : string) : M unit := emit (Text body).
Definition code (body language : string) : M unit :=
  emit (Code body language).
Definition error (body : string) : M unit := emit (Error body).
Definition warning (body : string) : M unit := emit (Warning body).
Definition success (body : string) : M unit := emit (Success body).

(** [with st.expander(label): body].  The calls of [body] are kept inside
    the expander, also when [body] raises. *)
Definition expander {A} (label : string) (body : M A) : M A :=
  fun w =>
    match refusal (Expander label []) with
    | Some x => (w, Raise x)
    | None =>
        let (w', r) := body (set_ui w []) in
        (set_ui w' (ui w ++ [Expander label (ui w')]), r)
    end.

(** [with st.spinner(text): body] *)
Definition spinner {A} (text : string) (body : M A) : M A :=
  fun w =>
    match refusal (Spinner text []) with
    | Some x => (w, Raise x)
    | None =>
        let (w', r) := body (set_ui w []) in
        (set_ui w' (ui w ++ [Spinner text (ui w')]), r)
    end.

Variable env : environment.

(** [st.text_area(label, placeholder=..., height=...)] *)
Definition text_area (label placeholder : string) (height : nat)
  : M string :=
  fun w =>
    match refusal (TextArea label placeholder height) with
    | Some x => (w, Raise x)
    | None => (add_ui [TextArea label placeholder height] w,
               Return (text_area_value env))
    end.

(** [st.button(label, type=...)] *)
Definition button (label type : string) : M bool :=
  fun w =>
    match refusal (Button label type) with
    | Some x => (w, Raise x)
    | None => (add_ui [Button label type] w, Return (button_clicked env))
    end.

End Calls.

(** [st.stop()] *)
Definition stop {A} : M A := fun w => (w, Stop).

End St.

Section Process.
Variable env : environment.

(** [os.getenv(name)] *)
Definition os_getenv (name : string) : M (option string) :=
  ret (environ env name).

(** [input(prompt)] *)
Definition input (prompt : string) : M string :=
  fun w =>
    let w' := add_terminal (Prompt prompt) w in
    match stdin env with
    | Some line => (w', Return line)
    | None => (w', Raise (mkExn EOFError "EOF when reading a line"))
    end.

(** [await llm.ainvoke(messages)], then [.content] of the answer *)
Definition ainvoke (llm : ChatOpenAI) (messages : list message) : M string :=
  fun w =>
    let c := {| call_llm := llm; call_messages := messages |} in
    (add_call c w,
     match remote env c with
     | inl e => Raise e
     | inr content => Return content
     end).

(** [print(s)] *)
Definition print (s : string) : M unit :=
  fun w =>
    match stdout_error env s with
    | Some e => (w, Raise e)
    | None => (add_terminal (Printed s) w, Return tt)
    end.

End Process.

(** [logger.error(s)] *)
Definition logger_error (s : string) : M unit :=
  fun w => (add_log s w, Return tt).

(** ** The system prompt (the same class in both files) *)

Definition system_prompt_content : string :=
  lines [
    "You are an expert QA engineer. Generate comprehensive test cases in exact JSON format.";
    EmptyString;
    "ALWAYS output this exact JSON structure:";
    "{";
    "  " ++ q "test_cases" ++ ": [";
    "    {";
    "      " ++ q "title" ++ ": " ++ q "Descriptive title" ++ ", ";
    "      " ++ q "preconditions" ++ ": " ++ q "Prerequisites" ++ ",";
    "      " ++ q "steps" ++ ": [" ++ q "step1" ++ ", " ++ q "step2" ++ "],";
    "      " ++ q "expected_result" ++ ": " ++ q "Clear outcome";
    "    }";
    "  ]";
    "}";
    EmptyString;
    "Coverage requirements:";
    "- 1-2 happy path scenarios";
    "- 2-3 negative/edge cases  ";
    "- 1-2 security/validation cases";
    "- Total: 4-8 test cases based on complexity";
    EmptyString;
    "Output ONLY raw JSON, no other text.";
    EmptyString;
    "Focus on creating tasks that are:";
    "- Clear and actionable";
    "- Include all necessary context";
    "- Properly structured for automation";
    EmptyString;
    "Remember: ";
    "- Return ONLY the JSON object";
    "- Use EXACTLY the field names shown above (title, preconditions, steps, expected_result)";
    "- No additional text or explanation"
  ].

(** [SystemPrompt()] *)
Definition SystemPrompt : message := SystemMessage system_prompt_content.

Definition preamble : string :=
  "Please convert this test case into a task:" ++ nl ++ nl.

Definition not_set_message : string :=
  "OPENAI_API_KEY environment variable is not set".

(** ** [streamlit_app.py] *)

Module StreamlitApp.

Section Program.
Variable py : interpreter.
Variable env : environment.

(** [bool(v)] and [str(v)] of this interpreter *)
Definition truthy (v : pyvalue) : bool := Py.truthy (float_bool py) v.
Definition str (v : pyvalue) : string :=
  Py.str (str_repr py) (float_repr py) v.

(** [generate_test_cases(user_message)] *)
Definition generate_test_cases (user_message : string) : M string :=
  api_key <- os_getenv env "OPENAI_API_KEY" ;;
  if not_set api_key then raise (mkExn ValueError not_set_message)
  else
    let llm := {| model := "gpt-4o-mini"; api_key := SecretStr api_key |} in
    let system_prompt := SystemPrompt in
    let messages :=
      [system_prompt; HumanMessage (preamble ++ user_message)] in
    try_except
      (content <- ainvoke env llm messages ;;
       ret content)
      (fun e => raise e).

(** The body of the loop over the steps of a test case *)
Definition show_step (entry : nat * pyvalue) : M unit :=
  let (j, step) := entry in
  St.markdown py (str_of_nat j ++ ". " ++ str step).

(** The body of the loop over the test cases *)
Definition show_test_case (entry : nat * pyvalue) : M unit :=
  let (i, test_case) := entry in
  label <- lift (Py.get test_case "title" (PyStr "Untitled")) ;;
  St.expander py ("Test Case " ++ str_of_nat i ++ ": " ++ str label)
    (v <- lift (Py.get test_case "title" (PyStr "N/A")) ;;
     St.markdown py ("**Title:** " ++ str v) ;;
     v <- lift (Py.get test_case "preconditions" (PyStr "N/A")) ;;
     St.markdown py ("**Preconditions:** " ++ str v) ;;
     steps <- lift (Py.get test_case "steps" (PyList [])) ;;
     (if truthy steps then
        St.markdown py "**Steps:**" ;;
        items <- lift (Py.iter steps) ;;
        for_each (Py.enumerate items 1) show_step
      else ret tt) ;;
     v <- lift (Py.get test_case "expected_result" (PyStr "N/A")) ;;
     St.markdown py ("**Expected Result:** " ++ str v)).

(** The [try] block of [format_test_cases] *)
Definition format_body (json_content : string) : M unit :=
  test_data <- lift (json_loads py json_content) ;;
  test_cases <- lift (Py.get test_data "test_cases" (PyList [])) ;;
  if negb (truthy test_cases) then
    St.warning py "No test cases found in the response."
  else
    n <- lift (Py.len test_cases) ;;
    St.success py ("Generated " ++ str_of_nat n ++ " test cases:") ;;
    items <- lift (Py.iter test_cases) ;;
    for_each (Py.enumerate items 1) show_test_case.

(** The two [except] clauses of [format_test_cases]: the first is for
    [json.JSONDecodeError], the second for any other [Exception]. *)
Definition format_except (json_content : string) (e : exn) : M unit :=
  if is_JSONDecodeError e then
    St.error py ("Failed to parse JSON response: " ++ exn_msg e) ;;
    St.text py "Raw response:" ;;
    St.code py json_content "json"
  else St.error py ("Error formatting test cases: " ++ exn_msg e).

(** [format_test_cases(json_content)] *)
Definition format_test_cases (json_content : string) : M unit :=
  try_except (format_body json_content) (format_except json_content).

(** The [try] block of [main] and its two [except] clauses, the first for
    [ValueError], the second for any other [Exception] *)
Definition main_try (user_input : string) : M unit :=
  response <- generate_test_cases user_input ;;
  St.header py "Generated Test Cases" ;;
  format_test_cases response ;;
  St.expander py "View Raw JSON" (St.code py response "json").

Definition main_except (e : exn) : M unit :=
  if is_ValueError e then
    St.error py ("Configuration error: " ++ exn_msg e)
  else
    St.error py ("An error occurred: " ++ exn_msg e) ;;
    logger_error ("Error generating test cases: " ++ exn_msg e).

(** [main()] *)
Definition main : M unit :=
  St.set_page_config py "Test Case Generator" "🧪" "wide" ;;
  St.title py "🧪 Test Case Generator" ;;
  St.markdown py "Generate comprehensive test cases using AI" ;;
  api_key <- os_getenv env "OPENAI_API_KEY" ;;
  (if not_set api_key then
     St.error py "⚠️ OPENAI_API_KEY environment variable is not set. Please set it in your .env file." ;;
     St.stop
   else ret tt) ;;
  St.header py "Input" ;;
  user_input <-
    St.text_area py env "Enter your test case description:"
      "e.g., User should be able to log in, log out, and reset password."
      100 ;;
  clicked <- St.button py env "Generate Test Cases" "primary" ;;
  if clicked then
    if is_empty (strip user_input) then
      St.warning py "Please enter a test case description."
    else
      St.spinner py "Generating test cases..."
        (try_except (main_try user_input) main_except)
  else ret tt.

End Program.

End StreamlitApp.

(** ** [script.py] *)

Module Script.

Section Program.
Variable env : environment.

(** [main()] *)
Definition main : M unit :=
  api_key <- os_getenv env "OPENAI_API_KEY" ;;
  if not_set api_key then raise (mkExn ValueError not_set_message)
  else
    let llm := {| model := "gpt-4o-mini"; api_key := SecretStr api_key |} in
    let system_prompt := SystemPrompt in
    user_message <- input env "Enter the test case description: " ;;
    let messages :=
      [system_prompt; HumanMessage (preamble ++ user_message)] in
    try_except
      (content <- ainvoke env llm messages ;;
       print env content)
      (fun e => ret tt).

End Program.

End Script.

(** ** What a statement shows

    [renders c out r]: from every world, [c] makes exactly the Streamlit
    calls [out], touches nothing else, and ends with [r]. *)

Definition renders {A} (c : M A) (out : list element) (r : outcome A)
  : Prop :=
  forall w, c w = (add_ui out w, r).

(** The request that reaches the provider for a description *)
Definition request (key description : string) : call :=
  {| call_llm := {| model := "gpt-4o-mini"; api_key := key |};
     call_messages := [SystemPrompt; HumanMessage (preamble ++ description)] |}.

(** ** What is shown of a test case, and the head of the page *)

Module Spec.

Section Spec.
Variable py : interpreter.

(** A field of a test case as shown: its value, or [placeholder] when the
    key is missing. *)
Definition field (d : list (string * pyvalue)) (key placeholder : string)
  : string :=
  match Py.lookup key d with
  | Some v => StreamlitApp.str py v
  | None => placeholder
  end.

(** The steps as a numbered list, counted from [start] *)
Definition numbered (steps : list pyvalue) (start : nat) : list element :=
  map (fun e => Markdown (str_of_nat (fst e) ++ ". "
                            ++ StreamlitApp.str py (snd e)))
    (Py.enumerate steps start).

End Spec.

(** What the browser program shows first, and its input form *)
Definition page_head : list element :=
  [PageConfig "Test Case Generator" "🧪" "wide";
   Title "🧪 Test Case Generator";
   Markdown "Generate comprehensive test cases using AI"].

Definition input_form : list element :=
  [Header "Input";
   TextArea "Enter your test case description:"
     "e.g., User should be able to log in, log out, and reset password."
     100;
   Button "Generate Test Cases" "primary"].

End Spec.

(** ** How a run of the renderer ends *)

Inductive ending : Type :=
| CasesRendered
| NoTestCases
| ErrorShown.

Definition is_expander (e : element) : bool :=
  match e with Expander _ _ => true | _ => false end.

Definition is_error (e : element) : bool :=
  match e with Error _ => true | _ => false end.

Definition no_cases_message : string := "No test cases found in the response.".

(** [ends_in k out]: the calls [out] of a run are those of ending [k]: the
    banner followed by one expander per test case and nothing else; the
    warning alone; or calls among which is an error message. *)
Definition ends_in (k : ending) (out : list element) : bool :=
  match k with
  | CasesRendered =>
      match out with
      | Success _ :: c :: cases => forallb is_expander (c :: cases)
      | _ => false
      end
  | NoTestCases =>
      match out with
      | [Warning m] => String.eqb m no_cases_message
      | _ => false
      end
  | ErrorShown => existsb is_error out
  end.

(** An exception of the kind the renderer meets once the response is
    decoded: its message can be shown, and it is not a [JSONDecodeError]. *)
Definition plain (e : exn) : bool :=
  negb (has_surrogate (exn_msg e)) && negb (is_JSONDecodeError e).

(** [tame c]: [c] only makes Streamlit calls, the same from every world,
    does not stop the script, and raises [plain] exceptions only. *)
Definition tame {A} (c : M A) : Prop :=
  exists out r,
    renders c out r /\
    match r with
    | Return _ => True
    | Raise e => plain e = true
    | Stop => False
    end.

(** The two handlers of the renderer can show the failure of the decoder
    on [json_content], if it fails: the message has no surrogate, and
    neither has the text where it is shown too. *)
Definition failure_showable (py : interpreter) (json_content : string)
  : bool :=
  match json_loads py json_content with
  | inl e =>
      negb (has_surrogate (exn_msg e))
      && negb (is_JSONDecodeError e && has_surrogate json_content)
  | inr _ => true
  end.

(** ** Inputs for the examples *)

Module Examples.

(** The value of the exponent of a float literal ([e-7], [E+12], [e3]) *)
Definition exponent_value (exp : string) : Z :=
  match Json.drop 1 exp with
  | String a d =>
      if code a =? 45 then (- Json.digits_value d)%Z
      else if code a =? 43 then Json.digits_value d
      else Json.digits_value (String a d)
  | EmptyString => 0%Z
  end.

(** Whether the double a float literal denotes is not zero.  The literal
    stands for [m * 10 ^ e] with [m] its digits; it is rounded to zero
    when it is at most [2 ^ -1075], half the least double above zero (a
    literal under [10 ^ -400] is, without a look at its digits).  [NaN] and
    the infinities, which have no digit, are not zero. *)
Definition float_is_nonzero (literal : string) : bool :=
  let (_, s1) := Json.read_sign literal in
  let (int_digits, s2) := Json.span_digits s1 in
  if is_empty int_digits then true
  else
    let (frac, s3) := Json.read_fraction s2 in
    let (exp, _) := Json.read_exponent s3 in
    let digits := int_digits ++ Json.drop 1 frac in
    let m := Json.digits_value digits in
    let e :=
      (exponent_value exp - Z.of_nat (String.length (Json.drop 1 frac)))%Z in
    if (m =? 0)%Z then false
    else if (0 <=? e)%Z then true
    else if (Z.of_nat (String.length digits) + 400 <? - e)%Z then false
    else (10 ^ (- e) <? m * 2 ^ 1075)%Z.

(** The wording of the error CPython raises on encoding a text with a
    surrogate: it names the first surrogate and its index, counted in
    code points, or gives the indices of the first and the last one when
    several surrogates come first in a row. *)
Definition is_surrogate_head (a b : ascii) : bool :=
  (code a =? 237) && (160 <=? code b) && (code b <=? 191).

Fixpoint surrogate_index (s : string) (idx : nat) : nat :=
  match s with
  | EmptyString => idx
  | String a rest =>
      if match rest with
         | String b _ => is_surrogate_head a b
         | EmptyString => false
         end
      then idx
      else surrogate_index rest (if is_continuation a then idx else S idx)
  end.

(** The text from its first surrogate on *)
Fixpoint from_surrogate (s : string) : string :=
  match s with
  | EmptyString => EmptyString
  | String a rest =>
      if match rest with
         | String b _ => is_surrogate_head a b
         | EmptyString => false
         end
      then s
      else from_surrogate rest
  end.

(** The number of surrogates at the head of a text *)
Fixpoint surrogate_run (s : string) : nat :=
  match s with
  | String a (String b (String _ rest)) =>
      if is_surrogate_head a b then S (surrogate_run rest) else 0
  | _ => 0
  end.

Definition hex_digit (n : nat) : string :=
  chr (if n <? 10 then 48 + n else 87 + n).

(** The four hexadecimal digits of the surrogate at the head of a text *)
Definition surrogate_code (s : string) : string :=
  match s with
  | String _ (String b (String c _)) =>
      "d" ++ hex_digit (8 + (code b - 160) / 4)
          ++ hex_digit ((code b mod 4) * 4 + (code c - 128) / 16)
          ++ hex_digit (code c mod 16)
  | _ => EmptyString
  end.

Definition utf8_error (text : string) : string :=
  let first := surrogate_index text 0 in
  let run := surrogate_run (from_surrogate text) in
  if run <=? 1 then
    "'utf-8' codec can't encode character '" ++ bs ++ "u"
      ++ surrogate_code (from_surrogate text) ++ "' in position "
      ++ str_of_nat first ++ ": surrogates not allowed"
  else
    "'utf-8' codec can't encode characters in position "
      ++ str_of_nat first ++ "-" ++ str_of_nat (first + run - 1)
      ++ ": surrogates not allowed".

(** How a string and a float are shown: the string between single
    quotes, which is what CPython shows for a string without quotes,
    backslashes or unprintable characters, and the float by its literal,
    which is what CPython shows for a literal in shortest form; [nan]
    and [inf] for the three names. *)
Definition quoted (s : string) : string := "'" ++ s ++ "'".

Definition float_shown (literal : string) : string :=
  if String.eqb literal "NaN" then "nan"
  else if String.eqb literal "Infinity" then "inf"
  else if String.eqb literal "-Infinity" then "-inf"
  else literal.

(** An interpreter with the decoder [Json.loads] *)
Definition py : interpreter :=
  cpython quoted float_shown float_is_nonzero utf8_error.

(** The same interpreter with room for 994 levels of nesting in the
    decoder and 4300 digits in an integer, which is what CPython 3.11
    starts with *)
Definition cpython_limits : Json.limits :=
  {| Json.max_depth := Some 994; Json.max_digits := Some 4300 |}.

Definition py_within_limits : interpreter :=
  cpython_within cpython_limits quoted float_shown float_is_nonzero
    utf8_error.

(** The surrogate U+D800 as a text holds it *)
Definition lone_surrogate : string := chr 237 ++ chr 160 ++ chr 128.

(** [Sorry] followed by a space and the surrogate U+D800; the surrogate
    followed by a space and [{}] *)
Definition garbled_apology : string := "Sorry " ++ lone_surrogate.
Definition garbled_reply : string := lone_surrogate ++ " {}".

(** A thousand opening brackets; an array that holds an integer of 4301
    digits *)
Definition deep_array : string := string_of_list_ascii (repeat "["%char 1000).
Definition long_integer : string :=
  "[" ++ string_of_list_ascii (repeat "7"%char 4301) ++ "]".

(** [{"test_cases": [{"title": "T", "steps": ["ok", "x\ud800", "never"]}]}],
    where the second step ends in the escape of the surrogate U+D800 *)
Definition garbled_step : string :=
  "{" ++ q "test_cases" ++ ": [{" ++ q "title" ++ ": " ++ q "T" ++ ", "
    ++ q "steps" ++ ": [" ++ q "ok" ++ ", " ++ q ("x" ++ bs ++ "ud800")
    ++ ", " ++ q "never" ++ "]}]}".

(** [Sorry, I can't help with that.] *)
Definition apology : string := "Sorry, I can't help with that.".

(** [{"test_cases": []}] *)
Definition no_cases : string := "{" ++ q "test_cases" ++ ": []}".

(** [{"test_cases": [{"steps": []}]}] *)
Definition steps_only : string :=
  "{" ++ q "test_cases" ++ ": [{" ++ q "steps" ++ ": []}]}".

(** [{"test_cases": [{"title": "Login works", "preconditions": "User
    exists", "steps": ["Open app", "Enter credentials", "Submit"],
    "expected_result": "User is logged in"}]}] *)
Definition login : string :=
  "{" ++ q "test_cases" ++ ": [{" ++ q "title" ++ ": " ++ q "Login works"
    ++ ", " ++ q "preconditions" ++ ": " ++ q "User exists"
    ++ ", " ++ q "steps" ++ ": [" ++ q "Open app" ++ ", "
    ++ q "Enter credentials" ++ ", " ++ q "Submit" ++ "], "
    ++ q "expected_result" ++ ": " ++ q "User is logged in" ++ "}]}".

(** [[]], [{"test_cases": [1]}] and [{"test_cases": [{"steps": 5}]}] *)
Definition empty_array : string := "[]".
Definition number_case : string := "{" ++ q "test_cases" ++ ": [1]}".
Definition number_steps : string :=
  "{" ++ q "test_cases" ++ ": [{" ++ q "steps" ++ ": 5}]}".

(** A process environment that holds at most the API key *)
Definition environ_with (key : option string) (name : string)
  : option string :=
  if String.eqb name "OPENAI_API_KEY" then key else None.

(** A run in which the user gives [description] (on the standard input,
    and in the text area, pressing the button) and the provider gives
    [answer]. *)
Definition env (key : option string) (description : string)
  (answer : exn + string) : environment :=
  {| environ := environ_with key;
     stdin := Some description;
     text_area_value := description;
     button_clicked := true;
     remote := fun _ => answer;
     stdout_error := fun _ => None |}.

Definition connection_error : exn :=
  mkExn (OtherError "APIConnectionError") "Connection error.".

(** A failure of the provider whose message ends in the surrogate U+D800 *)
Definition garbled_error : exn :=
  mkExn (OtherError "APIError") ("Bad response " ++ lone_surrogate).

End Examples.

(** ** What the renderer shows *)

Module Shown.

Section Shown.
Variable py : interpreter.

(** What is listed as the steps of a test case: the items of a sequence,
    the characters of a string, the keys of an object; nothing for any
    other value and for a missing key. *)
Definition steps_items (d : list (string * pyvalue)) : list pyvalue :=
  match Py.lookup "steps" d with
  | Some (PyList items) => items
  | Some (PyStr s) => map PyStr (chars s)
  | Some (PyDict entries) => map (fun kv => PyStr (fst kv)) entries
  | _ => []
  end.

(** A number or a boolean *)
Definition is_scalar (v : pyvalue) : bool :=
  match v with
  | PyBool _ | PyInt _ | PyFloat _ => true
  | _ => false
  end.

(** The steps of a test case can be listed: the key is missing, or its
    value is not a number or boolean that counts as true. *)
Definition steps_listable (d : list (string * pyvalue)) : bool :=
  match Py.lookup "steps" d with
  | None => true
  | Some v => negb (is_scalar v && StreamlitApp.truthy py v)
  end.

(** The texts of a test case that are shown: its title, its
    preconditions, its expected result and its steps.  The test case is
    [encodable] when none of them holds a surrogate. *)
Definition shown_texts (d : list (string * pyvalue)) : list string :=
  [Spec.field py d "title" "N/A";
   Spec.field py d "preconditions" "N/A";
   Spec.field py d "expected_result" "N/A"]
    ++ map (StreamlitApp.str py) (steps_items d).

Definition encodable (d : list (string * pyvalue)) : bool :=
  forallb (fun text => negb (has_surrogate text)) (shown_texts d).

(** The label of the expander of test case number [i] *)
Definition case_label (i : nat) (d : list (string * pyvalue)) : string :=
  "Test Case " ++ str_of_nat i ++ ": " ++ Spec.field py d "title" "Untitled".

(** Test case number [i] shown in full: an expander with the title, the
    preconditions, the steps numbered from 1 under a heading (nothing
    when there is no step to list) and the expected result. *)
Definition rendered_case (i : nat) (d : list (string * pyvalue)) : element :=
  Expander (case_label i d)
    ([Markdown ("**Title:** " ++ Spec.field py d "title" "N/A");
      Markdown ("**Preconditions:** "
                  ++ Spec.field py d "preconditions" "N/A")]
     ++ match steps_items d with
        | [] => []
        | items => Markdown "**Steps:**" :: Spec.numbered py items 1
        end
     ++ [Markdown ("**Expected Result:** "
                     ++ Spec.field py d "expected_result" "N/A")])%list.

(** The test cases [ds] shown in full, numbered from [start] *)
Definition rendered_cases (ds : list (list (string * pyvalue)))
  (start : nat) : list element :=
  map (fun e => rendered_case (fst e) (snd e)) (Py.enumerate ds start).

(** The expander of a test case whose steps cannot be listed: it ends
    with the heading of the steps. *)
Definition broken_case (i : nat) (d : list (string * pyvalue)) : element :=
  Expander (case_label i d)
    [Markdown ("**Title:** " ++ Spec.field py d "title" "N/A");
     Markdown ("**Preconditions:** "
                 ++ Spec.field py d "preconditions" "N/A");
     Markdown "**Steps:**"].

(** The banner that announces [n] test cases, and the message of the
    second [except] clause of the renderer *)
Definition banner (n : nat) : element :=
  Success ("Generated " ++ str_of_nat n ++ " test cases:").

Definition formatting_error (msg : string) : element :=
  Error ("Error formatting test cases: " ++ msg).

(** What the renderer shows for a response text *)
Definition rendering (content : string) : list element :=
  ui (fst (StreamlitApp.format_test_cases py content empty_world)).

(** What the browser program shows under the spinner for an answer of the
    provider: the header, the rendering of the answer, and the answer
    itself in an expander.  When a Streamlit call raises on the way, the
    [except ValueError] clause of [main] shows its message as a
    configuration error. *)
Definition answer_panel (response : string) : list element :=
  Header "Generated Test Cases"
    :: rendering response
    ++ match snd (StreamlitApp.format_test_cases py response empty_world) with
       | Return _ =>
           if has_surrogate response then
             [Expander "View Raw JSON" [];
              Error ("Configuration error: "
                       ++ exn_msg (unicode_error py response))]
           else [Expander "View Raw JSON" [Code response "json"]]
       | Raise x => [Error ("Configuration error: " ++ exn_msg x)]
       | Stop => []
       end.

End Shown.

End Shown.

Module MoreExamples.

(** [{"test_cases": null}], [{"test_cases": 5}] and
    [{"test_cases": "abc"}] *)
Definition null_cases : string := "{" ++ q "test_cases" ++ ": null}".
Definition number_cases : string := "{" ++ q "test_cases" ++ ": 5}".
Definition string_cases : string :=
  "{" ++ q "test_cases" ++ ": " ++ q "abc" ++ "}".

(** [{"test_cases": [{"title": "A"}, 7, {"title": "B"}]}] *)
Definition second_is_number : string :=
  "{" ++ q "test_cases" ++ ": [{" ++ q "title" ++ ": " ++ q "A" ++ "}, 7, {"
    ++ q "title" ++ ": " ++ q "B" ++ "}]}".

(** [{"test_cases": [{"title": "A"}, {"steps": 5}]}] *)
Definition second_has_number_steps : string :=
  "{" ++ q "test_cases" ++ ": [{" ++ q "title" ++ ": " ++ q "A" ++ "}, {"
    ++ q "steps" ++ ": 5}]}".

(** [{"test_cases": [{"steps": "ab"}, {"steps": null}]}] *)
Definition string_steps : string :=
  "{" ++ q "test_cases" ++ ": [{" ++ q "steps" ++ ": " ++ q "ab" ++ "}, {"
    ++ q "steps" ++ ": null}]}".

(** A run of the command-line program with nothing left to read *)
Definition eof_env (key : option string) : environment :=
  {| environ := Examples.environ_with key;
     stdin := None;
     text_area_value := EmptyString;
     button_clicked := false;
     remote := fun _ => inr "{}";
     stdout_error := fun _ => None |}.

(** A run of the command-line program on a terminal that refuses a text
    with a surrogate, as a terminal in UTF-8 does; the provider gives
    [answer]. *)
Definition strict_terminal_env (answer : string) : environment :=
  {| environ := Examples.environ_with (Some "sk-test");
     stdin := Some "Log in";
     text_area_value := EmptyString;
     button_clicked := false;
     remote := fun _ => inr answer;
     stdout_error :=
       fun text =>
         if has_surrogate text
         then Some (unicode_error Examples.py text)
         else None |}.

End MoreExamples.

(** * Properties *)

(** ** Text *)

Example chars_of_text : chars "aé b" = ["a"; "é"; " "; "b"].
Proof. reflexivity. Qed.

Example len_of_text : py_len "aé b" = 4.
Proof. reflexivity. Qed.

(** [strip] removes the ASCII separators and the Unicode spaces (here a
    no-break space and an ideographic space) at both ends. *)
Example strip_of_text :
  strip ("  " ++ nl ++ "a b" ++ chr 9 ++ " ") = "a b" /\
  strip (chr 194 ++ chr 160 ++ "a" ++ chr 227 ++ chr 128 ++ chr 128) = "a" /\
  strip "   " = EmptyString /\
  strip EmptyString = EmptyString.
Proof. repeat split; reflexivity. Qed.

(** A surrogate is one code point of three bytes; a character of the
    Basic Multilingual Plane next to the surrogates is not one. *)
Example surrogates_of_text :
  has_surrogate ("x" ++ chr 237 ++ chr 160 ++ chr 128) = true /\
  py_len ("x" ++ chr 237 ++ chr 160 ++ chr 128) = 2 /\
  has_surrogate ("x" ++ chr 237 ++ chr 159 ++ chr 191) = false /\
  has_surrogate "é🧪" = false.
Proof. repeat split; reflexivity. Qed.

(** ** What can be encoded *)

Section Encoding.

Lemma all_ascii_app (a b : string) :
  all_ascii (a ++ b) = all_ascii a && all_ascii b.
Proof.
  induction a as [|x a IH]; [reflexivity|].
  cbn [append all_ascii]. now rewrite IH, andb_assoc.
Qed.

Lemma is_ascii_not_lead (a : ascii) :
  is_ascii a = true -> (code a =? 237) = false.
Proof.
  unfold is_ascii. intros H%Nat.ltb_lt. apply Nat.eqb_neq. lia.
Qed.

Lemma ascii_no_surrogate (s : string) :
  all_ascii s = true -> has_surrogate s = false.
Proof.
  induction s as [|a s IH]; [reflexivity|].
  cbn [all_ascii has_surrogate]. intros [Ha Hs]%andb_prop.
  now rewrite (is_ascii_not_lead a Ha), (IH Hs).
Qed.

(** A text after an ASCII prefix has a surrogate exactly when the text
    has one. *)
Lemma has_surrogate_after (a b : string) :
  all_ascii a = true -> has_surrogate (a ++ b) = has_surrogate b.
Proof.
  induction a as [|x a IH]; [reflexivity|].
  cbn [all_ascii append has_surrogate]. intros [Hx Ha]%andb_prop.
  now rewrite (is_ascii_not_lead x Hx), (IH Ha).
Qed.

Lemma ascii_only_ascii (s : string) : all_ascii (ascii_only s) = true.
Proof.
  induction s as [|a s IH]; [reflexivity|]. cbn [ascii_only].
  destruct (is_ascii a) eqn:Ha; [|exact IH].
  cbn [all_ascii]. now rewrite Ha, IH.
Qed.

Lemma str_of_nat_ascii (n : nat) : all_ascii (str_of_nat n) = true.
Proof.
  unfold str_of_nat. generalize (Nat.to_uint n).
  induction u as [|u IH|u IH|u IH|u IH|u IH|u IH|u IH|u IH|u IH|u IH];
    [reflexivity|..]; cbn [NilEmpty.string_of_uint all_ascii];
    now rewrite IH.
Qed.

(** The exception a Streamlit call raises for a text it cannot encode is
    a [ValueError] with a message in ASCII. *)
Lemma unicode_error_plain (py : interpreter) (text : string) :
  plain (unicode_error py text) = true.
Proof.
  unfold plain, unicode_error. cbn [exn_msg].
  now rewrite (ascii_no_surrogate _ (ascii_only_ascii _)).
Qed.

Lemma unicode_error_is_value_error (py : interpreter) (text : string) :
  is_ValueError (unicode_error py text) = true.
Proof. reflexivity. Qed.

Lemma plain_message (e : exn) :
  plain e = true -> has_surrogate (exn_msg e) = false.
Proof.
  unfold plain. intros [H _]%andb_prop. now apply negb_true_iff in H.
Qed.

Lemma plain_class (e : exn) : plain e = true -> is_JSONDecodeError e = false.
Proof.
  unfold plain. intros [_ H]%andb_prop. now apply negb_true_iff in H.
Qed.

End Encoding.

(** ** The decoder *)

Section Decoder.
Import Json.

Variable limited : bool.

Lemma within_mono {A} (n m : nat) (r : scan A) :
  within limited n r -> n <= m -> within limited m r.
Proof. destruct r as [[]|[[] ?]]; simpl; auto; lia. Qed.

Lemma within_prepend (n : nat) (chunk : string) (r : scan string) :
  within limited n r -> within limited n (prepend chunk r).
Proof. now destruct r as [[]|[[] ?]]. Qed.

Lemma within_bind {A B} (n m : nat) (r : scan A)
  (k : A -> string -> nat -> scan B) :
  within limited n r ->
  (forall a rest i, String.length rest < n -> within limited m (k a rest i)) ->
  within limited m (scan_bind r k).
Proof. destruct r as [[]|[[] ?]]; simpl; auto. Qed.

Lemma skip_ws_length (s : string) (idx : nat) :
  String.length (fst (skip_ws s idx)) <= String.length s.
Proof.
  revert idx. induction s as [|a s IH]; intro idx; simpl; [lia|].
  destruct (is_ws a); simpl; [|lia]. specialize (IH (S idx)). lia.
Qed.

Lemma drop_length (n : nat) (s : string) :
  String.length (drop n s) <= String.length s.
Proof.
  revert s. induction n as [|n IH]; intros [|a s]; simpl; try lia.
  specialize (IH s). lia.
Qed.

Lemma head_is_length (n : nat) (s : string) :
  head_is n s = true -> S (String.length (drop 1 s)) = String.length s.
Proof. now destruct s. Qed.

Lemma span_digits_length (s : string) :
  String.length (snd (span_digits s)) <= String.length s.
Proof.
  induction s as [|a s IH]; simpl; [lia|].
  destruct (is_digit a); simpl; [|lia].
  destruct (span_digits s); simpl in *. lia.
Qed.

Lemma hex4_length (s rest : string) (c : N) :
  hex4 s = Some (c, rest) -> String.length s = 4 + String.length rest.
Proof.
  destruct s as [|a [|b [|x [|y s]]]]; try discriminate. simpl.
  destruct (hex_value a), (hex_value b), (hex_value x), (hex_value y);
    try discriminate.
  now intros [= _ <-].
Qed.

Lemma scanstring_within (fuel : nat) (s : string) (idx begin : nat) :
  String.length s < fuel ->
  within limited (String.length s) (scanstring fuel s idx begin).
Proof.
  revert s idx. induction fuel as [|fuel IH]; intros s idx Hfuel; [lia|].
  destruct s as [|a rest]; [reflexivity|]. cbn [scanstring].
  simpl String.length in *.
  destruct (code a =? 34); [simpl; lia|].
  destruct (code a =? 92).
  - destruct rest as [|e rest1]; [reflexivity|]. simpl String.length in *.
    destruct (code e =? 117).
    + destruct (hex4 rest1) as [[c rest2]|] eqn:Hhex; [|reflexivity].
      apply hex4_length in Hhex.
      destruct (is_empty rest2); [reflexivity|].
      destruct (is_high_surrogate c && starts_with "\u" rest2).
      * destruct (hex4 (drop 2 rest2)) as [[c2 rest3]|] eqn:Hhex2;
          [|reflexivity].
        apply hex4_length in Hhex2.
        pose proof (drop_length 2 rest2).
        destruct (is_empty rest3); [reflexivity|].
        destruct (is_low_surrogate c2); apply within_prepend;
          (eapply within_mono; [apply IH|]); lia.
      * apply within_prepend. eapply within_mono; [apply IH|]; lia.
    + destruct (unescape e); [|reflexivity].
      apply within_prepend. eapply within_mono; [apply IH|]; lia.
  - destruct (code a <=? 31); [reflexivity|].
    apply within_prepend. eapply within_mono; [apply IH|]; lia.
Qed.

Lemma read_sign_length (s : string) :
  String.length (snd (read_sign s)) <= String.length s.
Proof. destruct s as [|a s]; simpl; [lia|]. destruct (code a =? 45); simpl; lia. Qed.

Lemma read_integer_length (s digits rest : string) :
  read_integer s = Some (digits, rest) ->
  String.length rest < String.length s.
Proof.
  destruct s as [|a s]; [discriminate|]. unfold read_integer.
  destruct (code a =? 48); [intros [= _ <-]; simpl; lia|].
  destruct (is_digit a) eqn:Hdigit; [|discriminate].
  simpl. rewrite Hdigit. pose proof (span_digits_length s).
  destruct (span_digits s). intros [= _ <-]. simpl in *. lia.
Qed.

Lemma read_fraction_length (s : string) :
  String.length (snd (read_fraction s)) <= String.length s.
Proof.
  destruct s as [|a s]; simpl; [lia|].
  destruct (code a =? 46); simpl; [|lia].
  pose proof (span_digits_length s).
  destruct (span_digits s) as [[|d ds] r]; simpl in *; lia.
Qed.

Lemma read_exponent_length (s : string) :
  String.length (snd (read_exponent s)) <= String.length s.
Proof.
  destruct s as [|a s]; simpl; [lia|].
  destruct ((code a =? 101) || (code a =? 69)); simpl; [|lia].
  destruct s as [|b r].
  - simpl. lia.
  - destruct ((code b =? 45) || (code b =? 43)).
    + pose proof (span_digits_length r).
      destruct (span_digits r) as [[|d ds] r']; simpl in *; lia.
    + pose proof (span_digits_length (String b r)).
      destruct (span_digits (String b r)) as [[|d ds] r']; simpl in *; lia.
Qed.

Lemma too_many_digits_ascii (limit digits : nat) :
  all_ascii (exn_msg (too_many_digits limit digits)) = true.
Proof.
  unfold too_many_digits. cbn [exn_msg].
  now rewrite !all_ascii_app, !str_of_nat_ascii.
Qed.

(** An integer is refused for its digits only where there is a limit. *)
Lemma match_number_within (digits : option nat) (s : string) (idx : nat) :
  (limited = false -> digits = None) ->
  within limited (String.length s) (match_number digits s idx).
Proof.
  intro Hlimit. unfold match_number.
  pose proof (read_sign_length s).
  destruct (read_sign s) as [sign s1].
  destruct (read_integer s1) as [[int_digits s2]|] eqn:Hint; [|reflexivity].
  apply read_integer_length in Hint.
  pose proof (read_fraction_length s2).
  destruct (read_fraction s2) as [frac s3].
  pose proof (read_exponent_length s3).
  destruct (read_exponent s3) as [exp s4].
  simpl fst in *; simpl snd in *.
  destruct (is_empty frac && is_empty exp); [|simpl; lia].
  destruct digits as [limit|]; [|simpl; lia].
  destruct (limit <? String.length int_digits); [|simpl; lia].
  split; [|apply too_many_digits_ascii].
  destruct limited; [reflexivity|]. now discriminate Hlimit.
Qed.

Lemma constant_within (name : string) (v : pyvalue) (a : ascii)
  (s : string) (idx : nat) :
  0 < String.length name ->
  within limited (String.length (String a s))
    (constant name v (String a s) idx).
Proof.
  intro Hname. unfold constant, within.
  destruct (String.length name) as [|n]; [lia|].
  simpl. pose proof (drop_length n s). lia.
Qed.

Lemma enter_unlimited (depth : option nat) :
  (limited = false -> depth = None) ->
  match enter depth with
  | Some inner => limited = false -> inner = None
  | None => limited = true
  end.
Proof.
  intro Hlimit. destruct depth as [[|d]|]; simpl.
  - destruct limited; [reflexivity|]. now discriminate Hlimit.
  - intro H. now discriminate Hlimit.
  - reflexivity.
Qed.

(** [scan_once] has enough of twice the length of the text and one, the
    loops of twice the length and two. *)
Lemma scan_within (digits : option nat) (fuel : nat) :
  (limited = false -> digits = None) ->
  (forall depth s idx,
     (limited = false -> depth = None) ->
     2 * String.length s + 1 <= fuel ->
     within limited (String.length s) (scan_once digits fuel depth s idx)) /\
  (forall depth s idx entries,
     (limited = false -> depth = None) ->
     2 * String.length s + 2 <= fuel ->
     within limited (String.length s)
       (object_loop digits fuel depth s idx entries)) /\
  (forall depth s idx items,
     (limited = false -> depth = None) ->
     2 * String.length s + 2 <= fuel ->
     within limited (String.length s)
       (array_loop digits fuel depth s idx items)).
Proof.
  intro Hdigits.
  induction fuel as [|fuel (IHscan & IHobject & IHarray)];
    [repeat split; intros; lia|].
  repeat split.
  - intros depth s idx Hdepth Hfuel. destruct s as [|a rest]; [reflexivity|].
    cbn [scan_once]. simpl String.length in Hfuel.
    destruct (code a =? 34).
    { eapply within_bind.
      - apply scanstring_within. lia.
      - intros str r i Hr. cbn [within String.length]. lia. }
    destruct (code a =? 123).
    { pose proof (enter_unlimited depth Hdepth) as Hinner.
      destruct (enter depth) as [inner|]; [|now split].
      pose proof (skip_ws_length rest (S idx)).
      destruct (skip_ws rest (S idx)) as [s1 i1]. simpl fst in *.
      destruct (head_is 125 s1) eqn:Hclose.
      - apply head_is_length in Hclose. cbn [within String.length]. lia.
      - eapply within_mono; [apply IHobject; [exact Hinner|]|];
          cbn [String.length]; lia. }
    destruct (code a =? 91).
    { pose proof (enter_unlimited depth Hdepth) as Hinner.
      destruct (enter depth) as [inner|]; [|now split].
      pose proof (skip_ws_length rest (S idx)).
      destruct (skip_ws rest (S idx)) as [s1 i1]. simpl fst in *.
      destruct (head_is 93 s1) eqn:Hclose.
      - apply head_is_length in Hclose. cbn [within String.length]. lia.
      - eapply within_mono; [apply IHarray; [exact Hinner|]|];
          cbn [String.length]; lia. }
    repeat match goal with
           | |- within _ _ (if ?b then _ else _) =>
               destruct b; [apply constant_within; simpl; lia|]
           end.
    now apply match_number_within.
  - intros depth s idx entries Hdepth Hfuel. cbn [object_loop].
    destruct (head_is 34 s) eqn:Hquote; [|reflexivity].
    apply head_is_length in Hquote.
    eapply within_bind; [apply scanstring_within; lia|].
    intros key s1 i1 Hs1.
    pose proof (skip_ws_length s1 i1).
    destruct (skip_ws s1 i1) as [s2 i2]. simpl fst in *.
    destruct (head_is 58 s2) eqn:Hcolon; [|reflexivity].
    apply head_is_length in Hcolon.
    pose proof (skip_ws_length (drop 1 s2) (S i2)).
    destruct (skip_ws (drop 1 s2) (S i2)) as [s3 i3]. simpl fst in *.
    eapply within_bind; [apply IHscan; [exact Hdepth|lia]|].
    intros val s4 i4 Hs4.
    pose proof (skip_ws_length s4 i4).
    destruct (skip_ws s4 i4) as [s5 i5]. simpl fst in *.
    destruct (head_is 125 s5) eqn:Hclose.
    { apply head_is_length in Hclose. cbn [within String.length]. lia. }
    destruct (head_is 44 s5) eqn:Hcomma; [|reflexivity].
    apply head_is_length in Hcomma.
    pose proof (skip_ws_length (drop 1 s5) (S i5)).
    destruct (skip_ws (drop 1 s5) (S i5)) as [s6 i6]. simpl fst in *.
    eapply within_mono; [apply IHobject; [exact Hdepth|]|]; lia.
  - intros depth s idx items Hdepth Hfuel. cbn [array_loop].
    eapply within_bind; [apply IHscan; [exact Hdepth|lia]|].
    intros val s1 i1 Hs1.
    pose proof (skip_ws_length s1 i1).
    destruct (skip_ws s1 i1) as [s2 i2]. simpl fst in *.
    destruct (head_is 93 s2) eqn:Hclose.
    { apply head_is_length in Hclose. cbn [within String.length]. lia. }
    destruct (head_is 44 s2) eqn:Hcomma; [|reflexivity].
    apply head_is_length in Hcomma.
    pose proof (skip_ws_length (drop 1 s2) (S i2)).
    destruct (skip_ws (drop 1 s2) (S i2)) as [s3 i3]. simpl fst in *.
    eapply within_mono; [apply IHarray; [exact Hdepth|]|]; lia.
Qed.

End Decoder.

Section DecoderOutcomes.
Import Json.

Lemma decode_error_class (msg doc : string) (pos : nat) :
  exn_cls (decode_error msg doc pos) = JSONDecodeError.
Proof. unfold decode_error. now destruct (line_col doc pos 1 1). Qed.

Lemma decode_error_ascii (msg doc : string) (pos : nat) :
  all_ascii msg = true -> all_ascii (exn_msg (decode_error msg doc pos)) = true.
Proof.
  intro Hmsg. unfold decode_error. destruct (line_col doc pos 1 1).
  cbn [exn_msg]. now rewrite !all_ascii_app, Hmsg, !str_of_nat_ascii.
Qed.

(** What the decoder does within the limits [l]: it returns a value or
    raises an exception; the exception is a [JSONDecodeError] unless a
    limit is met, and its message is in ASCII.  The fuel given to
    [scan_once] is enough for every text. *)
Lemma loads_within_outcome (l : limits) (s : string) :
  match loads_within l s with
  | inl e =>
      all_ascii (exn_msg e) = true /\
      (exn_cls e = JSONDecodeError \/ l <> unlimited)
  | inr _ => True
  end.
Proof.
  unfold loads_within.
  destruct (starts_with bom s).
  { split; [apply decode_error_ascii; reflexivity
           | left; apply decode_error_class]. }
  pose proof (skip_ws_length s 0).
  destruct (skip_ws s 0) as [s0 i0]. simpl fst in *.
  set (limited := match max_digits l, max_depth l with
                  | None, None => false
                  | _, _ => true
                  end).
  assert (Hdigits : limited = false -> max_digits l = None).
  { subst limited. now destruct (max_digits l). }
  assert (Hdepth : limited = false -> max_depth l = None).
  { subst limited. now destruct (max_digits l), (max_depth l). }
  pose proof (proj1 (scan_within limited (max_digits l)
                       (2 * String.length s + 2) Hdigits)
                (max_depth l) s0 i0 Hdepth) as Hscan.
  destruct (scan_once (max_digits l) (2 * String.length s + 2) (max_depth l)
              s0 i0) as [[msg pos|e|]|[[v rest] i]].
  - split; [apply decode_error_ascii, Hscan; lia|].
    left. apply decode_error_class.
  - destruct Hscan as [Hlimited Hascii]; [lia|]. split; [exact Hascii|].
    right. intros ->. subst limited. discriminate.
  - exfalso. apply Hscan. lia.
  - destruct (skip_ws rest i) as [rest' i'].
    destruct (is_empty rest'); [exact I|].
    split; [apply decode_error_ascii; reflexivity
           | left; apply decode_error_class].
Qed.

(** Where no limit of the interpreter is met, the decoder returns a value
    or raises [JSONDecodeError]. *)
Lemma loads_decodes_or_rejects (s : string) :
  match loads s with
  | inl e => exn_cls e = JSONDecodeError
  | inr _ => True
  end.
Proof.
  unfold loads. pose proof (loads_within_outcome unlimited s) as H.
  destruct (loads_within unlimited s) as [e|v]; [|exact I].
  now destruct H as [_ [H|H]].
Qed.

Example loads_login :
  loads Examples.login =
    inr (PyDict
           [("test_cases",
             PyList
               [PyDict
                  [("title", PyStr "Login works");
                   ("preconditions", PyStr "User exists");
                   ("steps", PyList [PyStr "Open app";
                                     PyStr "Enter credentials";
                                     PyStr "Submit"]);
                   ("expected_result", PyStr "User is logged in")]])]).
Proof. reflexivity. Qed.

(** A key given twice keeps its place and takes the last value; [-0] is
    the integer zero; a number with a fraction or an exponent is a float. *)
Example loads_values :
  loads ("{" ++ q "a" ++ ": [1, -0, 2.5e3, true, null], "
           ++ q "b" ++ ": {}, " ++ q "a" ++ ": NaN}") =
    inr (PyDict [("a", PyFloat "NaN"); ("b", PyDict [])]) /\
  loads "[1, -0, 2.5e3, true, null]" =
    inr (PyList [PyInt 1; PyInt 0; PyFloat "2.5e3"; PyBool true; PyNone]).
Proof. split; reflexivity. Qed.

Example loads_diagnostics :
  loads Examples.apology =
    inl (mkExn JSONDecodeError "Expecting value: line 1 column 1 (char 0)") /\
  loads ("{" ++ q "a" ++ ": 1," ++ nl ++ "}") =
    inl (mkExn JSONDecodeError
           "Expecting property name enclosed in double quotes: line 2 column 1 (char 9)") /\
  loads "[1, 2] x" =
    inl (mkExn JSONDecodeError "Extra data: line 1 column 8 (char 7)") /\
  loads ("[" ++ dq ++ "abc") =
    inl (mkExn JSONDecodeError
           "Unterminated string starting at: line 1 column 2 (char 1)").
Proof. repeat split; reflexivity. Qed.

(** An escaped surrogate without its other half is decoded to the
    surrogate; a surrogate in the text counts as one character in the
    position of a diagnostic. *)
Example loads_surrogates :
  loads (q (bs ++ "ud800")) = inr (PyStr Examples.lone_surrogate) /\
  loads (Examples.lone_surrogate ++ " x") =
    inl (mkExn JSONDecodeError "Expecting value: line 1 column 1 (char 0)") /\
  loads ("[" ++ q Examples.lone_surrogate ++ " 1]") =
    inl (mkExn JSONDecodeError
           "Expecting ',' delimiter: line 1 column 6 (char 5)").
Proof. repeat split; reflexivity. Qed.

(** The limits of the interpreter: a text nested deeper than there is
    room for, and an integer of more digits than allowed, are refused
    with exceptions that are not [JSONDecodeError]; within the limits the
    answer is that of [loads]. *)
Example loads_limits :
  loads_within {| max_depth := Some 2; max_digits := Some 4300 |} "[[1]]" =
    inr (PyList [PyList [PyInt 1]]) /\
  loads_within {| max_depth := Some 2; max_digits := Some 4300 |} "[[[1]]]" =
    inl (mkExn RecursionError
           "maximum recursion depth exceeded while decoding a JSON array from a unicode string") /\
  loads_within {| max_depth := Some 2; max_digits := Some 4300 |}
    ("[{" ++ q "a" ++ ": {}}]") =
    inl (mkExn RecursionError
           "maximum recursion depth exceeded while decoding a JSON object from a unicode string") /\
  loads_within Examples.cpython_limits Examples.long_integer =
    inl (mkExn ValueError
           "Exceeds the limit (4300 digits) for integer string conversion: value has 4301 digits; use sys.set_int_max_str_digits() to increase the limit") /\
  loads_within Examples.cpython_limits
    ("-" ++ string_of_list_ascii (repeat "7"%char 4300)) =
    inr (PyInt (- Json.digits_value
                    (string_of_list_ascii (repeat "7"%char 4300)))) /\
  loads_within Examples.cpython_limits
    (string_of_list_ascii (repeat "7"%char 4301) ++ ".5") =
    inr (PyFloat (string_of_list_ascii (repeat "7"%char 4301) ++ ".5")).
Proof. repeat split; vm_compute; reflexivity. Qed.

End DecoderOutcomes.

(** ** What statements show *)

Section Rendering.

Lemma add_ui_nil (w : world) : add_ui [] w = w.
Proof. destruct w; unfold add_ui, set_ui; simpl. now rewrite app_nil_r. Qed.

Lemma add_ui_app (a b : list element) (w : world) :
  add_ui b (add_ui a w) = add_ui (a ++ b) w.
Proof. unfold add_ui, set_ui; simpl. now rewrite app_assoc. Qed.

Lemma renders_out {A} (c : M A) out out' r :
  renders c out r -> out = out' -> renders c out' r.
Proof. now intros H <-. Qed.

Lemma renders_ret {A} (a : A) : renders (ret a) [] (Return a).
Proof. intro w. unfold ret. now rewrite add_ui_nil. Qed.

Lemma renders_raise {A} (e : exn) : renders (@raise A e) [] (Raise e).
Proof. intro w. unfold raise. now rewrite add_ui_nil. Qed.

Lemma renders_lift {A} (r : exn + A) :
  renders (lift r) [] (match r with inl e => Raise e | inr a => Return a end).
Proof. destruct r; [apply renders_raise | apply renders_ret]. Qed.

Lemma renders_lift_ok {A} (a : A) : renders (lift (inr a)) [] (Return a).
Proof. apply renders_ret. Qed.

Lemma renders_bind {A B} (c : M A) (k : A -> M B) a o1 o2 r :
  renders c o1 (Return a) -> renders (k a) o2 r ->
  renders (bind c k) (o1 ++ o2) r.
Proof.
  intros Hc Hk w. unfold bind. rewrite Hc, Hk. now rewrite add_ui_app.
Qed.

Lemma renders_bind_raise {A B} (c : M A) (k : A -> M B) e o :
  renders c o (Raise e) -> renders (bind c k) o (Raise e).
Proof. intros Hc w. unfold bind. now rewrite Hc. Qed.

Lemma renders_try_return {A} (c : M A) h a o :
  renders c o (Return a) -> renders (try_except c h) o (Return a).
Proof. intros Hc w. unfold try_except. now rewrite Hc. Qed.

Lemma renders_try_raise {A} (c : M A) h e o1 o2 r :
  renders c o1 (Raise e) -> renders (h e) o2 r ->
  renders (try_except c h) (o1 ++ o2) r.
Proof.
  intros Hc Hh w. unfold try_except. rewrite Hc, Hh. now rewrite add_ui_app.
Qed.

Lemma renders_for_each_nil {A} (f : A -> M unit) :
  renders (for_each [] f) [] (Return tt).
Proof. apply renders_ret. Qed.

Lemma renders_for_each_cons {A} (f : A -> M unit) x l o1 o2 r :
  renders (f x) o1 (Return tt) -> renders (for_each l f) o2 r ->
  renders (for_each (x :: l) f) (o1 ++ o2) r.
Proof. intros. simpl. now apply renders_bind with (a := tt). Qed.

(** What is shown does not depend on the world a statement starts in: it
    can be read off a run from the empty world. *)
Lemma renders_run {A} (c : M A) out r :
  renders c out r -> out = ui (fst (c empty_world)) /\ r = snd (c empty_world).
Proof. intros Hc. now rewrite Hc. Qed.

Lemma renders_same {A} (c : M A) o1 o2 r1 r2 :
  renders c o1 r1 -> renders c o2 r2 -> o1 = o2 /\ r1 = r2.
Proof.
  intros [-> ->]%renders_run [-> ->]%renders_run. now split.
Qed.

Lemma bind_lift_ok {A B} (a : A) (k : A -> M B) :
  bind (lift (inr a)) k = k a.
Proof. reflexivity. Qed.

Lemma bind_lift_error {A B} (e : exn) (k : A -> M B) :
  bind (lift (inl e)) k = raise e.
Proof. reflexivity. Qed.

End Rendering.

(** ** The calls on Streamlit *)

Section Calls.
Variable py : interpreter.

Lemma find_surrogate_none (l : list string) :
  forallb (fun text => negb (has_surrogate text)) l = true ->
  find has_surrogate l = None.
Proof.
  induction l as [|t l IH]; [reflexivity|]. cbn [forallb find].
  intros [Ht Hl]%andb_prop. apply negb_true_iff in Ht.
  rewrite Ht. now apply IH.
Qed.

Lemma find_surrogate_some (l : list string) :
  forallb (fun text => negb (has_surrogate text)) l = false ->
  exists text, find has_surrogate l = Some text.
Proof.
  induction l as [|t l IH]; [discriminate|]. cbn [forallb find].
  destruct (has_surrogate t); [eauto|]. exact IH.
Qed.

(** A call is refused exactly when it is not [showable], and then with
    the exception of the encoder. *)
Lemma refusal_showable (e : element) :
  showable e = true -> St.refusal py e = None.
Proof.
  intro H. unfold St.refusal. now rewrite (find_surrogate_none _ H).
Qed.

Lemma refusal_unshowable (e : element) :
  showable e = false ->
  exists text, St.refusal py e = Some (unicode_error py text).
Proof.
  intro H. unfold St.refusal.
  destruct (find_surrogate_some _ H) as [text ->]. eauto.
Qed.

Lemma renders_emit (e : element) :
  showable e = true -> renders (St.emit py e) [e] (Return tt).
Proof. intros H w. unfold St.emit. now rewrite (refusal_showable e H). Qed.

Lemma renders_emit_refused (e : element) (x : exn) :
  St.refusal py e = Some x -> renders (St.emit py e) [] (Raise x).
Proof. intros H w. unfold St.emit. now rewrite H, add_ui_nil. Qed.

Lemma renders_emit_then {B} (x : element) (k : unit -> M B) o r :
  showable x = true -> renders (k tt) o r ->
  renders (bind (St.emit py x) k) (x :: o) r.
Proof.
  intros Hx Hk.
  now apply (renders_bind _ _ tt [x] o); [apply renders_emit|].
Qed.

(** A call with one text that follows a fixed ASCII prefix *)
Lemma showable_text (prefix text : string) (f : string -> element) :
  (forall body, texts (f body) = [body]) ->
  all_ascii prefix = true -> has_surrogate text = false ->
  showable (f (prefix ++ text)) = true.
Proof.
  intros Hf Hprefix Htext. unfold showable. rewrite Hf. cbn [forallb].
  now rewrite (has_surrogate_after _ _ Hprefix), Htext.
Qed.

Lemma refusal_text (prefix text : string) (f : string -> element) :
  (forall body, texts (f body) = [body]) ->
  all_ascii prefix = true -> has_surrogate text = true ->
  St.refusal py (f (prefix ++ text)) =
    Some (unicode_error py (prefix ++ text)).
Proof.
  intros Hf Hprefix Htext. unfold St.refusal. rewrite Hf. cbn [find].
  now rewrite (has_surrogate_after _ _ Hprefix), Htext.
Qed.

Lemma renders_expander {A} (c : M A) label o r :
  has_surrogate label = false ->
  renders c o r -> renders (St.expander py label c) [Expander label o] r.
Proof.
  intros Hlabel Hc w. unfold St.expander, St.refusal. cbn [texts find].
  rewrite Hlabel, Hc. now destruct w.
Qed.

Lemma renders_expander_refused {A} (c : M A) label :
  has_surrogate label = true ->
  renders (St.expander py label c) [] (Raise (unicode_error py label)).
Proof.
  intros Hlabel w. unfold St.expander, St.refusal. cbn [texts find].
  now rewrite Hlabel, add_ui_nil.
Qed.

End Calls.

(** ** Statements that only make Streamlit calls *)

Section Totality.
Variable py : interpreter.

Lemma tame_ret {A} (a : A) : tame (ret a).
Proof. exists [], (Return a). split; [apply renders_ret | exact I]. Qed.

Lemma tame_raise {A} (e : exn) : plain e = true -> tame (@raise A e).
Proof. intro He. exists [], (Raise e). split; [apply renders_raise | exact He]. Qed.

Lemma get_plain (obj : pyvalue) (key : string) (default : pyvalue) (e : exn) :
  Py.get obj key default = inl e -> plain e = true.
Proof. destruct obj; intros [= <-]; reflexivity. Qed.

Lemma iter_plain (obj : pyvalue) (e : exn) :
  Py.iter obj = inl e -> plain e = true.
Proof. destruct obj; intros [= <-]; reflexivity. Qed.

Lemma len_plain (obj : pyvalue) (e : exn) :
  Py.len obj = inl e -> plain e = true.
Proof. destruct obj; intros [= <-]; reflexivity. Qed.

Lemma tame_lift {A} (r : exn + A) :
  (forall e, r = inl e -> plain e = true) -> tame (lift r).
Proof.
  intro Hr. destruct r as [e|a]; [apply tame_raise; auto | apply tame_ret].
Qed.

Lemma tame_emit (e : element) : tame (St.emit py e).
Proof.
  destruct (showable e) eqn:He.
  - exists [e], (Return tt). split; [now apply renders_emit | exact I].
  - destruct (refusal_unshowable py e He) as [text Htext].
    exists [], (Raise (unicode_error py text)).
    split; [now apply renders_emit_refused | apply unicode_error_plain].
Qed.

Lemma tame_bind {A B} (c : M A) (k : A -> M B) :
  tame c -> (forall a, tame (k a)) -> tame (bind c k).
Proof.
  intros (o1 & r1 & Hc & Hr1) Hk. destruct r1 as [a|e|]; [| |easy].
  - destruct (Hk a) as (o2 & r2 & Hka & Hr2).
    exists (o1 ++ o2)%list, r2. split; [now apply renders_bind with a | easy].
  - exists o1, (Raise e). split; [now apply renders_bind_raise | easy].
Qed.

Lemma tame_for_each {A} (l : list A) (f : A -> M unit) :
  (forall x, tame (f x)) -> tame (for_each l f).
Proof.
  intro Hf. induction l as [|x l IH]; simpl.
  - apply tame_ret.
  - apply tame_bind; [apply Hf | intros _; apply IH].
Qed.

Lemma tame_show_step (entry : nat * pyvalue) :
  tame (StreamlitApp.show_step py entry).
Proof. destruct entry. apply tame_emit. Qed.

(** The block under [with st.expander(...)] *)
Lemma tame_case_block (test_case : pyvalue) :
  tame
    (v <- lift (Py.get test_case "title" (PyStr "N/A")) ;;
     St.markdown py ("**Title:** " ++ StreamlitApp.str py v) ;;
     v <- lift (Py.get test_case "preconditions" (PyStr "N/A")) ;;
     St.markdown py ("**Preconditions:** " ++ StreamlitApp.str py v) ;;
     steps <- lift (Py.get test_case "steps" (PyList [])) ;;
     (if StreamlitApp.truthy py steps then
        St.markdown py "**Steps:**" ;;
        items <- lift (Py.iter steps) ;;
        for_each (Py.enumerate items 1) (StreamlitApp.show_step py)
      else ret tt) ;;
     v <- lift (Py.get test_case "expected_result" (PyStr "N/A")) ;;
     St.markdown py ("**Expected Result:** " ++ StreamlitApp.str py v)).
Proof.
  repeat first
    [ apply tame_lift; intro; first [apply get_plain | apply iter_plain]
    | apply tame_emit | apply tame_ret
    | apply tame_for_each; apply tame_show_step
    | apply tame_bind; [|intro]
    | match goal with |- tame (if ?b then _ else _) => destruct b end ].
Qed.

(** One turn of the loop over the test cases shows nothing and raises, or
    shows one expander. *)
Lemma show_test_case_shape (entry : nat * pyvalue) :
  exists out r,
    renders (StreamlitApp.show_test_case py entry) out r /\
    match r with
    | Return _ => exists label inside, out = [Expander label inside]
    | Raise e =>
        plain e = true /\
        (out = [] \/ exists label inside, out = [Expander label inside])
    | Stop => False
    end.
Proof.
  destruct entry as [i test_case]. unfold StreamlitApp.show_test_case.
  destruct (Py.get test_case "title" (PyStr "Untitled")) as [e|label] eqn:Hget.
  - exists [], (Raise e). split; [|split; [now apply get_plain in Hget|now left]].
    apply renders_bind_raise, renders_raise.
  - rewrite bind_lift_ok.
    destruct (has_surrogate
                ("Test Case " ++ str_of_nat i ++ ": " ++ StreamlitApp.str py label))
      eqn:Hlabel.
    + eexists [], _. split; [now apply renders_expander_refused|].
      split; [apply unicode_error_plain | now left].
    + destruct (tame_case_block test_case) as (inside & r & Hblock & Hr).
      eexists _, r. split; [now apply renders_expander; [|exact Hblock]|].
      destruct r as [[]|e|]; [eauto | eauto | easy].
Qed.

(** The loop over the test cases shows expanders only, one per test case
    when it runs to its end. *)
Lemma show_test_cases_shape (items : list pyvalue) (start : nat) :
  exists out r,
    renders
      (for_each (Py.enumerate items start) (StreamlitApp.show_test_case py))
      out r /\
    forallb is_expander out = true /\
    match r with
    | Return _ => length out = length items
    | Raise e => plain e = true
    | Stop => False
    end.
Proof.
  revert start. induction items as [|x items IH]; intro start.
  - exists [], (Return tt). repeat split. apply renders_ret.
  - change (Py.enumerate (x :: items) start)
      with ((start, x) :: Py.enumerate items (S start)).
    destruct (show_test_case_shape (start, x)) as (o1 & r1 & H1 & Hr1).
    destruct r1 as [[]|e|]; [| |easy].
    + destruct Hr1 as (label & inside & ->).
      destruct (IH (S start)) as (o2 & r2 & H2 & Hexp & Hr2).
      exists ([Expander label inside] ++ o2)%list, r2.
      split; [now apply renders_for_each_cons|]. split; [exact Hexp|].
      destruct r2 as [[]|e|]; [|exact Hr2|easy]. simpl. now rewrite Hr2.
    + destruct Hr1 as [He Hout]. exists o1, (Raise e).
      split; [simpl for_each; now apply renders_bind_raise|].
      split; [|exact He].
      now destruct Hout as [-> | (label & inside & ->)].
Qed.

End Totality.

(** ** How the renderer ends *)

Section RendererEndings.
Variable py : interpreter.

Lemma chars_not_nil (a : ascii) (s : string) : chars (String a s) <> [].
Proof.
  simpl. destruct (chars s) as [|c cs]; [discriminate|].
  destruct c as [|b c]; [discriminate|].
  destruct (is_continuation b); discriminate.
Qed.

(** What a truthy value gives to iterate on is not empty. *)
Lemma iter_truthy (v : pyvalue) (items : list pyvalue) :
  StreamlitApp.truthy py v = true -> Py.iter v = inr items -> items <> [].
Proof.
  destruct v; simpl; try discriminate; intros Ht [= <-].
  - destruct s; [discriminate|]. intro H. apply map_eq_nil in H.
    now apply chars_not_nil in H.
  - now destruct items0.
  - now destruct entries.
Qed.

Lemma banner_showable (n : nat) : showable (Shown.banner n) = true.
Proof.
  unfold Shown.banner, showable. cbn [texts forallb].
  rewrite ascii_no_surrogate; [reflexivity|].
  now rewrite !all_ascii_app, str_of_nat_ascii.
Qed.

(** The first character of a string of test cases ends the loop. *)
Lemma show_characters_raises (c : string) (cs : list string) (start : nat) :
  renders
    (for_each (Py.enumerate (map PyStr (c :: cs)) start)
       (StreamlitApp.show_test_case py))
    [] (Raise (mkExn AttributeError "'str' object has no attribute 'get'")).
Proof.
  cbn [map Py.enumerate for_each]. apply renders_bind_raise.
  unfold StreamlitApp.show_test_case. cbn [Py.get].
  rewrite bind_lift_error. apply renders_raise.
Qed.

(** When the loop over what a value gives to iterate on runs to its
    end, the length of the value is the number of items. *)
Lemma len_counts_items (v : pyvalue) (n : nat)
  (items : list pyvalue) (out : list element) :
  StreamlitApp.truthy py v = true ->
  Py.len v = inr n -> Py.iter v = inr items ->
  renders
    (for_each (Py.enumerate items 1) (StreamlitApp.show_test_case py))
    out (Return tt) ->
  n = length items.
Proof.
  intros Htruthy Hlen Hiter Hloop.
  destruct v as [| | | |s|l|es]; try discriminate.
  - exfalso. destruct s as [|a s]; [discriminate|].
    cbn [Py.iter] in Hiter. pose proof (chars_not_nil a s) as Hchars.
    destruct (chars (String a s)) as [|c cs]; [easy|].
    injection Hiter as <-.
    now destruct (renders_same _ _ _ _ _ Hloop (show_characters_raises c cs 1)).
  - injection Hlen as <-. now injection Hiter as <-.
  - injection Hlen as <-. injection Hiter as <-. now rewrite length_map.
Qed.

(** The [try] block of the renderer ends in one of three ways: with the
    warning; with a banner and as many expanders as it announces; with an
    exception, which is the one of the decoder, nothing being shown, or a
    [plain] one after the response is decoded. *)
Lemma format_body_shape (s : string) :
  exists out r,
    renders (StreamlitApp.format_body py s) out r /\
    match r with
    | Return _ =>
        out = [Warning no_cases_message] \/
        exists cases,
          out = Shown.banner (length cases) :: cases /\ cases <> [] /\
          forallb is_expander cases = true
    | Raise e =>
        (json_loads py s = inl e /\ out = []) \/
        ((exists v, json_loads py s = inr v) /\ plain e = true /\
         (out = [] \/ exists n rest, out = Shown.banner n :: rest))
    | Stop => False
    end.
Proof.
  unfold StreamlitApp.format_body.
  destruct (json_loads py s) as [e|test_data] eqn:Hloads.
  { exists [], (Raise e). rewrite bind_lift_error.
    split; [apply renders_raise | now left]. }
  assert (Hdecoded : exists v, inr test_data = @inr exn pyvalue v) by eauto.
  rewrite bind_lift_ok.
  destruct (Py.get test_data "test_cases" (PyList [])) as [e|test_cases]
    eqn:Hget.
  { exists [], (Raise e). rewrite bind_lift_error.
    split; [apply renders_raise|]. right. apply get_plain in Hget. auto. }
  rewrite bind_lift_ok.
  destruct (StreamlitApp.truthy py test_cases) eqn:Htruthy; cbv [negb].
  2:{ exists [Warning no_cases_message], (Return tt).
      split; [now apply renders_emit | now left]. }
  destruct (Py.len test_cases) as [e|n] eqn:Hlen.
  { exists [], (Raise e). rewrite bind_lift_error.
    split; [apply renders_raise|]. right. apply len_plain in Hlen. auto. }
  rewrite bind_lift_ok.
  destruct (Py.iter test_cases) as [e|items] eqn:Hiter.
  { exists [Shown.banner n], (Raise e). split.
    - apply renders_emit_then; [apply banner_showable|].
      rewrite bind_lift_error. apply renders_raise.
    - right. apply iter_plain in Hiter. eauto 8. }
  destruct (show_test_cases_shape py items 1)
    as (exps & r & Hloop & Hexp & Hr).
  exists (Shown.banner n :: exps), r. split.
  { apply renders_emit_then; [apply banner_showable|]. now rewrite bind_lift_ok. }
  destruct r as [[]|e|]; [| |easy].
  - right. exists exps.
    rewrite (len_counts_items test_cases n items exps Htruthy Hlen Hiter Hloop).
    rewrite Hr. repeat split; [|exact Hexp].
    pose proof (iter_truthy _ _ Htruthy Hiter) as Hne.
    intros ->. now destruct items.
  - right. eauto 8.
Qed.

(** The [except] clauses of the renderer.  An exception whose message can
    be shown gets its message; the text is shown after the message of a
    [JSONDecodeError], if it can be. *)
Lemma format_except_plain (s : string) (e : exn) :
  plain e = true ->
  renders (StreamlitApp.format_except py s e)
    [Shown.formatting_error (exn_msg e)] (Return tt).
Proof.
  intro He. unfold StreamlitApp.format_except.
  rewrite (plain_class e He). apply renders_emit.
  apply (showable_text _ _ Error); [reflexivity..|now apply plain_message].
Qed.

Lemma format_except_decode (s : string) (e : exn) :
  is_JSONDecodeError e = true ->
  has_surrogate (exn_msg e) = false -> has_surrogate s = false ->
  renders (StreamlitApp.format_except py s e)
    [Error ("Failed to parse JSON response: " ++ exn_msg e);
     Text "Raw response:";
     Code s "json"] (Return tt).
Proof.
  intros Hclass Hmsg Hs. unfold StreamlitApp.format_except. rewrite Hclass.
  apply renders_emit_then;
    [now apply (showable_text _ _ Error)|].
  apply renders_emit_then; [reflexivity|].
  apply renders_emit. unfold showable. cbn [texts forallb]. now rewrite Hs.
Qed.

Lemma format_except_garbled_text (s : string) (e : exn) :
  is_JSONDecodeError e = true ->
  has_surrogate (exn_msg e) = false -> has_surrogate s = true ->
  renders (StreamlitApp.format_except py s e)
    [Error ("Failed to parse JSON response: " ++ exn_msg e);
     Text "Raw response:"]
    (Raise (unicode_error py s)).
Proof.
  intros Hclass Hmsg Hs. unfold StreamlitApp.format_except. rewrite Hclass.
  apply renders_emit_then;
    [now apply (showable_text _ _ Error)|].
  apply (renders_bind _ _ tt [_] []); [now apply renders_emit|].
  apply renders_emit_refused. unfold St.refusal. cbn [texts find].
  now rewrite Hs.
Qed.

Lemma format_except_garbled_message (s : string) (e : exn) :
  has_surrogate (exn_msg e) = true ->
  renders (StreamlitApp.format_except py s e) []
    (Raise
       (unicode_error py
          ((if is_JSONDecodeError e then "Failed to parse JSON response: "
            else "Error formatting test cases: ") ++ exn_msg e))).
Proof.
  intros Hmsg. unfold StreamlitApp.format_except.
  destruct (is_JSONDecodeError e).
  - apply renders_bind_raise, renders_emit_refused.
    now apply (refusal_text _ _ _ Error).
  - apply renders_emit_refused. now apply (refusal_text _ _ _ Error).
Qed.

(** What the [except] clauses do for the failure of the decoder, in all
    cases *)
Lemma format_except_run (s : string) (e : exn) :
  renders (StreamlitApp.format_except py s e)
    (if has_surrogate (exn_msg e) then []
     else if is_JSONDecodeError e then
       [Error ("Failed to parse JSON response: " ++ exn_msg e);
        Text "Raw response:"]
         ++ (if has_surrogate s then [] else [Code s "json"])
     else [Shown.formatting_error (exn_msg e)])
    (if has_surrogate (exn_msg e) then
       Raise
         (unicode_error py
            ((if is_JSONDecodeError e then "Failed to parse JSON response: "
              else "Error formatting test cases: ") ++ exn_msg e))
     else if is_JSONDecodeError e && has_surrogate s then
       Raise (unicode_error py s)
     else Return tt).
Proof.
  destruct (has_surrogate (exn_msg e)) eqn:Hmsg;
    [now apply format_except_garbled_message|].
  destruct (is_JSONDecodeError e) eqn:Hclass.
  - destruct (has_surrogate s) eqn:Hs;
      [now apply format_except_garbled_text | now apply format_except_decode].
  - apply format_except_plain. unfold plain. now rewrite Hmsg, Hclass.
Qed.

(** The renderer once the response is decoded: it returns, and when the
    [try] block has raised, the error message is the last thing shown. *)
Lemma format_test_cases_decoded (s : string) (v : pyvalue) :
  json_loads py s = inr v ->
  exists out,
    renders (StreamlitApp.format_test_cases py s) out (Return tt) /\
    (out = [Warning no_cases_message] \/
     (exists cases,
        out = Shown.banner (length cases) :: cases /\ cases <> [] /\
        forallb is_expander cases = true) \/
     (exists shown msg, out = (shown ++ [Shown.formatting_error msg])%list)).
Proof.
  intro Hloads. unfold StreamlitApp.format_test_cases.
  destruct (format_body_shape s) as (out & r & Hbody & Hr).
  destruct r as [[]|e|]; [| |easy].
  - exists out. split; [now apply renders_try_return|].
    destruct Hr as [-> | Hcases]; auto.
  - destruct Hr as [[Hfail _] | (_ & He & _)]; [congruence|].
    exists (out ++ [Shown.formatting_error (exn_msg e)])%list.
    split; [|eauto].
    apply renders_try_raise with e; [exact Hbody|].
    now apply format_except_plain.
Qed.

(** The renderer when the decoder fails: nothing is shown by the [try]
    block, and the [except] clauses do the rest. *)
Lemma format_test_cases_failed (s : string) (e : exn) (out : list element)
  (r : outcome unit) :
  json_loads py s = inl e ->
  renders (StreamlitApp.format_except py s e) out r ->
  renders (StreamlitApp.format_test_cases py s) out r.
Proof.
  intros Hloads Hhandler. unfold StreamlitApp.format_test_cases.
  apply (renders_try_raise _ _ e [] out); [|exact Hhandler].
  unfold StreamlitApp.format_body. rewrite Hloads, bind_lift_error.
  apply renders_raise.
Qed.

(** The renderer returns or raises the exception of a Streamlit call; it
    shows the same from every world. *)
Lemma format_test_cases_outcome (s : string) :
  exists out r,
    renders (StreamlitApp.format_test_cases py s) out r /\
    match r with
    | Return _ => failure_showable py s = true
    | Raise x =>
        failure_showable py s = false /\ exists text, x = unicode_error py text
    | Stop => False
    end.
Proof.
  unfold failure_showable.
  destruct (json_loads py s) as [e|v] eqn:Hloads.
  - eexists _, _. split.
    + apply (format_test_cases_failed s e _ _ Hloads), format_except_run.
    + destruct (has_surrogate (exn_msg e)); [cbn; eauto|].
      destruct (is_JSONDecodeError e && has_surrogate s); cbn; eauto.
  - destruct (format_test_cases_decoded s v Hloads) as (out & Hout & _).
    now exists out, (Return tt).
Qed.

(** The renderer shows [Shown.rendering] from every world. *)
Lemma format_test_cases_renders_rendering (s : string) :
  exists r,
    renders (StreamlitApp.format_test_cases py s) (Shown.rendering py s) r /\
    match r with
    | Return _ => failure_showable py s = true
    | Raise x =>
        failure_showable py s = false /\ exists text, x = unicode_error py text
    | Stop => False
    end.
Proof.
  destruct (format_test_cases_outcome s) as (out & r & Hout & Hr).
  exists r. split; [|exact Hr]. unfold Shown.rendering.
  now destruct (renders_run _ _ _ Hout) as [<- _].
Qed.

(** How the renderer ends, from the answer of the decoder *)
Lemma format_test_cases_raises_when (s : string) (w : world) :
  snd (StreamlitApp.format_test_cases py s w) =
    match json_loads py s with
    | inl e =>
        if has_surrogate (exn_msg e) then
          Raise
            (unicode_error py
               ((if is_JSONDecodeError e
                 then "Failed to parse JSON response: "
                 else "Error formatting test cases: ") ++ exn_msg e))
        else if is_JSONDecodeError e && has_surrogate s then
          Raise (unicode_error py s)
        else Return tt
    | inr _ => Return tt
    end.
Proof.
  destruct (json_loads py s) as [e|v] eqn:Hloads.
  - now rewrite (format_test_cases_failed s e _ _ Hloads
                   (format_except_run s e)).
  - destruct (format_test_cases_decoded s v Hloads) as (out & Hout & _).
    now rewrite Hout.
Qed.

Lemma expanders_no_error (l : list element) :
  forallb is_expander l = true -> existsb is_error l = false.
Proof.
  induction l as [|x l IH]; [easy|]. simpl. intros [Hx Hl]%andb_prop.
  rewrite (IH Hl). now destruct x.
Qed.

Lemma error_not_expanders (l rest : list element) (m : string) :
  forallb is_expander (l ++ Error m :: rest) = false.
Proof.
  rewrite forallb_app. simpl. now rewrite andb_false_r.
Qed.

Lemma error_found (l rest : list element) (m : string) :
  existsb is_error (l ++ Error m :: rest) = true.
Proof. rewrite existsb_app. simpl. now rewrite orb_true_r. Qed.

End RendererEndings.

(** ** The loop over the test cases *)

Section RendererSteps.
Variable py : interpreter.

(** Goals of the form [showable e = true], for a call whose text follows
    an ASCII prefix and has no surrogate by hypothesis or by evaluation *)
Ltac showable_call :=
  unfold showable; cbn [texts forallb];
  rewrite ?has_surrogate_after
    by (rewrite ?all_ascii_app, ?str_of_nat_ascii; reflexivity);
  try match goal with
      | H : has_surrogate ?t = false |- context [has_surrogate ?t] =>
          rewrite H
      end;
  reflexivity.

Lemma forallb_map_str (items : list pyvalue) :
  forallb (fun text => negb (has_surrogate text))
    (map (StreamlitApp.str py) items) =
  forallb (fun v => negb (has_surrogate (StreamlitApp.str py v))) items.
Proof.
  induction items as [|v items IH]; [reflexivity|]. simpl. now rewrite IH.
Qed.

(** What [encodable] says of the fields and of the steps *)
Lemma encodable_fields (d : list (string * pyvalue)) :
  Shown.encodable py d = true ->
  has_surrogate (Spec.field py d "title" "N/A") = false /\
  has_surrogate (Spec.field py d "preconditions" "N/A") = false /\
  has_surrogate (Spec.field py d "expected_result" "N/A") = false /\
  forallb (fun v => negb (has_surrogate (StreamlitApp.str py v)))
    (Shown.steps_items d) = true.
Proof.
  unfold Shown.encodable, Shown.shown_texts. cbn [app forallb].
  rewrite forallb_map_str.
  intros [H1 [H2 [H3 H4]%andb_prop]%andb_prop]%andb_prop.
  now rewrite negb_true_iff in H1, H2, H3.
Qed.

(** The label of an expander has a surrogate when the title has. *)
Lemma label_surrogate (i : nat) (d : list (string * pyvalue)) :
  has_surrogate (Shown.case_label py i d) =
    has_surrogate (Spec.field py d "title" "N/A").
Proof.
  unfold Shown.case_label.
  rewrite !has_surrogate_after by (rewrite ?str_of_nat_ascii; reflexivity).
  unfold Spec.field. now destruct (Py.lookup "title" d).
Qed.

(** The steps that can be shown, each on its line *)
Lemma show_steps_renders (steps : list pyvalue) (start : nat) :
  forallb (fun v => negb (has_surrogate (StreamlitApp.str py v))) steps
    = true ->
  renders (for_each (Py.enumerate steps start) (StreamlitApp.show_step py))
    (Spec.numbered py steps start) (Return tt).
Proof.
  revert start. induction steps as [|step steps IH]; intros start Hsteps.
  - apply renders_for_each_nil.
  - cbn [forallb] in Hsteps. apply andb_prop in Hsteps as [Hstep Hsteps].
    apply negb_true_iff in Hstep.
    change (Py.enumerate (step :: steps) start)
      with ((start, step) :: Py.enumerate steps (S start)).
    eapply renders_out.
    + eapply renders_for_each_cons; [|now apply IH].
      apply renders_emit. showable_call.
    + reflexivity.
Qed.

(** The steps up to one that cannot be encoded: the loop ends there. *)
Lemma show_steps_cut (before after : list pyvalue) (bad : pyvalue)
  (start : nat) :
  forallb (fun v => negb (has_surrogate (StreamlitApp.str py v))) before
    = true ->
  has_surrogate (StreamlitApp.str py bad) = true ->
  renders
    (for_each (Py.enumerate (before ++ bad :: after) start)
       (StreamlitApp.show_step py))
    (Spec.numbered py before start)
    (Raise
       (unicode_error py
          (str_of_nat (start + length before) ++ ". "
             ++ StreamlitApp.str py bad))).
Proof.
  revert start. induction before as [|step before IH]; intros start Hbefore Hbad.
  - cbn [app Py.enumerate for_each length]. rewrite Nat.add_0_r.
    apply renders_bind_raise, renders_emit_refused.
    unfold St.refusal. cbn [texts find].
    rewrite !has_surrogate_after by (rewrite ?str_of_nat_ascii; reflexivity).
    now rewrite Hbad.
  - cbn [forallb] in Hbefore. apply andb_prop in Hbefore as [Hstep Hbefore].
    apply negb_true_iff in Hstep.
    change (Py.enumerate ((step :: before) ++ bad :: after) start)
      with ((start, step)
              :: Py.enumerate (before ++ bad :: after) (S start)).
    cbn [length]. rewrite <- Nat.add_succ_comm.
    eapply renders_out.
    + eapply renders_for_each_cons; [|now apply IH].
      apply renders_emit. showable_call.
    + reflexivity.
Qed.

(** What a value that counts as true gives to iterate on, unless it is a
    number or a boolean *)
Lemma iter_listable (v : pyvalue) :
  StreamlitApp.truthy py v = true -> Shown.is_scalar v = false ->
  exists x items,
    Py.iter v = inr (x :: items) /\
    match v with
    | PyList l => l
    | PyStr s => map PyStr (chars s)
    | PyDict es => map (fun kv => PyStr (fst kv)) es
    | _ => []
    end = x :: items.
Proof.
  intros Htruthy Hscalar.
  destruct v as [|b|z|f|s|[|x l]|[|kv es]]; try discriminate.
  - destruct s as [|a s]; [discriminate|]. cbn [Py.iter].
    pose proof (chars_not_nil a s) as Hne.
    destruct (chars (String a s)) as [|c cs]; [easy|].
    simpl. eauto.
  - simpl. eauto.
  - simpl. eauto.
Qed.

Lemma items_of_falsy (v : pyvalue) :
  StreamlitApp.truthy py v = false ->
  match v with
  | PyList l => l
  | PyStr s => map PyStr (chars s)
  | PyDict es => map (fun kv => PyStr (fst kv)) es
  | _ => []
  end = [].
Proof.
  destruct v as [|b|z|f|s|[|x l]|[|kv es]]; try reflexivity;
    try discriminate.
  destruct s; [reflexivity|discriminate].
Qed.

(** One test case whose steps can be listed and whose texts can be
    encoded *)
Lemma show_listable_case (i : nat) (d : list (string * pyvalue)) :
  Shown.steps_listable py d = true -> Shown.encodable py d = true ->
  renders (StreamlitApp.show_test_case py (i, PyDict d))
    [Shown.rendered_case py i d] (Return tt).
Proof.
  intros Hsteps Henc.
  pose proof (label_surrogate i d) as Hlabel.
  apply encodable_fields in Henc as (Htitle & Hpre & Hexp & Hitems).
  rewrite Htitle in Hlabel.
  unfold StreamlitApp.show_test_case, Shown.rendered_case.
  unfold Shown.case_label, Spec.field in *.
  cbn [Py.get].
  eapply renders_out.
  - eapply renders_bind; [apply renders_lift_ok|].
    apply renders_expander.
    { destruct (Py.lookup "title" d); exact Hlabel. }
    eapply renders_bind; [apply renders_lift_ok|].
    eapply renders_bind.
    { apply renders_emit. destruct (Py.lookup "title" d); showable_call. }
    eapply renders_bind; [apply renders_lift_ok|].
    eapply renders_bind.
    { apply renders_emit.
      destruct (Py.lookup "preconditions" d); showable_call. }
    eapply renders_bind; [apply renders_lift_ok|].
    eapply renders_bind with (a := tt)
      (o1 := match Shown.steps_items d with
             | [] => []
             | items => Markdown "**Steps:**" :: Spec.numbered py items 1
             end).
    + unfold Shown.steps_listable in Hsteps.
      unfold Shown.steps_items in *.
      destruct (Py.lookup "steps" d) as [v|]; [|apply renders_ret].
      destruct (StreamlitApp.truthy py v) eqn:Htruthy.
      * rewrite andb_true_r in Hsteps. apply negb_true_iff in Hsteps.
        destruct (iter_listable v Htruthy Hsteps)
          as (x & items & Hiter & Heq).
        rewrite Heq in *.
        apply (renders_bind _ _ tt [_]); [now apply renders_emit|].
        rewrite Hiter. eapply renders_out.
        -- eapply renders_bind; [apply renders_lift_ok|].
           now apply show_steps_renders.
        -- reflexivity.
      * rewrite (items_of_falsy v Htruthy). apply renders_ret.
    + eapply renders_bind; [apply renders_lift_ok|].
      apply renders_emit.
      destruct (Py.lookup "expected_result" d); showable_call.
  - unfold StreamlitApp.str. simpl.
    destruct (Py.lookup "title" d), (Py.lookup "preconditions" d),
      (Py.lookup "expected_result" d); reflexivity.
Qed.

(** Steps that are a string are listed by their characters; steps that
    are null are left out with their heading.  A title that is not a
    string is shown as [str] shows it. *)
Example steps_of_other_types_rendered :
  StreamlitApp.format_test_cases Examples.py MoreExamples.string_steps
    empty_world =
    (add_ui
       [Success "Generated 2 test cases:";
        Expander "Test Case 1: Untitled"
          [Markdown "**Title:** N/A";
           Markdown "**Preconditions:** N/A";
           Markdown "**Steps:**";
           Markdown "1. a";
           Markdown "2. b";
           Markdown "**Expected Result:** N/A"];
        Expander "Test Case 2: Untitled"
          [Markdown "**Title:** N/A";
           Markdown "**Preconditions:** N/A";
           Markdown "**Expected Result:** N/A"]]
       empty_world,
     Return tt) /\
  Shown.rendered_case Examples.py 3
    [("title", PyList [PyInt 1; PyNone]);
     ("steps", PyDict [("first", PyInt 1); ("then", PyInt 2)])] =
    Expander "Test Case 3: [1, None]"
      [Markdown "**Title:** [1, None]";
       Markdown "**Preconditions:** N/A";
       Markdown "**Steps:**";
       Markdown "1. first";
       Markdown "2. then";
       Markdown "**Expected Result:** N/A"].
Proof. split; reflexivity. Qed.

(** The loop over test cases whose steps can be listed, followed by the
    rest of the loop *)
Lemma show_listable_cases_then (ds : list (list (string * pyvalue)))
  (rest : list pyvalue) (start : nat) (o : list element)
  (r : outcome unit) :
  forallb (Shown.steps_listable py) ds = true ->
  forallb (Shown.encodable py) ds = true ->
  renders
    (for_each (Py.enumerate rest (start + length ds))
       (StreamlitApp.show_test_case py)) o r ->
  renders
    (for_each (Py.enumerate (map PyDict ds ++ rest) start)
       (StreamlitApp.show_test_case py))
    (Shown.rendered_cases py ds start ++ o) r.
Proof.
  revert start. induction ds as [|d ds IH]; intros start Hok Henc Hrest.
  - simpl in *. now rewrite Nat.add_0_r in Hrest.
  - simpl in Hok. apply andb_prop in Hok as [Hd Hds].
    simpl in Henc. apply andb_prop in Henc as [Hed Heds].
    change (Py.enumerate (map PyDict (d :: ds) ++ rest) start)
      with ((start, PyDict d)
              :: Py.enumerate (map PyDict ds ++ rest) (S start)).
    eapply renders_out.
    + eapply renders_for_each_cons; [now apply show_listable_case|].
      apply IH; [exact Hds|exact Heds|].
      now rewrite Nat.add_succ_comm.
    + reflexivity.
Qed.

(** A test case whose steps are a number or a boolean that counts as
    true: the expander stops at the heading of the steps. *)
Lemma show_unlistable_case (i : nat) (d : list (string * pyvalue))
  (steps : pyvalue) :
  Py.lookup "steps" d = Some steps ->
  Shown.is_scalar steps = true -> StreamlitApp.truthy py steps = true ->
  has_surrogate (Spec.field py d "title" "N/A") = false ->
  has_surrogate (Spec.field py d "preconditions" "N/A") = false ->
  renders (StreamlitApp.show_test_case py (i, PyDict d))
    [Shown.broken_case py i d]
    (Raise (mkExn TypeError
              ("'" ++ Py.type_name steps ++ "' object is not iterable"))).
Proof.
  intros Hsteps Hscalar Htruthy Htitle Hpre.
  pose proof (label_surrogate i d) as Hlabel. rewrite Htitle in Hlabel.
  unfold StreamlitApp.show_test_case, Shown.broken_case.
  unfold Shown.case_label, Spec.field in *.
  cbn [Py.get]. rewrite Hsteps.
  eapply renders_out.
  - eapply renders_bind; [apply renders_lift_ok|].
    apply renders_expander.
    { destruct (Py.lookup "title" d); exact Hlabel. }
    eapply renders_bind; [apply renders_lift_ok|].
    eapply renders_bind.
    { apply renders_emit. destruct (Py.lookup "title" d); showable_call. }
    eapply renders_bind; [apply renders_lift_ok|].
    eapply renders_bind.
    { apply renders_emit.
      destruct (Py.lookup "preconditions" d); showable_call. }
    eapply renders_bind; [apply renders_lift_ok|].
    apply renders_bind_raise. rewrite Htruthy.
    eapply renders_bind; [now apply renders_emit|].
    apply renders_bind_raise.
    destruct steps; try discriminate; apply renders_raise.
  - unfold StreamlitApp.str. simpl.
    destruct (Py.lookup "title" d), (Py.lookup "preconditions" d);
      reflexivity.
Qed.

(** A test case with a step that cannot be encoded: the expander stops
    before that step. *)
Lemma show_garbled_step (i : nat) (d : list (string * pyvalue))
  (before after : list pyvalue) (bad : pyvalue) :
  Py.lookup "steps" d = Some (PyList (before ++ bad :: after)) ->
  has_surrogate (Spec.field py d "title" "N/A") = false ->
  has_surrogate (Spec.field py d "preconditions" "N/A") = false ->
  forallb (fun v => negb (has_surrogate (StreamlitApp.str py v))) before
    = true ->
  has_surrogate (StreamlitApp.str py bad) = true ->
  renders (StreamlitApp.show_test_case py (i, PyDict d))
    [Expander (Shown.case_label py i d)
       (Markdown ("**Title:** " ++ Spec.field py d "title" "N/A")
          :: Markdown ("**Preconditions:** "
                         ++ Spec.field py d "preconditions" "N/A")
          :: Markdown "**Steps:**"
          :: Spec.numbered py before 1)]
    (Raise
       (unicode_error py
          (str_of_nat (1 + length before) ++ ". "
             ++ StreamlitApp.str py bad))).
Proof.
  intros Hsteps Htitle Hpre Hbefore Hbad.
  pose proof (label_surrogate i d) as Hlabel. rewrite Htitle in Hlabel.
  unfold StreamlitApp.show_test_case.
  unfold Shown.case_label, Spec.field in *.
  cbn [Py.get]. rewrite Hsteps.
  eapply renders_out.
  - eapply renders_bind; [apply renders_lift_ok|].
    apply renders_expander.
    { destruct (Py.lookup "title" d); exact Hlabel. }
    eapply renders_bind; [apply renders_lift_ok|].
    eapply renders_bind.
    { apply renders_emit. destruct (Py.lookup "title" d); showable_call. }
    eapply renders_bind; [apply renders_lift_ok|].
    eapply renders_bind.
    { apply renders_emit.
      destruct (Py.lookup "preconditions" d); showable_call. }
    eapply renders_bind; [apply renders_lift_ok|].
    apply renders_bind_raise.
    replace (StreamlitApp.truthy py (PyList (before ++ bad :: after)))
      with true by now destruct before.
    eapply renders_bind; [now apply renders_emit|].
    cbn [Py.iter].
    eapply renders_bind; [apply renders_lift_ok|].
    now apply show_steps_cut.
  - unfold StreamlitApp.str. simpl.
    destruct (Py.lookup "title" d), (Py.lookup "preconditions" d);
      reflexivity.
Qed.

(** The [try] block once the response is decoded as an object *)
Lemma format_body_object (json_content : string)
  (test_data : list (string * pyvalue)) :
  json_loads py json_content = inr (PyDict test_data) ->
  StreamlitApp.format_body py json_content =
    (let test_cases :=
       match Py.lookup "test_cases" test_data with
       | Some v => v
       | None => PyList []
       end in
     if negb (StreamlitApp.truthy py test_cases) then
       St.warning py "No test cases found in the response."
     else
       n <- lift (Py.len test_cases) ;;
       St.success py ("Generated " ++ str_of_nat n ++ " test cases:") ;;
       items <- lift (Py.iter test_cases) ;;
       for_each (Py.enumerate items 1) (StreamlitApp.show_test_case py)).
Proof.
  intro Hloads. unfold StreamlitApp.format_body.
  now rewrite Hloads, bind_lift_ok.
Qed.

(** The renderer when the [try] block raises an exception that is not a
    [JSONDecodeError] and whose message can be shown *)
Lemma renders_formatting_error (json_content : string)
  (out : list element) (e : exn) :
  plain e = true ->
  renders (StreamlitApp.format_body py json_content) out (Raise e) ->
  renders (StreamlitApp.format_test_cases py json_content)
    (out ++ [Shown.formatting_error (exn_msg e)]) (Return tt).
Proof.
  intros He Hbody. unfold StreamlitApp.format_test_cases.
  apply renders_try_raise with e; [exact Hbody|].
  now apply format_except_plain.
Qed.

Lemma truthy_list (items rest : list pyvalue) (x : pyvalue) :
  StreamlitApp.truthy py (PyList (items ++ x :: rest)) = true.
Proof. now destruct items. Qed.

(** The renderer on a sequence of test cases of which the first ones can
    be shown and the next one ends the loop *)
Lemma format_test_cases_cut
  (json_content : string) (test_data : list (string * pyvalue))
  (ds : list (list (string * pyvalue))) (bad : pyvalue)
  (rest : list pyvalue) (o : list element) (e : exn) :
  json_loads py json_content = inr (PyDict test_data) ->
  Py.lookup "test_cases" test_data =
    Some (PyList (map PyDict ds ++ bad :: rest)) ->
  forallb (Shown.steps_listable py) ds = true ->
  forallb (Shown.encodable py) ds = true ->
  renders (StreamlitApp.show_test_case py (1 + length ds, bad)) o (Raise e) ->
  plain e = true ->
  renders (StreamlitApp.format_test_cases py json_content)
    (Shown.banner (length ds + S (length rest))
       :: Shown.rendered_cases py ds 1 ++ o
       ++ [Shown.formatting_error (exn_msg e)])
    (Return tt).
Proof.
  intros Hloads Hkey Hok Henc Hbad He.
  apply (renders_out _
           ((Shown.banner (length ds + S (length rest))
               :: Shown.rendered_cases py ds 1 ++ o)
            ++ [Shown.formatting_error (exn_msg e)])).
  2:{ simpl. now rewrite <- app_assoc. }
  apply renders_formatting_error; [exact He|].
  rewrite (format_body_object _ _ Hloads), Hkey. cbv zeta.
  rewrite truthy_list. cbv [negb]. cbn [Py.len Py.iter].
  rewrite bind_lift_ok, length_app, length_map. cbn [length].
  apply renders_emit_then; [apply banner_showable|]. rewrite bind_lift_ok.
  apply show_listable_cases_then; [exact Hok|exact Henc|].
  cbn [Py.enumerate for_each]. apply renders_bind_raise, Hbad.
Qed.

End RendererSteps.

(** ** The renderer: the claims *)

Section RendererClaims.

(** C3, as stated, fails in two ways.  A text with a lone surrogate is
    rejected by the decoder, and the error message is shown, but
    [st.code] cannot encode the text: it raises, the text is not shown
    and the exception leaves the renderer.  A text nested deeper than the
    interpreter has room for is rejected with [RecursionError], which is
    not a [JSONDecodeError]: the other clause shows its message, and the
    text is not shown. *)
Lemma malformed_response_text_not_shown :
  (json_loads Examples.py Examples.garbled_apology =
     inl (mkExn JSONDecodeError "Expecting value: line 1 column 1 (char 0)") /\
   StreamlitApp.format_test_cases Examples.py Examples.garbled_apology
     empty_world =
     (add_ui
        [Error "Failed to parse JSON response: Expecting value: line 1 column 1 (char 0)";
         Text "Raw response:"]
        empty_world,
      Raise (mkExn UnicodeEncodeError
               "'utf-8' codec can't encode character '\ud800' in position 6: surrogates not allowed"))) /\
  (json_loads Examples.py_within_limits Examples.deep_array =
     inl (mkExn RecursionError
            "maximum recursion depth exceeded while decoding a JSON array from a unicode string") /\
   StreamlitApp.format_test_cases Examples.py_within_limits
     Examples.deep_array empty_world =
     (add_ui
        [Error "Error formatting test cases: maximum recursion depth exceeded while decoding a JSON array from a unicode string"]
        empty_world,
      Return tt)).
Proof. repeat split; vm_compute; reflexivity. Qed.

(** C3, amended.  When [json.loads] rejects the response text with a
    [JSONDecodeError], and neither the diagnostic nor the text holds a
    lone surrogate, the renderer shows an error message that carries the
    decoder's diagnostic, then the response text itself, unchanged, and
    returns. *)
Theorem malformed_response_keeps_raw_text
  (py : interpreter) (json_content diagnostic : string) :
  json_loads py json_content = inl (mkExn JSONDecodeError diagnostic) ->
  has_surrogate diagnostic = false ->
  has_surrogate json_content = false ->
  forall w,
    StreamlitApp.format_test_cases py json_content w =
      (add_ui
         [Error ("Failed to parse JSON response: " ++ diagnostic);
          Text "Raw response:";
          Code json_content "json"] w,
       Return tt).
Proof.
  intros Hloads Hdiagnostic Htext.
  apply (format_test_cases_failed py _ _ _ _ Hloads).
  now apply format_except_decode.
Qed.

Lemma malformed_response_keeps_raw_text_example :
  json_loads Examples.py Examples.apology =
    inl (mkExn JSONDecodeError "Expecting value: line 1 column 1 (char 0)") /\
  StreamlitApp.format_test_cases Examples.py Examples.apology empty_world =
    (add_ui
       [Error "Failed to parse JSON response: Expecting value: line 1 column 1 (char 0)";
        Text "Raw response:";
        Code "Sorry, I can't help with that." "json"] empty_world,
     Return tt).
Proof.
  split.
  - reflexivity.
  - apply (malformed_response_keeps_raw_text Examples.py Examples.apology
             "Expecting value: line 1 column 1 (char 0)");
      reflexivity.
Defined.

(** C4, as stated, fails: a text that parses as JSON but not as an object
    has no [test_cases] key, and the renderer shows an error for it, not
    the warning. *)
Lemma no_warning_for_non_object :
  json_loads Examples.py Examples.empty_array = inr (PyList []) /\
  StreamlitApp.format_test_cases Examples.py Examples.empty_array empty_world =
    (add_ui
       [Error "Error formatting test cases: 'list' object has no attribute 'get'"]
       empty_world,
     Return tt).
Proof. split; reflexivity. Qed.

(** C4, amended.  When the response text parses as a JSON object in which
    the [test_cases] key is missing or holds an empty sequence, the renderer
    shows the warning that no test cases were found, and nothing else: no
    case and no error. *)
Theorem empty_batch_warns
  (py : interpreter) (json_content : string)
  (test_data : list (string * pyvalue)) :
  json_loads py json_content = inr (PyDict test_data) ->
  Py.lookup "test_cases" test_data = None \/
  Py.lookup "test_cases" test_data = Some (PyList []) ->
  forall w,
    StreamlitApp.format_test_cases py json_content w =
      (add_ui [Warning "No test cases found in the response."] w, Return tt).
Proof.
  intros Hloads Hkey. unfold StreamlitApp.format_test_cases.
  apply renders_try_return.
  unfold StreamlitApp.format_body. rewrite Hloads, bind_lift_ok.
  simpl Py.get. rewrite bind_lift_ok.
  destruct Hkey as [-> | ->]; now apply renders_emit.
Qed.

Lemma empty_batch_warns_example :
  json_loads Examples.py Examples.no_cases =
    inr (PyDict [("test_cases", PyList [])]) /\
  StreamlitApp.format_test_cases Examples.py Examples.no_cases empty_world =
    (add_ui [Warning "No test cases found in the response."] empty_world,
     Return tt).
Proof.
  split.
  - reflexivity.
  - apply (empty_batch_warns Examples.py Examples.no_cases
             [("test_cases", PyList [])]).
    + reflexivity.
    + right. reflexivity.
Defined.

(** C5, as stated, fails: an element of the sequence that is not an object
    is not rendered, and neither is the rest of a test case whose steps are
    a number, or of one with a step that cannot be encoded; the renderer
    shows an error message instead. *)
Lemma malformed_case_not_rendered :
  StreamlitApp.format_test_cases Examples.py Examples.number_case empty_world =
    (add_ui
       [Success "Generated 1 test cases:";
        Error "Error formatting test cases: 'int' object has no attribute 'get'"]
       empty_world,
     Return tt) /\
  StreamlitApp.format_test_cases Examples.py Examples.number_steps empty_world =
    (add_ui
       [Success "Generated 1 test cases:";
        Expander "Test Case 1: Untitled"
          [Markdown "**Title:** N/A";
           Markdown "**Preconditions:** N/A";
           Markdown "**Steps:**"];
        Error "Error formatting test cases: 'int' object is not iterable"]
       empty_world,
     Return tt) /\
  StreamlitApp.format_test_cases Examples.py Examples.garbled_step empty_world =
    (add_ui
       [Success "Generated 1 test cases:";
        Expander "Test Case 1: T"
          [Markdown "**Title:** T";
           Markdown "**Preconditions:** N/A";
           Markdown "**Steps:**";
           Markdown "1. ok"];
        Error "Error formatting test cases: 'utf-8' codec can't encode character '\ud800' in position 4: surrogates not allowed"]
       empty_world,
     Return tt).
Proof. repeat split; reflexivity. Qed.

(** C5, amended.  When the response text parses as a JSON object whose
    [test_cases] is a non-empty sequence of objects, none of which has
    steps that are a non-zero number or [true] or a text (title,
    preconditions, step, expected result) with a lone surrogate, the
    renderer reports the number of test cases and shows, for each of them
    in turn, its title, its preconditions, its steps as a numbered list
    and its expected result.  A missing title, preconditions or expected
    result is shown as [N/A] ([Untitled] in the label of the expander).
    The steps listed are the items of a sequence, the characters of a
    string, the keys of an object; missing steps, and steps that are null,
    false, zero or empty, are left out with their heading. *)
Theorem test_cases_rendered
  (py : interpreter) (json_content : string)
  (test_data : list (string * pyvalue))
  (ds : list (list (string * pyvalue))) :
  json_loads py json_content = inr (PyDict test_data) ->
  Py.lookup "test_cases" test_data = Some (PyList (map PyDict ds)) ->
  ds <> [] ->
  forallb (Shown.steps_listable py) ds = true ->
  forallb (Shown.encodable py) ds = true ->
  forall w,
    StreamlitApp.format_test_cases py json_content w =
      (add_ui
         (Success ("Generated " ++ str_of_nat (length ds) ++ " test cases:")
            :: Shown.rendered_cases py ds 1) w,
       Return tt).
Proof.
  intros Hloads Hkey Hne Hok Henc. unfold StreamlitApp.format_test_cases.
  apply renders_try_return.
  rewrite (format_body_object py _ _ Hloads), Hkey. cbv zeta.
  replace (StreamlitApp.truthy py (PyList (map PyDict ds))) with true
    by now destruct ds.
  cbv [negb]. cbn [Py.len Py.iter]. rewrite bind_lift_ok, length_map.
  apply renders_emit_then; [apply (banner_showable (length ds))|].
  rewrite bind_lift_ok.
  rewrite <- (app_nil_r (map PyDict ds)).
  rewrite <- (app_nil_r (Shown.rendered_cases _ _ _)).
  apply show_listable_cases_then; [exact Hok | exact Henc | apply renders_ret].
Qed.

Lemma test_cases_rendered_example :
  json_loads Examples.py Examples.steps_only =
    inr (PyDict [("test_cases", PyList (map PyDict [[("steps", PyList [])]]))]) /\
  StreamlitApp.format_test_cases Examples.py Examples.steps_only empty_world =
    (add_ui
       [Success "Generated 1 test cases:";
        Expander "Test Case 1: Untitled"
          [Markdown "**Title:** N/A";
           Markdown "**Preconditions:** N/A";
           Markdown "**Expected Result:** N/A"]]
       empty_world,
     Return tt).
Proof.
  split.
  - reflexivity.
  - apply (test_cases_rendered Examples.py Examples.steps_only
             [("test_cases", PyList (map PyDict [[("steps", PyList [])]]))]
             [[("steps", PyList [])]]).
    + reflexivity.
    + reflexivity.
    + discriminate.
    + reflexivity.
    + reflexivity.
Defined.

(** C6.  For the response text with the one test case [Login works], the
    renderer reports one test case and shows its title, its three steps
    numbered in the given order, and its expected result. *)
Theorem login_case_rendered
  (sr fr : string -> string) (fb : string -> bool) (ue : string -> string)
  (w : world) :
  StreamlitApp.format_test_cases (cpython sr fr fb ue) Examples.login w =
    (add_ui
       [Success "Generated 1 test cases:";
        Expander "Test Case 1: Login works"
          [Markdown "**Title:** Login works";
           Markdown "**Preconditions:** User exists";
           Markdown "**Steps:**";
           Markdown "1. Open app";
           Markdown "2. Enter credentials";
           Markdown "3. Submit";
           Markdown "**Expected Result:** User is logged in"]] w,
     Return tt).
Proof.
  destruct (format_test_cases_decoded (cpython sr fr fb ue) Examples.login
              _ loads_login) as (out & Hout & _).
  rewrite Hout. apply renders_run in Hout as [-> _].
  reflexivity.
Qed.

(** C10, as stated, fails: an exception leaves the renderer when an
    [except] clause cannot show its message or the text, here a text with
    a lone surrogate, which [st.code] cannot encode. *)
Lemma exception_leaves_renderer :
  StreamlitApp.format_test_cases Examples.py Examples.garbled_reply
    empty_world =
    (add_ui
       [Error "Failed to parse JSON response: Expecting value: line 1 column 1 (char 0)";
        Text "Raw response:"]
       empty_world,
     Raise (mkExn UnicodeEncodeError
              "'utf-8' codec can't encode character '\ud800' in position 0: surrogates not allowed")).
Proof. reflexivity. Qed.

(** C10, amended.  For every input string on which the failure of the
    decoder, if it fails, can be shown (no lone surrogate in its message,
    nor in the text when it is a [JSONDecodeError]), the renderer returns
    to its caller without an exception, whatever the decoder returns or
    raises, and the run ends in exactly one of three ways: the test cases
    rendered, the warning that there are none, or an error message
    shown. *)
Theorem format_test_cases_total (py : interpreter) (json_content : string) :
  failure_showable py json_content = true ->
  exists out k,
    (forall w,
       StreamlitApp.format_test_cases py json_content w =
         (add_ui out w, Return tt)) /\
    ends_in k out = true /\
    forall k', ends_in k' out = true -> k' = k.
Proof.
  intro Hshowable. unfold failure_showable in Hshowable.
  destruct (json_loads py json_content) as [e|v] eqn:Hloads.
  - apply andb_prop in Hshowable as [Hmsg Htext].
    apply negb_true_iff in Hmsg. apply negb_true_iff in Htext.
    pose proof (format_test_cases_failed py _ _ _ _ Hloads
                  (format_except_run py json_content e)) as Hrun.
    rewrite Hmsg, Htext in Hrun.
    eexists _, ErrorShown. split; [exact Hrun|].
    destruct (is_JSONDecodeError e); (split; [reflexivity|]);
      now intros [].
  - destruct (format_test_cases_decoded py json_content v Hloads)
      as (out & Hout & [-> | [(cases & -> & Hne & Hexp)
                             | (shown & msg & ->)]]).
    + exists [Warning no_cases_message], NoTestCases.
      split; [exact Hout|]. split; [reflexivity | now intros []].
    + exists (Shown.banner (length cases) :: cases), CasesRendered.
      split; [exact Hout|]. destruct cases as [|c cases]; [easy|].
      split; [exact Hexp|].
      intros [] Hk; [reflexivity|discriminate|].
      change (existsb is_error (c :: cases) = true) in Hk.
      now rewrite (expanders_no_error _ Hexp) in Hk.
    + exists (shown ++ [Shown.formatting_error msg])%list, ErrorShown.
      split; [exact Hout|]. split; [apply error_found|].
      intros [] Hk; [| |reflexivity].
      * destruct shown as [|[] shown]; try discriminate Hk.
        destruct shown as [|c cases]; [discriminate Hk|].
        cbn [app ends_in] in Hk.
        change (c :: cases ++ [Shown.formatting_error msg])%list
          with ((c :: cases) ++ [Shown.formatting_error msg])%list in Hk.
        unfold Shown.formatting_error in Hk.
        now rewrite error_not_expanders in Hk.
      * destruct shown as [|[] [|? ?]]; discriminate Hk.
Qed.

Lemma format_test_cases_total_example :
  failure_showable Examples.py Examples.number_steps = true /\
  exists out k,
    (forall w,
       StreamlitApp.format_test_cases Examples.py Examples.number_steps w =
         (add_ui out w, Return tt)) /\
    ends_in k out = true /\
    forall k', ends_in k' out = true -> k' = k.
Proof.
  split; [reflexivity|].
  apply (format_test_cases_total Examples.py Examples.number_steps).
  reflexivity.
Defined.

End RendererClaims.

(** ** The two programs: the claims *)

Section Shells.

Lemma bind_getenv {B} (env : environment) (name : string)
  (k : option string -> M B) :
  bind (os_getenv env name) k = k (environ env name).
Proof. reflexivity. Qed.

(** With the credential set, [generate_test_cases] sends one request and
    returns or raises what the provider answers. *)
Lemma generate_test_cases_run (env : environment) (key description : string) :
  environ env "OPENAI_API_KEY" = Some key -> is_empty key = false ->
  forall w,
    StreamlitApp.generate_test_cases env description w =
      (add_call (request key description) w,
       match remote env (request key description) with
       | inl e => Raise e
       | inr content => Return content
       end).
Proof.
  intros Hkey Hset w.
  unfold StreamlitApp.generate_test_cases.
  rewrite bind_getenv, Hkey.
  change (not_set (Some key)) with (is_empty key). rewrite Hset.
  unfold try_except, ainvoke, bind, raise, ret. simpl SecretStr.
  fold (request key description).
  now destruct (remote env (request key description)).
Qed.

(** With the credential set and a line on the standard input, the
    command-line program prompts, sends one request, prints the answer if
    there is one and the terminal takes it, and returns. *)
Lemma script_main_run (env : environment) (key description : string) :
  environ env "OPENAI_API_KEY" = Some key -> is_empty key = false ->
  stdin env = Some description ->
  forall w,
    Script.main env w =
      (match remote env (request key description) with
       | inl e => fun w' => w'
       | inr content =>
           match stdout_error env content with
           | Some _ => fun w' => w'
           | None => add_terminal (Printed content)
           end
       end
         (add_call (request key description)
            (add_terminal (Prompt "Enter the test case description: ") w)),
       Return tt).
Proof.
  intros Hkey Hset Hline w.
  unfold Script.main.
  rewrite bind_getenv, Hkey.
  change (not_set (Some key)) with (is_empty key). rewrite Hset.
  unfold try_except, ainvoke, bind, input, print, ret. rewrite Hline.
  simpl SecretStr.
  fold (request key description).
  destruct (remote env (request key description)) as [e|content];
    [reflexivity|].
  now destruct (stdout_error env content).
Qed.

(** C1.  When the credential variable is absent or empty, the browser's
    [generate_test_cases] and the command-line [main] both raise the
    configuration error ([ValueError]) and leave the world as it was: no
    request has been sent to the provider. *)
Theorem missing_credential_fails_before_call (env : environment) :
  not_set (environ env "OPENAI_API_KEY") = true ->
  (forall user_message w,
     StreamlitApp.generate_test_cases env user_message w =
       (w, Raise (mkExn ValueError
                    "OPENAI_API_KEY environment variable is not set"))) /\
  (forall w,
     Script.main env w =
       (w, Raise (mkExn ValueError
                    "OPENAI_API_KEY environment variable is not set"))).
Proof.
  intro Habsent. split; intros;
    unfold StreamlitApp.generate_test_cases, Script.main;
    now rewrite bind_getenv, Habsent.
Qed.

Lemma missing_credential_fails_before_call_example :
  not_set (environ (Examples.env None "Log in" (inr "{}")) "OPENAI_API_KEY")
    = true /\
  StreamlitApp.generate_test_cases (Examples.env None "Log in" (inr "{}"))
    "Log in" empty_world =
    (empty_world,
     Raise (mkExn ValueError "OPENAI_API_KEY environment variable is not set")) /\
  Script.main (Examples.env None "Log in" (inr "{}")) empty_world =
    (empty_world,
     Raise (mkExn ValueError "OPENAI_API_KEY environment variable is not set")).
Proof.
  split; [reflexivity|split].
  - apply (proj1 (missing_credential_fails_before_call
                    (Examples.env None "Log in" (inr "{}")) eq_refl)).
  - apply (proj2 (missing_credential_fails_before_call
                    (Examples.env None "Log in" (inr "{}")) eq_refl)).
Defined.

(** C2.  For every description the request built for the provider holds
    exactly two messages: the fixed system message, then a user message
    whose content is the preamble followed by the description as given.
    This is the request [generate_test_cases] sends for its argument, and
    the one the command-line [main] sends for the line it reads. *)
Theorem request_is_system_then_user
  (env : environment) (key description : string) :
  environ env "OPENAI_API_KEY" = Some key -> is_empty key = false ->
  stdin env = Some description ->
  forall w,
    let messages :=
      [SystemMessage system_prompt_content;
       HumanMessage ("Please convert this test case into a task:"
                       ++ nl ++ nl ++ description)] in
    map call_messages
      (calls (fst (StreamlitApp.generate_test_cases env description w))) =
      (map call_messages (calls w) ++ [messages])%list /\
    map call_messages (calls (fst (Script.main env w))) =
      (map call_messages (calls w) ++ [messages])%list.
Proof.
  intros Hkey Hset Hline w messages. split.
  - rewrite (generate_test_cases_run env key description Hkey Hset).
    simpl. now rewrite map_app.
  - rewrite (script_main_run env key description Hkey Hset Hline).
    destruct (remote env (request key description)) as [e|content];
      [|destruct (stdout_error env content)]; simpl;
      now rewrite map_app.
Qed.

Lemma request_is_system_then_user_example :
  environ (Examples.env (Some "sk-test") "Log in" (inr "{}")) "OPENAI_API_KEY"
    = Some "sk-test" /\
  is_empty "sk-test" = false /\
  stdin (Examples.env (Some "sk-test") "Log in" (inr "{}")) = Some "Log in" /\
  map call_messages
    (calls (fst (StreamlitApp.generate_test_cases
                   (Examples.env (Some "sk-test") "Log in" (inr "{}"))
                   "Log in" empty_world))) =
    [[SystemMessage system_prompt_content;
      HumanMessage ("Please convert this test case into a task:"
                      ++ nl ++ nl ++ "Log in")]] /\
  map call_messages
    (calls (fst (Script.main
                   (Examples.env (Some "sk-test") "Log in" (inr "{}"))
                   empty_world))) =
    [[SystemMessage system_prompt_content;
      HumanMessage ("Please convert this test case into a task:"
                      ++ nl ++ nl ++ "Log in")]].
Proof.
  repeat (split; [reflexivity|]).
  apply (request_is_system_then_user
           (Examples.env (Some "sk-test") "Log in" (inr "{}"))
           "sk-test" "Log in" eq_refl eq_refl eq_refl empty_world).
Defined.

Lemma bind_emit {B} (py : interpreter) (x : element) (k : unit -> M B)
  (w : world) :
  showable x = true -> bind (St.emit py x) k w = k tt (add_ui [x] w).
Proof.
  intro Hx. unfold bind, St.emit. now rewrite (refusal_showable py x Hx).
Qed.

Lemma bind_text_area {B} (py : interpreter) (env : environment)
  (label placeholder : string) (height : nat) (k : string -> M B)
  (w : world) :
  showable (TextArea label placeholder height) = true ->
  bind (St.text_area py env label placeholder height) k w =
    k (text_area_value env) (add_ui [TextArea label placeholder height] w).
Proof.
  intro Hx. unfold bind, St.text_area.
  now rewrite (refusal_showable py _ Hx).
Qed.

Lemma bind_button {B} (py : interpreter) (env : environment)
  (label type : string) (k : bool -> M B) (w : world) :
  showable (Button label type) = true ->
  bind (St.button py env label type) k w =
    k (button_clicked env) (add_ui [Button label type] w).
Proof.
  intro Hx. unfold bind, St.button.
  now rewrite (refusal_showable py _ Hx).
Qed.

(** With the credential set, the browser program shows the head of the
    page and the input form, and goes on according to the widgets. *)
Lemma streamlit_main_run
  (py : interpreter) (env : environment) (key : string) :
  environ env "OPENAI_API_KEY" = Some key -> is_empty key = false ->
  forall w,
    StreamlitApp.main py env w =
      (if button_clicked env then
         if is_empty (strip (text_area_value env)) then
           St.warning py "Please enter a test case description."
         else
           St.spinner py "Generating test cases..."
             (try_except
                (StreamlitApp.main_try py env (text_area_value env))
                (StreamlitApp.main_except py))
       else ret tt)
        (add_ui (Spec.page_head ++ Spec.input_form) w).
Proof.
  intros Hkey Hset w. unfold StreamlitApp.main.
  unfold St.set_page_config, St.title, St.markdown at 1.
  rewrite !bind_emit by reflexivity. rewrite bind_getenv, Hkey.
  change (not_set (Some key)) with (is_empty key). rewrite Hset.
  unfold St.header at 1, bind at 1, ret at 1.
  rewrite bind_emit by reflexivity.
  rewrite bind_text_area by reflexivity.
  rewrite bind_button by reflexivity.
  rewrite !add_ui_app. reflexivity.
Qed.

(** With the credential set, the browser program shows a warning for a
    blank description and sends nothing to the provider. *)
Lemma streamlit_main_rejects_blank
  (py : interpreter) (env : environment) (key : string) :
  environ env "OPENAI_API_KEY" = Some key -> is_empty key = false ->
  button_clicked env = true ->
  is_empty (strip (text_area_value env)) = true ->
  forall w,
    StreamlitApp.main py env w =
      (add_ui (Spec.page_head ++ Spec.input_form
               ++ [Warning "Please enter a test case description."]) w,
       Return tt).
Proof.
  intros Hkey Hset Hclick Hblank w.
  rewrite (streamlit_main_run py env key Hkey Hset), Hclick, Hblank.
  unfold St.warning.
  rewrite (renders_emit py (Warning "Please enter a test case description.")
             eq_refl).
  now rewrite add_ui_app, <- app_assoc.
Qed.

(** The spinner is shown, with what its block shows inside. *)
Lemma spinner_run {A} (py : interpreter) (text : string) (body : M A)
  (w : world) :
  has_surrogate text = false ->
  St.spinner py text body w =
    (set_ui (fst (body (set_ui w [])))
       (ui w ++ [Spinner text (ui (fst (body (set_ui w []))))]),
     snd (body (set_ui w []))).
Proof.
  intros Htext. unfold St.spinner, St.refusal. cbn [texts find].
  rewrite Htext. now destruct (body (set_ui w [])).
Qed.

(** The [except] clauses of [main]: the failure is shown, and logged
    unless it is a [ValueError], when its message can be encoded; if not,
    [st.error] raises and nothing is shown or logged. *)
Lemma main_except_run (py : interpreter) (e : exn) (w : world) :
  StreamlitApp.main_except py e w =
    if has_surrogate (exn_msg e) then
      (w,
       Raise
         (unicode_error py
            ((if is_ValueError e then "Configuration error: "
              else "An error occurred: ") ++ exn_msg e)))
    else
      ((if is_ValueError e then fun w' => w'
        else add_log ("Error generating test cases: " ++ exn_msg e))
         (add_ui
            [Error
               ((if is_ValueError e then "Configuration error: "
                 else "An error occurred: ") ++ exn_msg e)] w),
       Return tt).
Proof.
  unfold StreamlitApp.main_except.
  destruct (has_surrogate (exn_msg e)) eqn:Hmsg.
  - destruct (is_ValueError e).
    + unfold St.error.
      rewrite (renders_emit_refused py _ _
                 (refusal_text py "Configuration error: " _ Error
                    (fun _ => eq_refl) eq_refl Hmsg)).
      now rewrite add_ui_nil.
    + unfold bind at 1. unfold St.error.
      rewrite (renders_emit_refused py _ _
                 (refusal_text py "An error occurred: " _ Error
                    (fun _ => eq_refl) eq_refl Hmsg)).
      now rewrite add_ui_nil.
  - destruct (is_ValueError e).
    + unfold St.error.
      now rewrite (renders_emit py _
                     (showable_text "Configuration error: " _ Error
                        (fun _ => eq_refl) eq_refl Hmsg)).
    + unfold bind at 1. unfold St.error.
      now rewrite (renders_emit py _
                     (showable_text "An error occurred: " _ Error
                        (fun _ => eq_refl) eq_refl Hmsg)).
Qed.

(** The [try] statement of [main] when the provider fails, and when it
    answers *)
Lemma main_try_failed
  (py : interpreter) (env : environment) (key : string) (e : exn) :
  environ env "OPENAI_API_KEY" = Some key -> is_empty key = false ->
  remote env (request key (text_area_value env)) = inl e ->
  forall w,
    try_except (StreamlitApp.main_try py env (text_area_value env))
      (StreamlitApp.main_except py) w =
      StreamlitApp.main_except py e
        (add_call (request key (text_area_value env)) w).
Proof.
  intros Hkey Hset Hfail w.
  unfold try_except, StreamlitApp.main_try. unfold bind at 1.
  now rewrite (generate_test_cases_run env key _ Hkey Hset), Hfail.
Qed.

Lemma main_try_answered
  (py : interpreter) (env : environment) (key response : string) :
  environ env "OPENAI_API_KEY" = Some key -> is_empty key = false ->
  remote env (request key (text_area_value env)) = inr response ->
  forall w,
    try_except (StreamlitApp.main_try py env (text_area_value env))
      (StreamlitApp.main_except py) w =
      try_except
        (St.header py "Generated Test Cases" ;;
         StreamlitApp.format_test_cases py response ;;
         St.expander py "View Raw JSON" (St.code py response "json"))
        (StreamlitApp.main_except py)
        (add_call (request key (text_area_value env)) w).
Proof.
  intros Hkey Hset Hanswer w.
  unfold try_except, StreamlitApp.main_try. unfold bind at 1 3.
  now rewrite (generate_test_cases_run env key _ Hkey Hset), Hanswer.
Qed.

(** A failure of the provider in the browser program *)
Lemma streamlit_main_failed
  (py : interpreter) (env : environment) (key : string) (e : exn) :
  environ env "OPENAI_API_KEY" = Some key -> is_empty key = false ->
  button_clicked env = true ->
  is_empty (strip (text_area_value env)) = false ->
  remote env (request key (text_area_value env)) = inl e ->
  forall w,
    StreamlitApp.main py env w =
      ({| ui :=
            ui w ++ Spec.page_head ++ Spec.input_form
              ++ [Spinner "Generating test cases..."
                    (if has_surrogate (exn_msg e) then []
                     else
                       [Error
                          ((if is_ValueError e then "Configuration error: "
                            else "An error occurred: ") ++ exn_msg e)])];
          terminal := terminal w;
          log :=
            log w ++
              (if has_surrogate (exn_msg e) || is_ValueError e then []
               else ["Error generating test cases: " ++ exn_msg e]);
          calls := calls w ++ [request key (text_area_value env)] |},
       if has_surrogate (exn_msg e) then
         Raise
           (unicode_error py
              ((if is_ValueError e then "Configuration error: "
                else "An error occurred: ") ++ exn_msg e))
       else Return tt).
Proof.
  intros Hkey Hset Hclick Hblank Hfail w.
  rewrite (streamlit_main_run py env key Hkey Hset), Hclick, Hblank.
  rewrite spinner_run by reflexivity.
  rewrite (main_try_failed py env key e Hkey Hset Hfail), main_except_run.
  destruct w as [u t l c].
  destruct (has_surrogate (exn_msg e)), (is_ValueError e); simpl;
    now rewrite ?app_nil_r, <- !app_assoc.
Qed.

(** C7, as stated, fails for the browser program: a failure whose message
    cannot be encoded is not shown; [st.error] raises in the [except]
    clause, and that exception leaves [main]. *)
Lemma garbled_failure_not_shown :
  remote
    (Examples.env (Some "sk-test") "Log in" (inl Examples.garbled_error))
    (request "sk-test" "Log in") = inl Examples.garbled_error /\
  StreamlitApp.main Examples.py
    (Examples.env (Some "sk-test") "Log in" (inl Examples.garbled_error))
    empty_world =
    ({| ui :=
          Spec.page_head ++ Spec.input_form
            ++ [Spinner "Generating test cases..." []];
        terminal := [];
        log := [];
        calls := [request "sk-test" "Log in"] |},
     Raise (mkExn UnicodeEncodeError
              "'utf-8' codec can't encode character '\ud800' in position 32: surrogates not allowed")).
Proof. split; reflexivity. Qed.

(** C7, amended.  When the call to the provider fails, the command-line
    program returns having printed nothing (the terminal shows its prompt
    and no more), and the browser program, when the message of the
    failure holds no lone surrogate, shows an error message that carries
    it. *)
Theorem remote_failure_silent_or_shown
  (py : interpreter) (env : environment) (key description : string)
  (e : exn) :
  environ env "OPENAI_API_KEY" = Some key -> is_empty key = false ->
  remote env (request key description) = inl e ->
  (stdin env = Some description ->
   forall w,
     Script.main env w =
       (add_call (request key description)
          (add_terminal (Prompt "Enter the test case description: ") w),
        Return tt)) /\
  (text_area_value env = description -> button_clicked env = true ->
   is_empty (strip description) = false ->
   has_surrogate (exn_msg e) = false ->
   forall w,
     StreamlitApp.main py env w =
       ({| ui :=
             ui w ++ Spec.page_head ++ Spec.input_form
               ++ [Spinner "Generating test cases..."
                     [Error
                        ((if is_ValueError e then "Configuration error: "
                          else "An error occurred: ") ++ exn_msg e)]];
           terminal := terminal w;
           log :=
             log w ++
               (if is_ValueError e then []
                else ["Error generating test cases: " ++ exn_msg e]);
           calls := calls w ++ [request key description] |},
        Return tt)).
Proof.
  intros Hkey Hset Hfail. split.
  - intros Hline w.
    rewrite (script_main_run env key description Hkey Hset Hline).
    now rewrite Hfail.
  - intros Htext Hclick Hblank Hmsg w. subst description.
    rewrite (streamlit_main_failed py env key e Hkey Hset Hclick Hblank Hfail).
    now rewrite Hmsg.
Qed.

Lemma remote_failure_silent_or_shown_example :
  remote (Examples.env (Some "sk-test") "Log in" (inl Examples.connection_error))
    (request "sk-test" "Log in") = inl Examples.connection_error /\
  Script.main
    (Examples.env (Some "sk-test") "Log in" (inl Examples.connection_error))
    empty_world =
    ({| ui := [];
        terminal := [Prompt "Enter the test case description: "];
        log := [];
        calls := [request "sk-test" "Log in"] |},
     Return tt) /\
  StreamlitApp.main Examples.py
    (Examples.env (Some "sk-test") "Log in" (inl Examples.connection_error))
    empty_world =
    ({| ui :=
          Spec.page_head ++ Spec.input_form
            ++ [Spinner "Generating test cases..."
                  [Error "An error occurred: Connection error."]];
        terminal := [];
        log := ["Error generating test cases: Connection error."];
        calls := [request "sk-test" "Log in"] |},
     Return tt).
Proof.
  split; [reflexivity|].
  pose proof
    (remote_failure_silent_or_shown Examples.py
       (Examples.env (Some "sk-test") "Log in" (inl Examples.connection_error))
       "sk-test" "Log in" Examples.connection_error eq_refl eq_refl eq_refl)
    as [Hcli Hweb].
  split.
  - apply (Hcli eq_refl empty_world).
  - apply (Hweb eq_refl eq_refl eq_refl eq_refl empty_world).
Defined.

(** C8, as stated, fails: in the browser program the title and the
    caption of the page are shown before the credential is looked at. *)
Lemma page_head_shown_before_credential_check :
  environ (Examples.env None "Log in" (inr "{}")) "OPENAI_API_KEY" = None /\
  StreamlitApp.main Examples.py (Examples.env None "Log in" (inr "{}"))
    empty_world =
    ({| ui :=
          [PageConfig "Test Case Generator" "🧪" "wide";
           Title "🧪 Test Case Generator";
           Markdown "Generate comprehensive test cases using AI";
           Error "⚠️ OPENAI_API_KEY environment variable is not set. Please set it in your .env file."];
        terminal := [];
        log := [];
        calls := [] |},
     Stop).
Proof. split; reflexivity. Qed.

(** Without the credential, the browser program shows the head of the
    page and the error, and stops. *)
Lemma streamlit_main_stops (py : interpreter) (env : environment) :
  not_set (environ env "OPENAI_API_KEY") = true ->
  forall w,
    StreamlitApp.main py env w =
      (add_ui
         (Spec.page_head ++
          [Error "⚠️ OPENAI_API_KEY environment variable is not set. Please set it in your .env file."])
         w,
       Stop).
Proof.
  intros Habsent w. unfold StreamlitApp.main.
  unfold St.set_page_config, St.title, St.markdown at 1.
  rewrite !bind_emit by reflexivity. rewrite bind_getenv, Habsent.
  unfold St.error. unfold bind at 1. rewrite bind_emit by reflexivity.
  unfold St.stop. now rewrite !add_ui_app.
Qed.

(** C8, amended.  When the credential variable is absent or empty, the
    browser program shows the title and the caption of the page, then the
    configuration error, and stops there: the input form is not shown and
    no request is sent.  The command-line program raises the configuration
    error before it prompts or sends anything. *)
Theorem missing_credential_reported_before_input
  (py : interpreter) (env : environment) :
  not_set (environ env "OPENAI_API_KEY") = true ->
  forall w,
    StreamlitApp.main py env w =
      (add_ui
         (Spec.page_head ++
          [Error "⚠️ OPENAI_API_KEY environment variable is not set. Please set it in your .env file."])
         w,
       Stop) /\
    Script.main env w =
      (w, Raise (mkExn ValueError
                   "OPENAI_API_KEY environment variable is not set")).
Proof.
  intros Habsent w. split.
  - now apply streamlit_main_stops.
  - unfold Script.main. now rewrite bind_getenv, Habsent.
Qed.

Lemma missing_credential_reported_before_input_example :
  not_set (environ (Examples.env (Some EmptyString) "Log in" (inr "{}"))
             "OPENAI_API_KEY") = true /\
  StreamlitApp.main Examples.py
    (Examples.env (Some EmptyString) "Log in" (inr "{}")) empty_world =
    (add_ui
       (Spec.page_head ++
        [Error "⚠️ OPENAI_API_KEY environment variable is not set. Please set it in your .env file."])
       empty_world,
     Stop) /\
  Script.main (Examples.env (Some EmptyString) "Log in" (inr "{}"))
    empty_world =
    (empty_world,
     Raise (mkExn ValueError "OPENAI_API_KEY environment variable is not set")).
Proof.
  split; [reflexivity|].
  apply (missing_credential_reported_before_input Examples.py
           (Examples.env (Some EmptyString) "Log in" (inr "{}"))
           eq_refl empty_world).
Defined.

(** C9 does not hold for the command-line program: it has no check of the
    line it reads, and sends a blank description to the provider like any
    other.  (The browser program has the check, see
    [streamlit_main_rejects_blank].) *)
Theorem script_main_sends_blank_description
  (env : environment) (key description : string) :
  environ env "OPENAI_API_KEY" = Some key -> is_empty key = false ->
  stdin env = Some description ->
  is_empty (strip description) = true ->
  forall w,
    calls (fst (Script.main env w)) =
      (calls w ++
       [{| call_llm := {| model := "gpt-4o-mini"; api_key := key |};
           call_messages :=
             [SystemMessage system_prompt_content;
              HumanMessage ("Please convert this test case into a task:"
                              ++ nl ++ nl ++ description)] |}])%list.
Proof.
  intros Hkey Hset Hline _ w.
  rewrite (script_main_run env key description Hkey Hset Hline).
  destruct (remote env (request key description)) as [e|content];
    [reflexivity|].
  now destruct (stdout_error env content).
Qed.

Lemma script_main_sends_blank_description_example :
  is_empty (strip "   ") = true /\
  calls (fst (Script.main (Examples.env (Some "sk-test") "   " (inr "{}"))
                empty_world)) =
    [{| call_llm := {| model := "gpt-4o-mini"; api_key := "sk-test" |};
        call_messages :=
          [SystemMessage system_prompt_content;
           HumanMessage ("Please convert this test case into a task:"
                           ++ nl ++ nl ++ "   ")] |}].
Proof.
  split; [reflexivity|].
  apply (script_main_sends_blank_description
           (Examples.env (Some "sk-test") "   " (inr "{}"))
           "sk-test" "   " eq_refl eq_refl eq_refl eq_refl empty_world).
Defined.

End Shells.

(** ** More on the renderer *)

Section RendererExtras.

Lemma type_error_plain (prefix suffix : string) (v : pyvalue)
  (class : exn_class) :
  all_ascii prefix = true -> all_ascii suffix = true ->
  is_JSONDecodeError (mkExn class (prefix ++ Py.type_name v ++ suffix))
    = false ->
  plain (mkExn class (prefix ++ Py.type_name v ++ suffix)) = true.
Proof.
  intros Hprefix Hsuffix Hclass. unfold plain. rewrite Hclass.
  cbn [exn_msg]. rewrite ascii_no_surrogate; [reflexivity|].
  rewrite !all_ascii_app, Hprefix, Hsuffix. now destruct v.
Qed.

(** X1.  A response that decodes to anything but an object (a sequence, a
    string, a number, a boolean, null) gets one error message that names
    the type; nothing else is shown. *)
Theorem non_object_response_shows_error
  (py : interpreter) (json_content : string) (test_data : pyvalue) :
  json_loads py json_content = inr test_data ->
  (forall entries, test_data <> PyDict entries) ->
  forall w,
    StreamlitApp.format_test_cases py json_content w =
      (add_ui
         [Error ("Error formatting test cases: '" ++ Py.type_name test_data
                   ++ "' object has no attribute 'get'")] w,
       Return tt).
Proof.
  intros Hloads Hobject.
  apply (renders_formatting_error py json_content []
           (mkExn AttributeError
              ("'" ++ Py.type_name test_data
                 ++ "' object has no attribute 'get'")));
    [now apply type_error_plain|].
  unfold StreamlitApp.format_body. rewrite Hloads, bind_lift_ok.
  destruct test_data as [| | | | | |entries]; cbn [Py.get Py.type_name];
    try (rewrite bind_lift_error; apply renders_raise).
  now contradiction (Hobject entries).
Qed.

Lemma non_object_response_shows_error_example :
  json_loads Examples.py (q "done") = inr (PyStr "done") /\
  StreamlitApp.format_test_cases Examples.py (q "done") empty_world =
    (add_ui
       [Error "Error formatting test cases: 'str' object has no attribute 'get'"]
       empty_world,
     Return tt).
Proof.
  split; [reflexivity|].
  apply (non_object_response_shows_error Examples.py (q "done")
           (PyStr "done") eq_refl).
  discriminate.
Defined.

(** X2.  A [test_cases] value that counts as false (null, false, zero, an
    empty string, an empty object, an empty sequence) is treated as no
    test cases: the warning is shown, and no error. *)
Theorem falsy_test_cases_warns
  (py : interpreter) (json_content : string)
  (test_data : list (string * pyvalue)) (test_cases : pyvalue) :
  json_loads py json_content = inr (PyDict test_data) ->
  Py.lookup "test_cases" test_data = Some test_cases ->
  StreamlitApp.truthy py test_cases = false ->
  forall w,
    StreamlitApp.format_test_cases py json_content w =
      (add_ui [Warning "No test cases found in the response."] w, Return tt).
Proof.
  intros Hloads Hkey Hfalsy. unfold StreamlitApp.format_test_cases.
  apply renders_try_return.
  rewrite (format_body_object py _ _ Hloads), Hkey. cbv zeta.
  rewrite Hfalsy. now apply renders_emit.
Qed.

Lemma falsy_test_cases_warns_example :
  json_loads Examples.py MoreExamples.null_cases =
    inr (PyDict [("test_cases", PyNone)]) /\
  StreamlitApp.format_test_cases Examples.py MoreExamples.null_cases
    empty_world =
    (add_ui [Warning "No test cases found in the response."] empty_world,
     Return tt).
Proof.
  split; [reflexivity|].
  apply (falsy_test_cases_warns Examples.py MoreExamples.null_cases
           [("test_cases", PyNone)] PyNone eq_refl eq_refl eq_refl).
Defined.

(** X3.  A [test_cases] value that is a non-zero number or [true] has no
    length: one error message is shown, and no banner. *)
Theorem scalar_test_cases_shows_error
  (py : interpreter) (json_content : string)
  (test_data : list (string * pyvalue)) (test_cases : pyvalue) :
  json_loads py json_content = inr (PyDict test_data) ->
  Py.lookup "test_cases" test_data = Some test_cases ->
  Shown.is_scalar test_cases = true ->
  StreamlitApp.truthy py test_cases = true ->
  forall w,
    StreamlitApp.format_test_cases py json_content w =
      (add_ui
         [Error ("Error formatting test cases: object of type '"
                   ++ Py.type_name test_cases ++ "' has no len()")] w,
       Return tt).
Proof.
  intros Hloads Hkey Hscalar Htruthy.
  apply (renders_formatting_error py json_content []
           (mkExn TypeError
              ("object of type '" ++ Py.type_name test_cases
                 ++ "' has no len()")));
    [now apply type_error_plain|].
  rewrite (format_body_object py _ _ Hloads), Hkey. cbv zeta.
  rewrite Htruthy. cbv [negb].
  destruct test_cases; try discriminate; cbn [Py.len Py.type_name];
    rewrite bind_lift_error; apply renders_raise.
Qed.

Lemma scalar_test_cases_shows_error_example :
  json_loads Examples.py MoreExamples.number_cases =
    inr (PyDict [("test_cases", PyInt 5)]) /\
  StreamlitApp.format_test_cases Examples.py MoreExamples.number_cases
    empty_world =
    (add_ui
       [Error "Error formatting test cases: object of type 'int' has no len()"]
       empty_world,
     Return tt).
Proof.
  split; [reflexivity|].
  apply (scalar_test_cases_shows_error Examples.py MoreExamples.number_cases
           [("test_cases", PyInt 5)] (PyInt 5) eq_refl eq_refl eq_refl eq_refl).
Defined.

(** X4.  A [test_cases] value that is a non-empty string is counted by its
    characters: the banner announces that many test cases, and the first
    character already ends the rendering with an error message. *)
Theorem string_test_cases_counted_then_error
  (py : interpreter) (json_content : string)
  (test_data : list (string * pyvalue)) (text : string) :
  json_loads py json_content = inr (PyDict test_data) ->
  Py.lookup "test_cases" test_data = Some (PyStr text) ->
  is_empty text = false ->
  forall w,
    StreamlitApp.format_test_cases py json_content w =
      (add_ui
         [Success ("Generated " ++ str_of_nat (py_len text)
                     ++ " test cases:");
          Error "Error formatting test cases: 'str' object has no attribute 'get'"]
         w,
       Return tt).
Proof.
  intros Hloads Hkey Hne.
  apply (renders_formatting_error py json_content [_]
           (mkExn AttributeError "'str' object has no attribute 'get'"));
    [reflexivity|].
  rewrite (format_body_object py _ _ Hloads), Hkey. cbv zeta.
  destruct text as [|a text]; [discriminate|].
  change (StreamlitApp.truthy py (PyStr (String a text))) with true.
  cbv [negb]. cbn [Py.len Py.iter]. rewrite bind_lift_ok.
  apply renders_emit_then;
    [apply (banner_showable (py_len (String a text)))|].
  rewrite bind_lift_ok.
  pose proof (chars_not_nil a text) as Hchars.
  destruct (chars (String a text)) as [|c cs]; [easy|].
  apply show_characters_raises.
Qed.

Lemma string_test_cases_counted_then_error_example :
  json_loads Examples.py MoreExamples.string_cases =
    inr (PyDict [("test_cases", PyStr "abc")]) /\
  StreamlitApp.format_test_cases Examples.py MoreExamples.string_cases
    empty_world =
    (add_ui
       [Success "Generated 3 test cases:";
        Error "Error formatting test cases: 'str' object has no attribute 'get'"]
       empty_world,
     Return tt).
Proof.
  split; [reflexivity|].
  apply (string_test_cases_counted_then_error Examples.py
           MoreExamples.string_cases [("test_cases", PyStr "abc")] "abc"
           eq_refl eq_refl eq_refl).
Defined.

(** X6.  When an element of the sequence is not an object, the banner still
    announces the length of the whole sequence, the test cases before
    that element (here: test cases that can be shown in full) stay
    rendered, an error message follows them, and the elements after it
    are not looked at. *)
Theorem cases_before_non_object_stay_rendered
  (py : interpreter) (json_content : string)
  (test_data : list (string * pyvalue))
  (ds : list (list (string * pyvalue))) (bad : pyvalue)
  (rest : list pyvalue) :
  json_loads py json_content = inr (PyDict test_data) ->
  Py.lookup "test_cases" test_data =
    Some (PyList (map PyDict ds ++ bad :: rest)) ->
  forallb (Shown.steps_listable py) ds = true ->
  forallb (Shown.encodable py) ds = true ->
  (forall entries, bad <> PyDict entries) ->
  forall w,
    StreamlitApp.format_test_cases py json_content w =
      (add_ui
         (Success ("Generated " ++ str_of_nat (length ds + S (length rest))
                     ++ " test cases:")
            :: Shown.rendered_cases py ds 1
            ++ [Error ("Error formatting test cases: '" ++ Py.type_name bad
                         ++ "' object has no attribute 'get'")]) w,
       Return tt).
Proof.
  intros Hloads Hkey Hok Henc Hbad.
  apply (format_test_cases_cut py json_content test_data ds bad rest []
           (mkExn AttributeError
              ("'" ++ Py.type_name bad ++ "' object has no attribute 'get'")));
    try assumption; [|now apply type_error_plain].
  unfold StreamlitApp.show_test_case.
  destruct bad as [| | | | | |entries]; cbn [Py.get Py.type_name];
    try (rewrite bind_lift_error; apply renders_raise).
  now contradiction (Hbad entries).
Qed.

Lemma cases_before_non_object_stay_rendered_example :
  json_loads Examples.py MoreExamples.second_is_number =
    inr (PyDict
           [("test_cases",
             PyList (map PyDict [[("title", PyStr "A")]]
                       ++ PyInt 7 :: [PyDict [("title", PyStr "B")]]))]) /\
  StreamlitApp.format_test_cases Examples.py MoreExamples.second_is_number
    empty_world =
    (add_ui
       [Success "Generated 3 test cases:";
        Expander "Test Case 1: A"
          [Markdown "**Title:** A";
           Markdown "**Preconditions:** N/A";
           Markdown "**Expected Result:** N/A"];
        Error "Error formatting test cases: 'int' object has no attribute 'get'"]
       empty_world,
     Return tt).
Proof.
  split; [reflexivity|].
  apply (cases_before_non_object_stay_rendered Examples.py
           MoreExamples.second_is_number
           [("test_cases",
             PyList (map PyDict [[("title", PyStr "A")]]
                       ++ PyInt 7 :: [PyDict [("title", PyStr "B")]]))]
           [[("title", PyStr "A")]] (PyInt 7)
           [PyDict [("title", PyStr "B")]] eq_refl eq_refl eq_refl eq_refl).
  discriminate.
Defined.

(** X7.  When the steps of a test case are a non-zero number or [true], the
    test cases before it stay rendered, its own expander stops at the
    heading of the steps (the expected result is not shown), and an error
    message follows.  The texts shown up to there hold no lone
    surrogate. *)
Theorem case_with_scalar_steps_is_cut
  (py : interpreter) (json_content : string)
  (test_data : list (string * pyvalue))
  (ds : list (list (string * pyvalue))) (d : list (string * pyvalue))
  (steps : pyvalue) (rest : list pyvalue) :
  json_loads py json_content = inr (PyDict test_data) ->
  Py.lookup "test_cases" test_data =
    Some (PyList (map PyDict ds ++ PyDict d :: rest)) ->
  forallb (Shown.steps_listable py) ds = true ->
  forallb (Shown.encodable py) ds = true ->
  Py.lookup "steps" d = Some steps ->
  Shown.is_scalar steps = true -> StreamlitApp.truthy py steps = true ->
  has_surrogate (Spec.field py d "title" "N/A") = false ->
  has_surrogate (Spec.field py d "preconditions" "N/A") = false ->
  forall w,
    StreamlitApp.format_test_cases py json_content w =
      (add_ui
         (Success ("Generated " ++ str_of_nat (length ds + S (length rest))
                     ++ " test cases:")
            :: Shown.rendered_cases py ds 1
            ++ [Expander
                  ("Test Case " ++ str_of_nat (1 + length ds) ++ ": "
                     ++ Spec.field py d "title" "Untitled")
                  [Markdown ("**Title:** " ++ Spec.field py d "title" "N/A");
                   Markdown ("**Preconditions:** "
                               ++ Spec.field py d "preconditions" "N/A");
                   Markdown "**Steps:**"];
                Error ("Error formatting test cases: '"
                         ++ Py.type_name steps
                         ++ "' object is not iterable")]) w,
       Return tt).
Proof.
  intros Hloads Hkey Hok Henc Hsteps Hscalar Htruthy Htitle Hpre.
  apply (format_test_cases_cut py json_content test_data ds (PyDict d) rest
           [Shown.broken_case py (1 + length ds) d]
           (mkExn TypeError
              ("'" ++ Py.type_name steps ++ "' object is not iterable")));
    try assumption; [|now apply type_error_plain].
  now apply show_unlistable_case.
Qed.

Lemma case_with_scalar_steps_is_cut_example :
  json_loads Examples.py MoreExamples.second_has_number_steps =
    inr (PyDict
           [("test_cases",
             PyList (map PyDict [[("title", PyStr "A")]]
                       ++ PyDict [("steps", PyInt 5)] :: []))]) /\
  StreamlitApp.format_test_cases Examples.py
    MoreExamples.second_has_number_steps empty_world =
    (add_ui
       [Success "Generated 2 test cases:";
        Expander "Test Case 1: A"
          [Markdown "**Title:** A";
           Markdown "**Preconditions:** N/A";
           Markdown "**Expected Result:** N/A"];
        Expander "Test Case 2: Untitled"
          [Markdown "**Title:** N/A";
           Markdown "**Preconditions:** N/A";
           Markdown "**Steps:**"];
        Error "Error formatting test cases: 'int' object is not iterable"]
       empty_world,
     Return tt).
Proof.
  split; [reflexivity|].
  apply (case_with_scalar_steps_is_cut Examples.py
           MoreExamples.second_has_number_steps
           [("test_cases",
             PyList (map PyDict [[("title", PyStr "A")]]
                       ++ PyDict [("steps", PyInt 5)] :: []))]
           [[("title", PyStr "A")]] [("steps", PyInt 5)] (PyInt 5) []
           eq_refl eq_refl eq_refl eq_refl eq_refl eq_refl eq_refl eq_refl
           eq_refl).
Defined.

(** X8.  Whenever the renderer ends with test cases rendered (a banner
    followed by expanders and no error), the number in the banner is the
    number of expanders shown. *)
Theorem banner_counts_rendered_cases
  (py : interpreter) (json_content : string) :
  ends_in CasesRendered (Shown.rendering py json_content) = true ->
  exists cases,
    Shown.rendering py json_content =
      Success ("Generated " ++ str_of_nat (length cases) ++ " test cases:")
        :: cases /\
    forallb is_expander cases = true.
Proof.
  unfold Shown.rendering.
  destruct (json_loads py json_content) as [e|v] eqn:Hloads.
  - rewrite (format_test_cases_failed py _ _ _ _ Hloads
               (format_except_run py json_content e)).
    cbn [fst ui add_ui set_ui empty_world app].
    destruct (has_surrogate (exn_msg e)); [discriminate|].
    destruct (is_JSONDecodeError e); discriminate.
  - destruct (format_test_cases_decoded py json_content v Hloads)
      as (out & Hout & [-> | [(cases & -> & Hne & Hexp)
                             | (shown & msg & ->)]]);
      destruct (renders_run _ _ _ Hout) as [<- _].
    + discriminate.
    + intros _. exists cases. split; [reflexivity | exact Hexp].
    + intro Hk. exfalso.
      destruct shown as [|[] shown]; try discriminate Hk.
      destruct shown as [|c cases]; [discriminate Hk|].
      cbn [app ends_in] in Hk.
      change (c :: cases ++ [Shown.formatting_error msg])%list
        with ((c :: cases) ++ [Shown.formatting_error msg])%list in Hk.
      unfold Shown.formatting_error in Hk.
      now rewrite error_not_expanders in Hk.
Qed.

Lemma banner_counts_rendered_cases_example :
  ends_in CasesRendered (Shown.rendering Examples.py Examples.login) = true /\
  exists cases,
    Shown.rendering Examples.py Examples.login =
      Success ("Generated " ++ str_of_nat (length cases) ++ " test cases:")
        :: cases /\
    forallb is_expander cases = true.
Proof.
  split; [reflexivity|].
  apply (banner_counts_rendered_cases Examples.py Examples.login).
  reflexivity.
Defined.

(** X18.  The renderer raises exactly when an [except] clause cannot show
    the failure of the decoder: the message of the failure holds a lone
    surrogate, or the failure is a [JSONDecodeError] and the text holds
    one.  What it raises is the [UnicodeEncodeError] of [st.error] or of
    [st.code].  Once the text is decoded, no exception leaves it. *)
Theorem format_test_cases_raises_exactly
  (py : interpreter) (json_content : string) (w : world) :
  snd (StreamlitApp.format_test_cases py json_content w) =
    match json_loads py json_content with
    | inl e =>
        if has_surrogate (exn_msg e) then
          Raise
            (unicode_error py
               ((if is_JSONDecodeError e
                 then "Failed to parse JSON response: "
                 else "Error formatting test cases: ") ++ exn_msg e))
        else if is_JSONDecodeError e && has_surrogate json_content then
          Raise (unicode_error py json_content)
        else Return tt
    | inr _ => Return tt
    end.
Proof.
  destruct (json_loads py json_content) as [e|v] eqn:Hloads.
  - now rewrite (format_test_cases_failed py _ _ _ _ Hloads
                   (format_except_run py json_content e)).
  - destruct (format_test_cases_decoded py json_content v Hloads)
      as (out & Hout & _).
    now rewrite Hout.
Qed.

(** X19.  A step that cannot be encoded ends the rendering: the test cases
    before its own stay rendered, the expander of its test case holds the
    title, the preconditions, the heading of the steps and the steps
    before it, and the error message of the encoder follows; the steps
    after it, the expected result and the later test cases are not
    shown. *)
Theorem step_with_surrogate_is_cut
  (py : interpreter) (json_content : string)
  (test_data : list (string * pyvalue))
  (ds : list (list (string * pyvalue))) (d : list (string * pyvalue))
  (before after : list pyvalue) (bad : pyvalue) (rest : list pyvalue) :
  json_loads py json_content = inr (PyDict test_data) ->
  Py.lookup "test_cases" test_data =
    Some (PyList (map PyDict ds ++ PyDict d :: rest)) ->
  forallb (Shown.steps_listable py) ds = true ->
  forallb (Shown.encodable py) ds = true ->
  Py.lookup "steps" d = Some (PyList (before ++ bad :: after)) ->
  has_surrogate (Spec.field py d "title" "N/A") = false ->
  has_surrogate (Spec.field py d "preconditions" "N/A") = false ->
  forallb (fun v => negb (has_surrogate (StreamlitApp.str py v))) before
    = true ->
  has_surrogate (StreamlitApp.str py bad) = true ->
  forall w,
    StreamlitApp.format_test_cases py json_content w =
      (add_ui
         (Success ("Generated " ++ str_of_nat (length ds + S (length rest))
                     ++ " test cases:")
            :: Shown.rendered_cases py ds 1
            ++ [Expander
                  ("Test Case " ++ str_of_nat (1 + length ds) ++ ": "
                     ++ Spec.field py d "title" "Untitled")
                  (Markdown ("**Title:** " ++ Spec.field py d "title" "N/A")
                     :: Markdown ("**Preconditions:** "
                                    ++ Spec.field py d "preconditions" "N/A")
                     :: Markdown "**Steps:**"
                     :: Spec.numbered py before 1);
                Error ("Error formatting test cases: "
                         ++ exn_msg
                              (unicode_error py
                                 (str_of_nat (1 + length before) ++ ". "
                                    ++ StreamlitApp.str py bad)))]) w,
       Return tt).
Proof.
  intros Hloads Hkey Hok Henc Hsteps Htitle Hpre Hbefore Hbad.
  apply (format_test_cases_cut py json_content test_data ds (PyDict d) rest
           [_] (unicode_error py _));
    try assumption; [|apply unicode_error_plain].
  now apply (show_garbled_step py _ d before after bad).
Qed.

Lemma step_with_surrogate_is_cut_example :
  json_loads Examples.py Examples.garbled_step =
    inr (PyDict
           [("test_cases",
             PyList
               (map PyDict []
                  ++ PyDict
                       [("title", PyStr "T");
                        ("steps",
                         PyList
                           ([PyStr "ok"]
                              ++ PyStr ("x" ++ Examples.lone_surrogate)
                              :: [PyStr "never"]))]
                  :: []))]) /\
  StreamlitApp.format_test_cases Examples.py Examples.garbled_step
    empty_world =
    (add_ui
       [Success "Generated 1 test cases:";
        Expander "Test Case 1: T"
          [Markdown "**Title:** T";
           Markdown "**Preconditions:** N/A";
           Markdown "**Steps:**";
           Markdown "1. ok"];
        Error "Error formatting test cases: 'utf-8' codec can't encode character '\ud800' in position 4: surrogates not allowed"]
       empty_world,
     Return tt).
Proof.
  split; [reflexivity|].
  apply (step_with_surrogate_is_cut Examples.py Examples.garbled_step
           [("test_cases",
             PyList
               (map PyDict []
                  ++ PyDict
                       [("title", PyStr "T");
                        ("steps",
                         PyList
                           ([PyStr "ok"]
                              ++ PyStr ("x" ++ Examples.lone_surrogate)
                              :: [PyStr "never"]))]
                  :: []))]
           []
           [("title", PyStr "T");
            ("steps",
             PyList
               ([PyStr "ok"]
                  ++ PyStr ("x" ++ Examples.lone_surrogate)
                  :: [PyStr "never"]))]
           [PyStr "ok"] [PyStr "never"]
           (PyStr ("x" ++ Examples.lone_surrogate)) []
           eq_refl eq_refl eq_refl eq_refl eq_refl eq_refl eq_refl eq_refl
           eq_refl).
Defined.


(** X23.  A failure of the decoder that is not a [JSONDecodeError] (the
    [RecursionError] of a text nested too deep, the [ValueError] of an
    integer with too many digits) is reported by the second [except]
    clause: its message is shown when it can be, and the text is not. *)
Theorem other_decoder_failure_hides_text
  (py : interpreter) (json_content : string) (e : exn) :
  json_loads py json_content = inl e ->
  is_JSONDecodeError e = false ->
  has_surrogate (exn_msg e) = false ->
  forall w,
    StreamlitApp.format_test_cases py json_content w =
      (add_ui [Error ("Error formatting test cases: " ++ exn_msg e)] w,
       Return tt).
Proof.
  intros Hloads Hclass Hmsg.
  apply (format_test_cases_failed py _ _ _ _ Hloads).
  apply format_except_plain. unfold plain. now rewrite Hmsg, Hclass.
Qed.

Lemma other_decoder_failure_hides_text_example :
  json_loads Examples.py_within_limits Examples.long_integer =
    inl (mkExn ValueError
           "Exceeds the limit (4300 digits) for integer string conversion: value has 4301 digits; use sys.set_int_max_str_digits() to increase the limit") /\
  StreamlitApp.format_test_cases Examples.py_within_limits
    Examples.long_integer empty_world =
    (add_ui
       [Error "Error formatting test cases: Exceeds the limit (4300 digits) for integer string conversion: value has 4301 digits; use sys.set_int_max_str_digits() to increase the limit"]
       empty_world,
     Return tt).
Proof.
  assert (Hloads :
            json_loads Examples.py_within_limits Examples.long_integer =
              inl (mkExn ValueError
                     "Exceeds the limit (4300 digits) for integer string conversion: value has 4301 digits; use sys.set_int_max_str_digits() to increase the limit"))
    by (vm_compute; reflexivity).
  split; [exact Hloads|].
  apply (other_decoder_failure_hides_text Examples.py_within_limits
           Examples.long_integer _ Hloads eq_refl eq_refl).
Defined.

(** X24.  The rendering of the test case [Login works] does not depend on
    the limits of the interpreter, as long as the decoder has room for
    the four levels of nesting of the text. *)
Theorem login_case_rendered_within_limits
  (l : Json.limits) (sr fr : string -> string) (fb : string -> bool)
  (ue : string -> string) (w : world) :
  (forall room, Json.max_depth l = Some room -> 4 <= room) ->
  StreamlitApp.format_test_cases (cpython_within l sr fr fb ue)
    Examples.login w =
    (add_ui
       [Success "Generated 1 test cases:";
        Expander "Test Case 1: Login works"
          [Markdown "**Title:** Login works";
           Markdown "**Preconditions:** User exists";
           Markdown "**Steps:**";
           Markdown "1. Open app";
           Markdown "2. Enter credentials";
           Markdown "3. Submit";
           Markdown "**Expected Result:** User is logged in"]] w,
     Return tt).
Proof.
  intro Hroom.
  assert (Hloads : Json.loads_within l Examples.login =
                     Json.loads Examples.login).
  { destruct l as [[room|] digits]; [|reflexivity].
    specialize (Hroom room eq_refl).
    destruct room as [|[|[|[|room]]]]; try lia. reflexivity. }
  rewrite loads_login in Hloads.
  destruct (format_test_cases_decoded (cpython_within l sr fr fb ue)
              Examples.login _ Hloads) as (out & Hout & _).
  rewrite Hout. apply renders_run in Hout as [-> _].
  unfold StreamlitApp.format_test_cases, StreamlitApp.format_body.
  cbn [json_loads cpython_within]. rewrite Hloads. reflexivity.
Qed.

Lemma login_case_rendered_within_limits_example :
  (forall room,
     Json.max_depth Examples.cpython_limits = Some room -> 4 <= room) /\
  StreamlitApp.format_test_cases Examples.py_within_limits Examples.login
    empty_world =
    (add_ui
       [Success "Generated 1 test cases:";
        Expander "Test Case 1: Login works"
          [Markdown "**Title:** Login works";
           Markdown "**Preconditions:** User exists";
           Markdown "**Steps:**";
           Markdown "1. Open app";
           Markdown "2. Enter credentials";
           Markdown "3. Submit";
           Markdown "**Expected Result:** User is logged in"]] empty_world,
     Return tt).
Proof.
  assert (Hroom : forall room,
            Json.max_depth Examples.cpython_limits = Some room -> 4 <= room).
  { intros room [= <-]. lia. }
  split; [exact Hroom|].
  apply (login_case_rendered_within_limits Examples.cpython_limits
           Examples.quoted Examples.float_shown Examples.float_is_nonzero
           Examples.utf8_error empty_world Hroom).
Defined.

End RendererExtras.

(** ** More on the two programs *)

Section ShellRuns.

(** The exception of a Streamlit call is shown by the [except ValueError]
    clause of [main] as a configuration error. *)
Lemma main_except_unicode (py : interpreter) (text : string) :
  renders (StreamlitApp.main_except py (unicode_error py text))
    [Error ("Configuration error: " ++ exn_msg (unicode_error py text))]
    (Return tt).
Proof.
  intro w. rewrite main_except_run.
  now rewrite (plain_message _ (unicode_error_plain py text)).
Qed.

(** What follows an answer of the provider in the browser program *)
Lemma answer_panel_renders (py : interpreter) (response : string) :
  renders
    (try_except
       (St.header py "Generated Test Cases" ;;
        StreamlitApp.format_test_cases py response ;;
        St.expander py "View Raw JSON" (St.code py response "json"))
       (StreamlitApp.main_except py))
    (Shown.answer_panel py response) (Return tt).
Proof.
  unfold Shown.answer_panel.
  destruct (format_test_cases_renders_rendering py response)
    as (r & Hrendering & Hr).
  destruct (renders_run _ _ _ Hrendering) as [_ <-].
  destruct r as [[]|x|]; [| |easy].
  - destruct (has_surrogate response) eqn:Htext.
    + eapply renders_out.
      * eapply renders_try_raise; [|apply (main_except_unicode py response)].
        apply renders_emit_then; [reflexivity|].
        eapply renders_bind; [exact Hrendering|].
        apply renders_expander; [reflexivity|].
        apply renders_emit_refused. unfold St.refusal. cbn [texts find].
        now rewrite Htext.
      * cbn [app]. now rewrite <- app_assoc.
    + apply renders_try_return.
      apply renders_emit_then; [reflexivity|].
      eapply renders_bind; [exact Hrendering|].
      apply renders_expander; [reflexivity|].
      apply renders_emit. unfold showable. cbn [texts forallb].
      now rewrite Htext.
  - destruct Hr as (_ & text & ->).
    eapply renders_out.
    + eapply renders_try_raise; [|apply (main_except_unicode py text)].
      apply renders_emit_then; [reflexivity|].
      apply renders_bind_raise. exact Hrendering.
    + reflexivity.
Qed.

(** The provider answers: the browser program has sent one request,
    shows the answer under the spinner, logs nothing and returns. *)
Lemma streamlit_main_answered
  (py : interpreter) (env : environment) (key response : string) :
  environ env "OPENAI_API_KEY" = Some key -> is_empty key = false ->
  button_clicked env = true ->
  is_empty (strip (text_area_value env)) = false ->
  remote env (request key (text_area_value env)) = inr response ->
  forall w,
    StreamlitApp.main py env w =
      ({| ui :=
            ui w ++ Spec.page_head ++ Spec.input_form
              ++ [Spinner "Generating test cases..."
                    (Shown.answer_panel py response)];
          terminal := terminal w;
          log := log w;
          calls := calls w ++ [request key (text_area_value env)] |},
       Return tt).
Proof.
  intros Hkey Hset Hclick Hblank Hanswer w.
  rewrite (streamlit_main_run py env key Hkey Hset), Hclick, Hblank.
  rewrite spinner_run by reflexivity.
  rewrite (main_try_answered py env key response Hkey Hset Hanswer).
  rewrite (answer_panel_renders py response).
  destruct w as [u t l c]. simpl. now rewrite <- !app_assoc.
Qed.

(** With the credential set and the button not pressed, the browser
    program shows the head of the page and the input form. *)
Lemma streamlit_main_idle
  (py : interpreter) (env : environment) (key : string) :
  environ env "OPENAI_API_KEY" = Some key -> is_empty key = false ->
  button_clicked env = false ->
  forall w,
    StreamlitApp.main py env w =
      (add_ui (Spec.page_head ++ Spec.input_form) w, Return tt).
Proof.
  intros Hkey Hset Hclick w.
  now rewrite (streamlit_main_run py env key Hkey Hset), Hclick.
Qed.

(** Without the credential, the command-line program raises at once. *)
Lemma script_main_refuses (env : environment) :
  not_set (environ env "OPENAI_API_KEY") = true ->
  forall w,
    Script.main env w = (w, Raise (mkExn ValueError not_set_message)).
Proof.
  intros Habsent w. unfold Script.main. now rewrite bind_getenv, Habsent.
Qed.

(** With the credential set and nothing to read, the command-line program
    prompts and raises [EOFError]. *)
Lemma script_main_at_eof (env : environment) (key : string) :
  environ env "OPENAI_API_KEY" = Some key -> is_empty key = false ->
  stdin env = None ->
  forall w,
    Script.main env w =
      (add_terminal (Prompt "Enter the test case description: ") w,
       Raise (mkExn EOFError "EOF when reading a line")).
Proof.
  intros Hkey Hset Heof w. unfold Script.main.
  rewrite bind_getenv, Hkey.
  change (not_set (Some key)) with (is_empty key). rewrite Hset.
  unfold bind, input. now rewrite Heof.
Qed.

Lemma not_set_cases (v : option string) :
  not_set v = true \/
  exists key, v = Some key /\ is_empty key = false.
Proof.
  destruct v as [key|]; [|now left]. simpl.
  destruct (is_empty key) eqn:Hkey; [now left | right; eauto].
Qed.

End ShellRuns.

Section ShellExtras.

(** X9.  A description that is empty or made of white space only (ASCII or
    Unicode) is turned down by the browser program: with the credential
    set and the button pressed it shows the warning after the input form,
    and sends nothing to the provider. *)
Theorem streamlit_main_warns_on_blank
  (py : interpreter) (env : environment) (key : string) :
  environ env "OPENAI_API_KEY" = Some key -> is_empty key = false ->
  button_clicked env = true ->
  is_empty (strip (text_area_value env)) = true ->
  forall w,
    StreamlitApp.main py env w =
      ({| ui :=
            ui w ++ Spec.page_head ++ Spec.input_form
              ++ [Warning "Please enter a test case description."];
          terminal := terminal w;
          log := log w;
          calls := calls w |},
       Return tt).
Proof.
  intros Hkey Hset Hclick Hblank w.
  now rewrite (streamlit_main_rejects_blank py env key Hkey Hset Hclick
                 Hblank).
Qed.

Lemma streamlit_main_warns_on_blank_example :
  is_empty
    (strip (text_area_value
              (Examples.env (Some "sk-test")
                 (" " ++ nl ++ chr 194 ++ chr 160 ++ chr 9)
                 (inr "{}")))) = true /\
  StreamlitApp.main Examples.py
    (Examples.env (Some "sk-test")
       (" " ++ nl ++ chr 194 ++ chr 160 ++ chr 9) (inr "{}"))
    empty_world =
    ({| ui :=
          Spec.page_head ++ Spec.input_form
            ++ [Warning "Please enter a test case description."];
        terminal := [];
        log := [];
        calls := [] |},
     Return tt).
Proof.
  split; [reflexivity|].
  apply (streamlit_main_warns_on_blank Examples.py
           (Examples.env (Some "sk-test")
              (" " ++ nl ++ chr 194 ++ chr 160 ++ chr 9) (inr "{}"))
           "sk-test" eq_refl eq_refl eq_refl eq_refl empty_world).
Defined.

(** X10.  With the credential set, [generate_test_cases] sends exactly one
    request, to the model [gpt-4o-mini] with the key of the environment,
    and hands on what the provider answers: it returns the text unchanged,
    or raises the very exception the provider raised. *)
Theorem generate_test_cases_hands_on_answer
  (env : environment) (key user_message : string) :
  environ env "OPENAI_API_KEY" = Some key -> is_empty key = false ->
  forall w,
    let sent :=
      {| call_llm := {| model := "gpt-4o-mini"; api_key := key |};
         call_messages :=
           [SystemPrompt; HumanMessage (preamble ++ user_message)] |} in
    StreamlitApp.generate_test_cases env user_message w =
      (add_call sent w,
       match remote env sent with
       | inl e => Raise e
       | inr content => Return content
       end).
Proof.
  intros Hkey Hset w.
  exact (generate_test_cases_run env key user_message Hkey Hset w).
Qed.

Lemma generate_test_cases_hands_on_answer_example :
  environ (Examples.env (Some "sk-test") "Log in" (inr "{}")) "OPENAI_API_KEY"
    = Some "sk-test" /\
  StreamlitApp.generate_test_cases
    (Examples.env (Some "sk-test") "Log in" (inr "{}")) "Log in" empty_world =
    (add_call (request "sk-test" "Log in") empty_world, Return "{}") /\
  StreamlitApp.generate_test_cases
    (Examples.env (Some "sk-test") "Log in" (inl Examples.connection_error))
    "Log in" empty_world =
    (add_call (request "sk-test" "Log in") empty_world,
     Raise Examples.connection_error).
Proof.
  split; [reflexivity|split].
  - apply (generate_test_cases_hands_on_answer
             (Examples.env (Some "sk-test") "Log in" (inr "{}"))
             "sk-test" "Log in" eq_refl eq_refl empty_world).
  - apply (generate_test_cases_hands_on_answer
             (Examples.env (Some "sk-test") "Log in"
                (inl Examples.connection_error))
             "sk-test" "Log in" eq_refl eq_refl empty_world).
Defined.

(** X11.  When the provider answers with a text that holds no lone
    surrogate, and the failure of the decoder on it (if it fails) can be
    shown, the browser program shows, under the spinner, the header, then
    what the renderer makes of the answer, then the answer itself,
    unchanged, in the expander "View Raw JSON"; this holds whether the
    answer is valid JSON or not.  It has sent one request and logged
    nothing. *)
Theorem streamlit_main_shows_answer
  (py : interpreter) (env : environment) (key response : string) :
  environ env "OPENAI_API_KEY" = Some key -> is_empty key = false ->
  button_clicked env = true ->
  is_empty (strip (text_area_value env)) = false ->
  remote env (request key (text_area_value env)) = inr response ->
  has_surrogate response = false ->
  failure_showable py response = true ->
  forall w,
    StreamlitApp.main py env w =
      ({| ui :=
            ui w ++ Spec.page_head ++ Spec.input_form
              ++ [Spinner "Generating test cases..."
                    (Header "Generated Test Cases"
                       :: Shown.rendering py response
                       ++ [Expander "View Raw JSON" [Code response "json"]])];
          terminal := terminal w;
          log := log w;
          calls := calls w ++ [request key (text_area_value env)] |},
       Return tt).
Proof.
  intros Hkey Hset Hclick Hblank Hanswer Htext Hshowable w.
  rewrite (streamlit_main_answered py env key response Hkey Hset Hclick
             Hblank Hanswer).
  unfold Shown.answer_panel. rewrite Htext.
  destruct (format_test_cases_renders_rendering py response)
    as (r & Hrendering & Hr).
  destruct (renders_run _ _ _ Hrendering) as [_ <-].
  destruct r as [[]|x|]; [reflexivity| |easy].
  destruct Hr as [Hr _]. congruence.
Qed.

Lemma streamlit_main_shows_answer_example :
  remote (Examples.env (Some "sk-test") "Log in" (inr Examples.apology))
    (request "sk-test" "Log in") = inr Examples.apology /\
  StreamlitApp.main Examples.py
    (Examples.env (Some "sk-test") "Log in" (inr Examples.apology))
    empty_world =
    ({| ui :=
          Spec.page_head ++ Spec.input_form
            ++ [Spinner "Generating test cases..."
                  [Header "Generated Test Cases";
                   Error "Failed to parse JSON response: Expecting value: line 1 column 1 (char 0)";
                   Text "Raw response:";
                   Code "Sorry, I can't help with that." "json";
                   Expander "View Raw JSON"
                     [Code "Sorry, I can't help with that." "json"]]];
        terminal := [];
        log := [];
        calls := [request "sk-test" "Log in"] |},
     Return tt).
Proof.
  split; [reflexivity|].
  apply (streamlit_main_shows_answer Examples.py
           (Examples.env (Some "sk-test") "Log in" (inr Examples.apology))
           "sk-test" Examples.apology eq_refl eq_refl eq_refl eq_refl eq_refl
           eq_refl eq_refl empty_world).
Defined.


(** X13.  The browser program ends by [st.stop()] exactly when the
    credential is missing or empty.  In every other run it returns
    normally, whatever the provider answers and whatever the renderer
    meets, with one exception: when the provider fails with a message
    that holds a lone surrogate, [st.error] raises in the [except] clause
    and its [UnicodeEncodeError] leaves [main]. *)
Theorem streamlit_main_raises_on_garbled_failure_only
  (py : interpreter) (env : environment) (w : world) :
  snd (StreamlitApp.main py env w) =
    if not_set (environ env "OPENAI_API_KEY") then Stop
    else if button_clicked env
            && negb (is_empty (strip (text_area_value env))) then
      match
        remote env
          {| call_llm :=
               {| model := "gpt-4o-mini";
                  api_key := SecretStr (environ env "OPENAI_API_KEY") |};
             call_messages :=
               [SystemPrompt;
                HumanMessage (preamble ++ text_area_value env)] |}
      with
      | inl e =>
          if has_surrogate (exn_msg e) then
            Raise
              (unicode_error py
                 ((if is_ValueError e then "Configuration error: "
                   else "An error occurred: ") ++ exn_msg e))
          else Return tt
      | inr _ => Return tt
      end
    else Return tt.
Proof.
  destruct (not_set_cases (environ env "OPENAI_API_KEY"))
    as [Habsent | (key & Hkey & Hset)].
  - now rewrite (streamlit_main_stops py env Habsent), Habsent.
  - rewrite Hkey. change (not_set (Some key)) with (is_empty key).
    rewrite Hset. cbn [SecretStr].
    fold (request key (text_area_value env)).
    destruct (button_clicked env) eqn:Hclick.
    + destruct (is_empty (strip (text_area_value env))) eqn:Hblank.
      * now rewrite (streamlit_main_rejects_blank py env key Hkey Hset Hclick
                       Hblank).
      * cbn [negb andb].
        destruct (remote env (request key (text_area_value env)))
          as [e|response] eqn:Hremote.
        -- now rewrite (streamlit_main_failed py env key e Hkey Hset Hclick
                          Hblank Hremote).
        -- now rewrite (streamlit_main_answered py env key response Hkey
                          Hset Hclick Hblank Hremote).
    + now rewrite (streamlit_main_idle py env key Hkey Hset Hclick).
Qed.


(** X15.  When the provider answers and the terminal takes the text, the
    command-line program prints the answer unchanged after its prompt,
    and nothing else; it has sent one request. *)
Theorem script_main_prints_answer
  (env : environment) (key description content : string) :
  environ env "OPENAI_API_KEY" = Some key -> is_empty key = false ->
  stdin env = Some description ->
  remote env (request key description) = inr content ->
  stdout_error env content = None ->
  forall w,
    Script.main env w =
      ({| ui := ui w;
          terminal :=
            terminal w ++ [Prompt "Enter the test case description: ";
                           Printed content];
          log := log w;
          calls := calls w ++ [request key description] |},
       Return tt).
Proof.
  intros Hkey Hset Hline Hanswer Hprint w.
  rewrite (script_main_run env key description Hkey Hset Hline), Hanswer.
  rewrite Hprint.
  unfold add_terminal, add_call. simpl. now rewrite <- app_assoc.
Qed.

Lemma script_main_prints_answer_example :
  remote (Examples.env (Some "sk-test") "Log in" (inr Examples.no_cases))
    (request "sk-test" "Log in") = inr Examples.no_cases /\
  Script.main (Examples.env (Some "sk-test") "Log in" (inr Examples.no_cases))
    empty_world =
    ({| ui := [];
        terminal := [Prompt "Enter the test case description: ";
                     Printed Examples.no_cases];
        log := [];
        calls := [request "sk-test" "Log in"] |},
     Return tt).
Proof.
  split; [reflexivity|].
  apply (script_main_prints_answer
           (Examples.env (Some "sk-test") "Log in" (inr Examples.no_cases))
           "sk-test" "Log in" Examples.no_cases eq_refl eq_refl eq_refl
           eq_refl eq_refl empty_world).
Defined.

(** X16.  When there is nothing to read on the standard input, the command-line
    program shows its prompt and ends with [EOFError], which it does not
    catch; no request has been sent. *)
Theorem script_main_eof_before_call (env : environment) (key : string) :
  environ env "OPENAI_API_KEY" = Some key -> is_empty key = false ->
  stdin env = None ->
  forall w,
    Script.main env w =
      ({| ui := ui w;
          terminal := terminal w ++ [Prompt "Enter the test case description: "];
          log := log w;
          calls := calls w |},
       Raise (mkExn EOFError "EOF when reading a line")).
Proof.
  intros Hkey Hset Heof w.
  now rewrite (script_main_at_eof env key Hkey Hset Heof).
Qed.

Lemma script_main_eof_before_call_example :
  stdin (MoreExamples.eof_env (Some "sk-test")) = None /\
  Script.main (MoreExamples.eof_env (Some "sk-test")) empty_world =
    ({| ui := [];
        terminal := [Prompt "Enter the test case description: "];
        log := [];
        calls := [] |},
     Raise (mkExn EOFError "EOF when reading a line")).
Proof.
  split; [reflexivity|].
  apply (script_main_eof_before_call (MoreExamples.eof_env (Some "sk-test"))
           "sk-test" eq_refl eq_refl eq_refl empty_world).
Defined.

(** X17.  In every run the command-line program makes no Streamlit call and
    writes nothing to the log; it sends at most one request, and only
    after it has read a line; and the only exceptions it lets out are the
    configuration error and [EOFError]: a failure of the provider never
    comes out of it. *)
Theorem script_main_effects (env : environment) (w : world) :
  let r := Script.main env w in
  ui (fst r) = ui w /\ log (fst r) = log w /\
  calls (fst r) =
    (calls w ++
     match stdin env with
     | Some description =>
         if not_set (environ env "OPENAI_API_KEY") then []
         else [{| call_llm :=
                    {| model := "gpt-4o-mini";
                       api_key :=
                         SecretStr (environ env "OPENAI_API_KEY") |};
                  call_messages :=
                    [SystemPrompt;
                     HumanMessage (preamble ++ description)] |}]
     | None => []
     end)%list /\
  snd r =
    if not_set (environ env "OPENAI_API_KEY") then
      Raise (mkExn ValueError "OPENAI_API_KEY environment variable is not set")
    else
      match stdin env with
      | Some _ => Return tt
      | None => Raise (mkExn EOFError "EOF when reading a line")
      end.
Proof.
  cbv zeta.
  destruct (not_set_cases (environ env "OPENAI_API_KEY"))
    as [Habsent | (key & Hkey & Hset)].
  - rewrite (script_main_refuses env Habsent), Habsent. simpl.
    destruct (stdin env); now rewrite app_nil_r.
  - rewrite Hkey. change (not_set (Some key)) with (is_empty key).
    rewrite Hset. cbn [SecretStr].
    destruct (stdin env) as [description|] eqn:Hline.
    + rewrite (script_main_run env key description Hkey Hset Hline).
      fold (request key description).
      destruct (remote env (request key description)) as [e|content];
        [easy|].
      now destruct (stdout_error env content).
    + rewrite (script_main_at_eof env key Hkey Hset Hline). simpl.
      now rewrite app_nil_r.
Qed.

(** X21.  An answer with a lone surrogate is reported as a configuration
    error.  When the provider answers with such a text (and the message
    of the decoder, if it fails, can be shown), the browser program shows
    the header and what the renderer could show, then the expander
    "View Raw JSON", empty, unless the renderer raised; the
    [UnicodeEncodeError] of [st.code] is caught by the [except ValueError]
    clause, which shows it as "Configuration error: ...".  Nothing is
    logged and [main] returns. *)
Theorem streamlit_main_garbled_answer_is_configuration_error
  (py : interpreter) (env : environment) (key response : string) :
  environ env "OPENAI_API_KEY" = Some key -> is_empty key = false ->
  button_clicked env = true ->
  is_empty (strip (text_area_value env)) = false ->
  remote env (request key (text_area_value env)) = inr response ->
  has_surrogate response = true ->
  (forall e, json_loads py response = inl e ->
             has_surrogate (exn_msg e) = false) ->
  forall w,
    StreamlitApp.main py env w =
      ({| ui :=
            ui w ++ Spec.page_head ++ Spec.input_form
              ++ [Spinner "Generating test cases..."
                    (Header "Generated Test Cases"
                       :: Shown.rendering py response
                       ++ (if failure_showable py response
                           then [Expander "View Raw JSON" []] else [])
                       ++ [Error ("Configuration error: "
                                    ++ exn_msg
                                         (unicode_error py response))])];
          terminal := terminal w;
          log := log w;
          calls := calls w ++ [request key (text_area_value env)] |},
       Return tt).
Proof.
  intros Hkey Hset Hclick Hblank Hanswer Htext Hmsg w.
  rewrite (streamlit_main_answered py env key response Hkey Hset Hclick
             Hblank Hanswer).
  unfold Shown.answer_panel. rewrite Htext.
  pose proof (format_test_cases_raises_when py response empty_world) as Hr.
  unfold failure_showable.
  destruct (json_loads py response) as [e|v].
  - rewrite Hr, (Hmsg e eq_refl), Htext, andb_true_r. cbn [negb andb].
    now destruct (is_JSONDecodeError e).
  - now rewrite Hr.
Qed.

Lemma streamlit_main_garbled_answer_is_configuration_error_example :
  has_surrogate Examples.garbled_apology = true /\
  StreamlitApp.main Examples.py
    (Examples.env (Some "sk-test") "Log in" (inr Examples.garbled_apology))
    empty_world =
    ({| ui :=
          Spec.page_head ++ Spec.input_form
            ++ [Spinner "Generating test cases..."
                  [Header "Generated Test Cases";
                   Error "Failed to parse JSON response: Expecting value: line 1 column 1 (char 0)";
                   Text "Raw response:";
                   Error "Configuration error: 'utf-8' codec can't encode character '\ud800' in position 6: surrogates not allowed"]];
        terminal := [];
        log := [];
        calls := [request "sk-test" "Log in"] |},
     Return tt).
Proof.
  split; [reflexivity|].
  apply (streamlit_main_garbled_answer_is_configuration_error Examples.py
           (Examples.env (Some "sk-test") "Log in"
              (inr Examples.garbled_apology))
           "sk-test" Examples.garbled_apology eq_refl eq_refl eq_refl eq_refl
           eq_refl eq_refl).
  intros e [= <-]. reflexivity.
Defined.

(** X22.  When the provider answers with a text the terminal cannot take,
    [print] raises inside the [try] block, whose [except] clause passes:
    the command-line program prints nothing after its prompt, and
    returns normally, having sent one request. *)
Theorem script_main_swallows_print_failure
  (env : environment) (key description content : string) (x : exn) :
  environ env "OPENAI_API_KEY" = Some key -> is_empty key = false ->
  stdin env = Some description ->
  remote env (request key description) = inr content ->
  stdout_error env content = Some x ->
  forall w,
    Script.main env w =
      ({| ui := ui w;
          terminal :=
            terminal w ++ [Prompt "Enter the test case description: "];
          log := log w;
          calls := calls w ++ [request key description] |},
       Return tt).
Proof.
  intros Hkey Hset Hline Hanswer Hprint w.
  rewrite (script_main_run env key description Hkey Hset Hline), Hanswer.
  now rewrite Hprint.
Qed.

Lemma script_main_swallows_print_failure_example :
  stdout_error (MoreExamples.strict_terminal_env Examples.garbled_apology)
    Examples.garbled_apology =
    Some (mkExn UnicodeEncodeError
            "'utf-8' codec can't encode character '\ud800' in position 6: surrogates not allowed") /\
  Script.main (MoreExamples.strict_terminal_env Examples.garbled_apology)
    empty_world =
    ({| ui := [];
        terminal := [Prompt "Enter the test case description: "];
        log := [];
        calls := [request "sk-test" "Log in"] |},
     Return tt).
Proof.
  split; [reflexivity|].
  apply (script_main_swallows_print_failure
           (MoreExamples.strict_terminal_env Examples.garbled_apology)
           "sk-test" "Log in" Examples.garbled_apology _
           eq_refl eq_refl eq_refl eq_refl eq_refl empty_world).
Defined.

End ShellExtras.
